(** * vlotto_tui: a shallow embedding of the ticket buyer and its properties

    The program (src/vlotto_tui.py) talks to a Verus node over JSON-RPC,
    converts VRSC into vlotto when the wallet is short, and then buys
    marketplace offers one after the other.  This file embeds its
    functions, apart from the reading of the configuration file, the HTTP
    transport and the display:

    - JSON values as Python sees them after [json.loads], with the few
      dynamic operations the program applies to them ([.get], [or],
      truthiness, [float()], comparison with an integer);
    - [RpcClient.call] and [sleep_ms] as transitions of an arbitrary node
      ("world"), threaded through a state-and-exception monad that also
      keeps the chronological list of calls and sleeps;
    - the polling loops ([while True]) as functions with fuel: running out
      of fuel means "still looping", it is never turned into a result;
    - floats as the kernel's binary64 numbers;
    - console output is left out of these definitions, which describe the
      program on a console that takes every text; the purchase loop with
      its [print] calls on a console that may refuse one is
      [main_buy_loop_printing].

    Strings are sequences of bytes (UTF-8): [strip] and the ordering act
    on ASCII (for UTF-8 text the byte order is the code point order);
    [lower] lower-cases A-Z and is used only against ASCII literals, and
    [str.lower] on arbitrary text is a parameter of the development. *)

From Stdlib Require Import ZArith Floats Ascii String List Lia Bool.
From Stdlib Require DecimalString.
From stdpp Require Import base gmap strings list sorting.
Import ListNotations.

Local Open Scope Z_scope.

(** ** JSON values *)

#[local] Set Warnings "-register-all,-inexact-float,-clear-no-such-hyp".

Inductive json : Type :=
| JNull
| JBool (b : bool)
| JInt (z : Z)
| JFloat (f : float)
| JStr (s : string)
| JList (l : list json)
| JDict (d : list (string * json)).

(** A Python [dict] is kept as the list of its items in insertion order;
    [dict_get] returns the value of the first item with the key (keys of a
    Python dict are pairwise distinct). *)
Fixpoint dict_get (d : list (string * json)) (k : string) : option json :=
  match d with
  | [] => None
  | (k', v) :: d' => if String.eqb k' k then Some v else dict_get d' k
  end.

Definition dict_values (d : list (string * json)) : list json := map snd d.

(** [type(v).__name__], as it appears in Python's error messages. *)
Definition type_name (v : json) : string :=
  match v with
  | JNull => "NoneType"
  | JBool _ => "bool"
  | JInt _ => "int"
  | JFloat _ => "float"
  | JStr _ => "str"
  | JList _ => "list"
  | JDict _ => "dict"
  end.

(** [bool(v)]. *)
Definition truthy (v : json) : bool :=
  match v with
  | JNull => false
  | JBool b => b
  | JInt z => negb (z =? 0)
  | JFloat f => negb (f =? 0)%float
  | JStr s => negb (String.eqb s "")
  | JList l => match l with [] => false | _ => true end
  | JDict d => match d with [] => false | _ => true end
  end.

(** [v or d]. *)
Definition py_or (v d : json) : json := if truthy v then v else d.

(** ** ASCII string operations *)

Definition lower_ascii (c : ascii) : ascii :=
  let n := nat_of_ascii c in
  if (65 <=? n)%nat && (n <=? 90)%nat then ascii_of_nat (n + 32) else c.

(** [s.lower()] where the result is compared with, or searched for, one of
    the literals ["vlotto"], ["y"] and ["rejected"]: the letters A-Z are
    lower-cased and every other byte is kept. For these tests it agrees
    with the Unicode lower-casing, which maps no character outside A-Z to
    text holding a letter of these words. The lower-casing of arbitrary
    text, as [get_currency_balance] needs it, is [py_lower] below. *)
Fixpoint lower (s : string) : string :=
  match s with
  | EmptyString => EmptyString
  | String c s' => String (lower_ascii c) (lower s')
  end.

(** [needle in hay]. *)
Fixpoint contains (needle hay : string) : bool :=
  String.prefix needle hay ||
  match hay with
  | EmptyString => false
  | String _ hay' => contains needle hay'
  end.

(** [c.isspace()] on ASCII. *)
Definition is_space (c : ascii) : bool :=
  let n := nat_of_ascii c in
  ((9 <=? n)%nat && (n <=? 13)%nat) || ((28 <=? n)%nat && (n <=? 32)%nat).

Fixpoint lstrip (s : string) : string :=
  match s with
  | EmptyString => EmptyString
  | String c s' => if is_space c then lstrip s' else s
  end.

(** [s.strip()]. *)
Definition strip (s : string) : string :=
  String.rev (lstrip (String.rev (lstrip s))).

(** [s[:n]]. *)
Fixpoint take_str (n : nat) (s : string) : string :=
  match n, s with
  | S n', String c s' => String c (take_str n' s')
  | _, _ => EmptyString
  end.

(** ** Floats *)

(** [float(z)] for a Python [int]: the nearest binary64 number, and an
    [OverflowError] when that is out of range. *)
Definition float_of_Z (z : Z) : option float :=
  match binary_normalize prec emax z 0 false with
  | S754_infinity _ => None
  | sf => Some (SF2Prim sf)
  end.

(** [max(0.0, x)]: Python keeps its first argument unless the second is
    strictly greater. *)
Definition max0 (x : float) : float := if (0 <? x)%float then x else 0%float.

(** The order of binary64 numbers, read off their representation: a number
    that is not NaN has a key, and [<] on floats is the lexicographic order
    of the keys. *)
Definition SFkey (x : spec_float) : option (Z * (Z * Z)) :=
  match x with
  | S754_nan => None
  | S754_zero _ => Some (0, (0, 0))
  | S754_infinity s => Some (if s then -2 else 2, (0, 0))
  | S754_finite s m e => Some (if s then (-1, (- e, - Zpos m)) else (1, (e, Zpos m)))
  end.

Definition fkey (x : float) : option (Z * (Z * Z)) := SFkey (Prim2SF x).

Definition lt3 (a b : Z * (Z * Z)) : Prop :=
  let '(a1, (a2, a3)) := a in
  let '(b1, (b2, b3)) := b in
  a1 < b1 \/ (a1 = b1 /\ (a2 < b2 \/ (a2 = b2 /\ a3 < b3))).

Definition SFpositive (r : spec_float) : bool :=
  match r with
  | S754_finite false _ _ | S754_infinity false => true
  | _ => false
  end.

(** ** Results of running a piece of the program *)

(** [Raise msg] is an exception derived from [Exception] whose [str(e)] is
    [msg]; [Exit] is [SystemExit], which [except Exception] does not catch.
    [Stuck] marks a run that leaves the fragment of Python modelled here (an
    identifier that is a truthy JSON value but not a string).  [OutOfFuel]
    is a loop that is still running when the fuel is spent. *)
Inductive result (A : Type) : Type :=
| Ret (a : A)
| Raise (msg : string)
| Exit (msg : string)
| Stuck
| OutOfFuel.

Arguments Ret {A} a.
Arguments Raise {A} msg.
Arguments Exit {A} msg.
Arguments Stuck {A}.
Arguments OutOfFuel {A}.

Definition rbind {A B} (r : result A) (k : A -> result B) : result B :=
  match r with
  | Ret a => k a
  | Raise msg => Raise msg
  | Exit msg => Exit msg
  | Stuck => Stuck
  | OutOfFuel => OutOfFuel
  end.

Notation "'let+' x := r 'in' k" := (rbind r (fun x => k))
  (at level 10, x name, r at level 100, k at level 200, only parsing).

(** [v.get(k)]: only a dict has the method. *)
Definition py_get (v : json) (k : string) : result json :=
  match v with
  | JDict d => Ret (default JNull (dict_get d k))
  | _ => Raise ("'" +:+ type_name v +:+ "' object has no attribute 'get'")
  end.

(** A JSON value used as an identifier (offer or transaction id): falsy
    values count as absent, strings are themselves. *)
Definition as_id (v : json) : result (option string) :=
  match v with
  | JStr s => Ret (if String.eqb s "" then None else Some s)
  | _ => if truthy v then Stuck else Ret None
  end.

(** A JSON value used where the program needs a string. *)
Definition as_str (v : json) : result string :=
  match v with
  | JStr s => Ret s
  | _ => Stuck
  end.

(** [confs >= z] for a value read from JSON and a small integer [z]. *)
Definition py_ge_int (v : json) (z : Z) : result bool :=
  match v with
  | JInt c => Ret (z <=? c)
  | JBool b => Ret (z <=? (if b then 1 else 0))
  | JFloat f => match float_of_Z z with
                | Some g => Ret (g <=? f)%float
                | None => Stuck
                end
  | _ => Raise ("'>=' not supported between instances of '" +:+ type_name v +:+ "' and 'int'")
  end.

(** [confs == z]. *)
Definition py_eq_int (v : json) (z : Z) : bool :=
  match v with
  | JInt c => c =? z
  | JBool b => (if b then 1 else 0) =? z
  | JFloat f => match float_of_Z z with
                | Some g => (f =? g)%float
                | None => false
                end
  | _ => false
  end.

(** ** The node, the log and the monad *)

(** One entry per remote call (with the node's reply: [inl msg] when
    [RpcClient.call] raises [RuntimeError(msg)]) and per sleep. *)
Inductive event : Type :=
| ECall (method : string) (params : list json) (reply : string + json)
| ESleep (ms : Z).

Section Program.

#[local] Set Default Proof Using "Type".

(** The node behind [RpcClient]: an arbitrary state machine. *)
Variable World : Type.
Variable rpc : string -> list json -> World -> (string + json) * World.
Variable sleep : Z -> World -> World.

(** Python built-ins that are used but not modelled: [json.dumps],
    [float] on a string, [round], [str] on a value that is not a string,
    and [str.lower] on arbitrary text (the Unicode lower-casing). *)
Variable json_dumps : json -> string.
Variable py_float_of_string : string -> option float.
Variable py_round : float -> Z -> float.
Variable py_str : json -> string.
Variable py_lower : string -> string.

Record state : Type := State { world : World; log : list event }.

Definition M (A : Type) : Type := state -> result A * state.

Definition ret {A} (a : A) : M A := fun s => (Ret a, s).

Definition bind {A B} (m : M A) (k : A -> M B) : M B :=
  fun s =>
    match m s with
    | (Ret a, s') => k a s'
    | (Raise msg, s') => (Raise msg, s')
    | (Exit msg, s') => (Exit msg, s')
    | (Stuck, s') => (Stuck, s')
    | (OutOfFuel, s') => (OutOfFuel, s')
    end.

Definition lift {A} (r : result A) : M A := fun s => (r, s).

Definition raise {A} (msg : string) : M A := lift (Raise msg).

(** [try: m  except Exception as e: h(str(e))]. *)
Definition try_except {A} (m : M A) (h : string -> M A) : M A :=
  fun s =>
    match m s with
    | (Raise msg, s') => h msg s'
    | other => other
    end.

(** The outcome of a [try] body, for a handler that goes on with the
    local variables as the body left them. *)
Definition attempt {A} (m : M A) : M (string + A) :=
  try_except (bind m (fun a => ret (inr a))) (fun msg => ret (inl msg)).

Notation "'let*' x := m 'in' k" := (bind m (fun x => k))
  (at level 10, x name, m at level 100, k at level 200, only parsing).

(** [rpc.call(method, params)]. *)
Definition call (method : string) (params : list json) : M json :=
  fun s =>
    let '(reply, w) := rpc method params (world s) in
    let s' := State w (log s ++ [ECall method params reply]) in
    match reply with
    | inl msg => (Raise msg, s')
    | inr v => (Ret v, s')
    end.

(** [sleep_ms(ms)]. *)
Definition sleep_ms (ms : Z) : M unit :=
  fun s => (Ret tt, State (sleep ms (world s)) (log s ++ [ESleep ms])).

(** [float(v)]. *)
Definition py_float (v : json) : result float :=
  match v with
  | JFloat f => Ret f
  | JInt z => match float_of_Z z with
              | Some f => Ret f
              | None => Raise "int too large to convert to float"
              end
  | JBool b => Ret (if b then 1 else 0)%float
  | JStr s => match py_float_of_string s with
              | Some f => Ret f
              | None => Raise ("could not convert string to float: '" +:+ s +:+ "'")
              end
  | _ => Raise ("float() argument must be a string or a real number, not '"
                +:+ type_name v +:+ "'")
  end.

(** [str(v)]. *)
Definition str_of (v : json) : string :=
  match v with
  | JStr s => s
  | _ => py_str v
  end.

(** *** get_currency_balance *)

Definition get_currency_balance (address currency : string) : M float :=
  try_except
    (let* bal_dict := call "getcurrencybalance" [JStr address] in
     match bal_dict with
     | JDict d =>
         match dict_get d currency with
         | Some v => lift (py_float v)
         | None =>
             match find (fun kv => String.eqb (py_lower (fst kv))
                                              (py_lower currency)) d with
             | Some (_, v) => lift (py_float v)
             | None => ret 0%float
             end
         end
     | _ => ret 0%float
     end)
    (fun _ => ret 0%float).

(** *** get_tx_confirmations and wait_for_tx_confirmed *)

Definition get_tx_confirmations (txid : string) : M json :=
  try_except
    (let* tx := call "gettransaction" [JStr txid] in
     match tx with
     | JDict d => ret (default (JInt 0) (dict_get d "confirmations"))
     | _ => ret (JInt 0)
     end)
    (fun _ => ret (JInt 0)).

Definition orphaned_msg (txid : string) : string :=
  "Transaction " +:+ txid +:+ " was orphaned (confirmations=-1)".

Fixpoint wait_for_tx_confirmed (fuel : nat) (txid : string) (min_confirmations : Z)
  : M json :=
  match fuel with
  | O => lift OutOfFuel
  | S fuel' =>
      let* confs := get_tx_confirmations txid in
      let* ge := lift (py_ge_int confs min_confirmations) in
      if ge : bool then ret confs
      else if py_eq_int confs (-1) then raise (orphaned_msg txid)
      else let* _ := sleep_ms 5000 in wait_for_tx_confirmed fuel' txid min_confirmations
  end.

(** *** get_best_exact_out_converter *)

(** [isinstance(v, (int, float, str))]; a [bool] is an [int]. *)
Definition is_num_or_str (v : json) : bool :=
  match v with
  | JInt _ | JBool _ | JFloat _ | JStr _ => true
  | _ => false
  end.

Fixpoint floats_of (vs : list json) : result (list float) :=
  match vs with
  | [] => Ret []
  | v :: vs' =>
      let+ f := py_float v in
      let+ fs := floats_of vs' in
      Ret (f :: fs)
  end.

(** [v == v and v > 0]. *)
Definition positive_number (v : float) : bool := ((v =? v) && (0 <? v))%float.

(** One turn of the [for c in res] loop up to [required = vals[0]]:
    [None] is [continue]. *)
Definition quote_of (c : json) : result (option (json * float)) :=
  let+ via := py_get (py_or c (JDict [])) "fullyqualifiedname" in
  let+ sourceamounts := py_get (py_or c (JDict [])) "sourceamounts" in
  match sourceamounts with
  | JDict ((_ :: _) as d) =>
      if negb (truthy via) then Ret None
      else
        let+ vals := floats_of (List.filter is_num_or_str (dict_values d)) in
        match List.filter positive_number vals with
        | [] => Ret None
        | required :: _ => Ret (Some (via, required))
        end
  | _ => Ret None
  end.

(** [if best_required is None or required < best_required: ...]. *)
Definition keep_best (best : option (float * json)) (required : float) (via : json)
  : option (float * json) :=
  match best with
  | None => Some (required, via)
  | Some (best_required, _) =>
      if (required <? best_required)%float then Some (required, via) else best
  end.

Fixpoint scan_converters (res : list json) (best : option (float * json))
  : result (option (float * json)) :=
  match res with
  | [] => Ret best
  | c :: res' =>
      let+ q := quote_of c in
      match q with
      | None => scan_converters res' best
      | Some (via, required) => scan_converters res' (keep_best best required via)
      end
  end.

Definition converter_query (from_currency to_currency : string) (to_amount : float)
  : json :=
  JDict [("fromcurrency", JList [JDict [("currency", JStr from_currency)]]);
         ("convertto", JStr to_currency);
         ("amount", JFloat (py_round to_amount 8))].

Definition no_converters_msg (from_currency to_currency : string) : string :=
  "No converters found for " +:+ from_currency +:+ " -> " +:+ to_currency.

Definition no_route_msg (from_currency to_currency : string) : string :=
  "No usable converter route found for " +:+ from_currency +:+ " -> " +:+ to_currency.

Definition get_best_exact_out_converter
    (from_currency to_currency : string) (to_amount : float) : M (float * json) :=
  let query := converter_query from_currency to_currency to_amount in
  let* res := call "getcurrencyconverters" [JStr (json_dumps query)] in
  match res with
  | JList ((_ :: _) as l) =>
      let* best := lift (scan_converters l None) in
      match best with
      | None => raise (no_route_msg from_currency to_currency)
      | Some (best_required, best_via) => ret (py_round best_required 8, best_via)
      end
  | _ => raise (no_converters_msg from_currency to_currency)
  end.

(** *** sendcurrency_convert *)

(** [if via and via.lower() != to_currency.lower(): obj["via"] = via]. *)
Definition via_field (via : json) (to_currency : string)
  : result (list (string * json)) :=
  if truthy via then
    match via with
    | JStr v => Ret (if String.eqb (lower v) (lower to_currency) then []
                     else [("via", via)])
    | _ => Raise ("'" +:+ type_name via +:+ "' object has no attribute 'lower'")
    end
  else Ret [].

Definition sendcurrency_convert
    (from_address from_currency to_currency : string) (amount_in : float) (via : json)
  : M string :=
  let* extra := lift (via_field via to_currency) in
  let obj := JDict ([("address", JStr from_address);
                     ("amount", JFloat (py_round amount_in 8));
                     ("currency", JStr from_currency);
                     ("convertto", JStr to_currency)] ++ extra) in
  let* result := call "sendcurrency" [JStr from_address; JList [obj]] in
  match result with
  | JStr s => ret s
  | JDict d => match dict_get d "txid" with
               | Some t => ret (str_of t)
               | None => ret (str_of result)
               end
  | _ => ret (str_of result)
  end.

(** *** wait_for_opid_success and wait_for_balance *)

Definition is_str (v : json) (s : string) : bool :=
  match v with
  | JStr s' => String.eqb s' s
  | _ => false
  end.

Fixpoint wait_for_opid_success (fuel : nat) (opid : string) : M json :=
  match fuel with
  | O => lift OutOfFuel
  | S fuel' =>
      let* status := call "z_getoperationstatus" [JList [JStr opid]] in
      let again := (let* _ := sleep_ms 3000 in wait_for_opid_success fuel' opid) in
      match status with
      | JList (s0 :: _) =>
          let* st := lift (py_get s0 "status") in
          if is_str st "success" then
            let* r := lift (py_get s0 "result") in
            let* txid := lift (py_get (py_or r (JDict [])) "txid") in
            ret (py_or txid (JStr ""))
          else if is_str st "failed" then
            let* e := lift (py_get s0 "error") in
            let* err := lift (py_get (py_or e (JDict [])) "message") in
            raise (str_of (py_or err (JStr "Operation failed")))
          else again
      | _ => again
      end
  end.

Fixpoint wait_for_balance (fuel : nat) (address currency : string) (min_balance : float)
  : M float :=
  match fuel with
  | O => lift OutOfFuel
  | S fuel' =>
      let* bal := get_currency_balance address currency in
      if (min_balance <=? bal)%float then ret bal
      else let* _ := sleep_ms 5000 in wait_for_balance fuel' address currency min_balance
  end.

(** *** The offer pool: extract_offers_list, the sort by name, the scan *)

Definition is_list (v : json) : bool :=
  match v with
  | JList _ => true
  | _ => false
  end.

Definition extract_offers_list (getoffers_result : json) : list json :=
  match getoffers_result with
  | JList l => l
  | JDict d =>
      match List.filter is_list (dict_values d) with
      | [JList l] => l
      | _ => []
      end
  | _ => []
  end.

(** The sort key
    [(((o or {}).get("offer") or {}).get("offer") or {}).get("name") or ""]. *)
Definition name_key (o : json) : result string :=
  let+ a := py_get (py_or o (JDict [])) "offer" in
  let+ b := py_get (py_or a (JDict [])) "offer" in
  let+ n := py_get (py_or b (JDict [])) "name" in
  as_str (py_or n (JStr "")).

Fixpoint keyed (offers : list json) : result (list (string * json)) :=
  match offers with
  | [] => Ret []
  | o :: offers' =>
      let+ k := name_key o in
      let+ ks := keyed offers' in
      Ret ((k, o) :: ks)
  end.

(** [list.sort] is stable and ascending; here as an insertion sort that
    puts an element before the first one whose key is not smaller. *)
Fixpoint insert_by_key (x : string * json) (l : list (string * json))
  : list (string * json) :=
  match l with
  | [] => [x]
  | y :: l' => if String.ltb (fst y) (fst x) then y :: insert_by_key x l' else x :: l
  end.

Definition sort_by_key (l : list (string * json)) : list (string * json) :=
  fold_right insert_by_key [] l.

Definition sort_offers (offers : list json) : result (list json) :=
  let+ ks := keyed offers in
  Ret (map snd (sort_by_key ks)).

(** [txid = ((offer.get("offer") or {}).get("txid"))]. *)
Definition offer_txid_of (offer : json) : result (option string) :=
  let+ o := py_get offer "offer" in
  let+ txid := py_get (py_or o (JDict [])) "txid" in
  as_id txid.

(** The [for offer in offers] scan: the first offer with a txid that is
    not in [attempted]. *)
Fixpoint find_offer (attempted : gset string) (offers : list json)
  : result (option (json * string)) :=
  match offers with
  | [] => Ret None
  | offer :: offers' =>
      let+ id := offer_txid_of offer in
      match id with
      | Some txid =>
          if bool_decide (txid ∈ attempted) then find_offer attempted offers'
          else Ret (Some (offer, txid))
      | None => find_offer attempted offers'
      end
  end.

(** The lines from [extract_offers_list] to [if not found_offer]: the next
    offer to try, given the reply of [getoffers] and the attempted set. *)
Definition select_next (offers_raw : json) (attempted : gset string)
  : result (option (json * string)) :=
  let+ offers := sort_offers (extract_offers_list offers_raw) in
  find_offer attempted offers.

(** *** take_ticket_offer *)

Definition VLOTTO_CURRENCY_ID : string := "iMLmoaN3SS8KdJwb7fG4WZxJMFrjJxHBfj".

Definition takeoffer_params (from_address change_address : string)
    (offer_txid ticket_name identity_id : json) (returntx : bool) : list json :=
  let accept_def :=
    JDict [("name", JStr (str_of ticket_name +:+ "@"));
           ("parent", JStr "vlotto");
           ("primaryaddresses", JList [JStr from_address]);
           ("minimumsignatures", JInt 1);
           ("identityid", identity_id)] in
  [JStr from_address;
   JDict [("txid", offer_txid);
          ("changeaddress", JStr change_address);
          ("deliver", JDict [("currency", JStr VLOTTO_CURRENCY_ID);
                             ("amount", JFloat 1)]);
          ("accept", accept_def)]]
  ++ (if returntx then [JBool true] else []).

Definition take_ticket_offer (from_address change_address : string)
    (offer_entry : json) (returntx : bool) : M json :=
  let* o := lift (py_get offer_entry "offer") in
  let* offer_txid := lift (py_get (py_or o (JDict [])) "txid") in
  let* oo := lift (py_get (py_or o (JDict [])) "offer") in
  let* ticket_name := lift (py_get (py_or oo (JDict [])) "name") in
  let* identity_id := lift (py_get offer_entry "identityid") in
  if negb (truthy offer_txid) || negb (truthy ticket_name) then
    raise "Offer missing txid or ticket name"
  else if negb (truthy identity_id) then
    raise "Offer missing identityid"
  else
    let* result :=
      call "takeoffer"
           (takeoffer_params from_address change_address
                             offer_txid ticket_name identity_id returntx) in
    ret (JDict [("offer_txid", offer_txid); ("ticket", ticket_name);
                ("result", result)]).

(** *** main: the purchase loop *)

(** The local variables of the loop. *)
Record loop_state : Type := LoopState {
  purchased : list json;
  errors : list (string * string);
  attempted : gset string;
  bought : Z;
  last_txid : option string
}.

Definition initial_loop_state : loop_state := LoopState [] [] ∅ 0 None.

(** The [# Extract txid] lines: a string of at least 64 characters gives
    its first 64 after [strip], a dict with a ["txid"] key gives that
    value, anything else [None]. *)
Definition result_tx_id (result : json) : json :=
  match result with
  | JStr s => if (64 <=? String.length s)%nat then JStr (take_str 64 (strip s))
              else JNull
  | JDict d => match dict_get d "txid" with
               | Some v => v
               | None => JNull
               end
  | _ => JNull
  end.

(** [if "rejected" in err_msg.lower()]. *)
Definition is_rejected (err_msg : string) : bool :=
  contains "rejected" (lower err_msg).

(** Updates of the local variables. *)
Definition with_attempted (st : loop_state) (a : gset string) : loop_state :=
  LoopState (purchased st) (errors st) a (bought st) (last_txid st).

Definition with_error (st : loop_state) (offer_txid err_msg : string) : loop_state :=
  LoopState (purchased st) (errors st ++ [(offer_txid, err_msg)]) (attempted st)
            (bought st) (last_txid st).

Definition with_purchase (st : loop_state) (r : json) : loop_state :=
  LoopState (purchased st ++ [r]) (errors st) (attempted st) (bought st + 1)
            (last_txid st).

Definition with_last_txid (st : loop_state) (t : string) : loop_state :=
  LoopState (purchased st) (errors st) (attempted st) (bought st) (Some t).

(** The [except Exception as e] block, entered with the local variables
    as the [try] body left them. Its [print] calls are left out here; they
    are in [on_error_printing]. *)
Definition on_error (fuel : nat) (st : loop_state) (offer_txid err_msg : string)
  : M loop_state :=
  if is_rejected err_msg then
    let* _ := match last_txid st with
              | Some t => let* _ := wait_for_tx_confirmed fuel t 1 in ret tt
              | None => sleep_ms 5000
              end in
    ret (with_attempted st (attempted st ∖ {[offer_txid]}))
  else
    ret (with_error st offer_txid err_msg).

(** The rest of the [try] body once [purchased] and [bought] are updated:
    wait for this transaction, or remember it in [last_txid]. The [print]
    call that reports the purchase is left out here; it is in
    [after_purchase_printing]. *)
Definition after_purchase (fuel : nat) (qty : Z) (dry_run : bool)
    (st : loop_state) (tx_id : json) : M loop_state :=
  let* id := lift (as_id tx_id) in
  match id with
  | Some t =>
      if (bought st <? qty) && negb dry_run then
        let* _ := wait_for_tx_confirmed fuel t 1 in ret st
      else
        ret (with_last_txid st t)
  | None => ret st
  end.

Inductive flow : Type :=
| Continue (st : loop_state)
| Break (st : loop_state).

(** From [attempted.add(offer_txid)] to the end of the [except] block. An
    exception leaves [purchased] and [bought] as the [try] body had them
    when it was raised, so the body is run in two parts. *)
Definition attempt_offer (fuel : nat) (address change_address : string) (qty : Z)
    (dry_run : bool) (st : loop_state) (found_offer : json) (offer_txid : string)
  : M flow :=
  let st1 := with_attempted st ({[offer_txid]} ∪ attempted st) in
  let* taken := attempt (take_ticket_offer address change_address
                                           found_offer dry_run) in
  match taken with
  | inl err_msg =>
      let* st' := on_error fuel st1 offer_txid err_msg in
      ret (Continue st')
  | inr r =>
      let* result := lift (py_get r "result") in
      let st2 := with_purchase st1 r in
      let* rest := attempt (after_purchase fuel qty dry_run st2
                                           (result_tx_id result)) in
      match rest with
      | inl err_msg =>
          let* st' := on_error fuel st2 offer_txid err_msg in
          ret (Continue st')
      | inr st3 => ret (Continue st3)
      end
  end.

(** One turn of [while bought < qty]. *)
Definition buy_one (fuel : nat) (address change_address : string) (qty : Z)
    (dry_run : bool) (st : loop_state) : M flow :=
  let* offers_raw := call "getoffers" [JStr "vlotto"; JBool true] in
  let* found := lift (select_next offers_raw (attempted st)) in
  match found with
  | None => ret (Break st)
  | Some (found_offer, offer_txid) =>
      attempt_offer fuel address change_address qty dry_run st found_offer offer_txid
  end.

Fixpoint main_buy_loop (fuel : nat) (address change_address : string) (qty : Z)
    (dry_run : bool) (st : loop_state) : M loop_state :=
  if bought st <? qty then
    match fuel with
    | O => lift OutOfFuel
    | S fuel' =>
        let* f := buy_one fuel' address change_address qty dry_run st in
        match f with
        | Continue st' => main_buy_loop fuel' address change_address qty dry_run st'
        | Break st' => ret st'
        end
    end
  else ret st.

(** The loop and the [# Wait for last transaction to confirm if not already
    done] lines after it. *)
Definition main_buy_tickets (fuel : nat) (address change_address : string) (qty : Z)
    (dry_run : bool) : M loop_state :=
  let* st := main_buy_loop fuel address change_address qty dry_run initial_loop_state in
  match last_txid st with
  | Some t =>
      if negb dry_run then let* _ := wait_for_tx_confirmed fuel t 1 in ret st
      else ret st
  | None => ret st
  end.

(** *** main: liquidity (from [ticket_price = 1.0] to the balance wait) *)

(** [confirm] is the answer [prompt] returned. The result is the vlotto
    balance and [swap_opid]. *)
Definition main_liquidity (fuel : nat) (address : string) (qty : Z)
    (buffer_percent : float) (confirm : string) : M (float * option string) :=
  let ticket_price := 1%float in
  let* q := lift (py_float (JInt qty)) in
  let needed := (q * ticket_price)%float in
  let* vlotto_balance := get_currency_balance address "vlotto" in
  let deficit := max0 (needed - vlotto_balance)%float in
  let buf := if (buffer_percent <? 0)%float then 0%float else buffer_percent in
  let deficit_with_buffer :=
    if (0 <? deficit)%float then (deficit * (1 + buf))%float else 0%float in
  let* quote :=
    if (0 <? deficit_with_buffer)%float then
      get_best_exact_out_converter "VRSC" "vlotto" deficit_with_buffer
    else ret (0%float, JNull) in
  let '(required_vrsc, via) := quote in
  if negb (String.eqb (lower confirm) "y") then lift (Exit "Cancelled by user.")
  else if (0 <? deficit_with_buffer)%float then
    let* swap_opid :=
      sendcurrency_convert address "VRSC" "vlotto" required_vrsc via in
    let* _ :=
      if String.prefix "opid-" swap_opid then
        let* swap_txid := wait_for_opid_success fuel swap_opid in
        let* t := lift (as_str swap_txid) in
        let* _ := wait_for_tx_confirmed fuel t 1 in
        ret tt
      else ret tt in
    let* bal := wait_for_balance fuel address "vlotto" needed in
    ret (bal, Some swap_opid)
  else ret (vlotto_balance, None).

(** *** Sorting *)

(** [list.sort] and [sorted] are stable and ascending; here as an
    insertion sort that puts an element before the first one whose key is
    not smaller. [lt y x] reads "the key of [y] is smaller than the key of
    [x]". *)
Fixpoint insert_sorted {A} (lt : A -> A -> bool) (x : A) (l : list A) : list A :=
  match l with
  | [] => [x]
  | y :: l' => if lt y x then y :: insert_sorted lt x l' else x :: l
  end.

Definition py_sorted {A} (lt : A -> A -> bool) (l : list A) : list A :=
  fold_right (insert_sorted lt) [] l.

(** *** get_addresses_with_vrsc *)






(** *** get_my_tickets *)

(** [v.get(k, d)] inside a [try] block whose handler takes every
    exception: [None] is an exception ([v] is not a dict). *)
Definition get_or (v : json) (k : string) (d : json) : option json :=
  match v with
  | JDict items => Some (default d (dict_get items k))
  | _ => None
  end.

(** [address in primary] for a string [address]: membership in a list,
    substring of a string, key of a dict; [None] is the [TypeError] of the
    other types. *)
Definition py_in (address : string) (primary : json) : option bool :=
  match primary with
  | JList l => Some (existsb (fun v => is_str v address) l)
  | JStr p => Some (contains address p)
  | JDict d => Some (existsb (fun kv => String.eqb (fst kv) address) d)
  | _ => None
  end.

(** One turn of [for id_entry in ids]: [None] is an exception, [Some None]
    an entry that is passed over, [Some (Some name)] a ticket. *)
Definition ticket_entry (address : option string) (id_entry : json)
  : option (option json) :=
  match id_entry with
  | JDict d =>
      let id_info := default (JDict []) (dict_get d "identity") in
      match get_or id_info "name" (JStr ""), get_or id_info "parent" (JStr "") with
      | Some name, Some parent =>
          if is_str parent VLOTTO_CURRENCY_ID then
            match address with
            | Some a =>
                if String.eqb a "" then Some (Some name)
                else
                  match get_or id_info "primaryaddresses" (JList []) with
                  | Some primary =>
                      match py_in a primary with
                      | Some found => Some (if found then Some name else None)
                      | None => None
                      end
                  | None => None
                  end
            | None => Some (Some name)
            end
          else Some None
      | _, _ => None
      end
  | _ => Some None
  end.

(** The loop: an exception leaves in [tickets] what was collected. *)
Fixpoint scan_identities (address : option string) (ids : list json)
    (tickets : list json) : list json :=
  match ids with
  | [] => tickets
  | id_entry :: ids' =>
      match ticket_entry address id_entry with
      | Some (Some name) => scan_identities address ids' (tickets ++ [name])
      | Some None => scan_identities address ids' tickets
      | None => tickets
      end
  end.

(** The names as strings; names of other types are left out of the
    embedding. *)
Fixpoint strings_of (vs : list json) : result (list string) :=
  match vs with
  | [] => Ret []
  | v :: vs' =>
      let+ s := as_str v in
      let+ ss := strings_of vs' in
      Ret (s :: ss)
  end.

Definition get_my_tickets (address : option string) : M (list string) :=
  let* tickets :=
    try_except
      (let* ids := call "listidentities" [] in
       match ids with
       | JList l => ret (scan_identities address l [])
       | _ => ret []
       end)
      (fun _ => ret []) in
  let* names := lift (strings_of tickets) in
  ret (py_sorted String.ltb names).

(** *** Splitting strings *)

(** [s[n:]]. *)
Fixpoint drop_str (n : nat) (s : string) : string :=
  match n, s with
  | S n', String _ s' => drop_str n' s'
  | _, _ => s
  end.

(** The text before and the text after the first occurrence of [sep] in
    [s]; [None] when [sep] does not occur. *)
Fixpoint str_partition (sep s : string) : option (string * string) :=
  if String.prefix sep s then Some (EmptyString, drop_str (String.length sep) s)
  else
    match s with
    | EmptyString => None
    | String c s' =>
        match str_partition sep s' with
        | Some (a, b) => Some (String c a, b)
        | None => None
        end
    end.

(** [s.split(sep, 1)]. *)
Definition split_once (sep s : string) : list string :=
  match str_partition sep s with
  | Some (a, b) => [a; b]
  | None => [s]
  end.

(** [s.split(sep)] for a separator that is not empty: every split takes
    at least one character off, so the length of [s] bounds their
    number. *)
Fixpoint split_upto (n : nat) (sep s : string) : list string :=
  match n with
  | O => [s]
  | S n' =>
      match str_partition sep s with
      | Some (a, b) => a :: split_upto n' sep b
      | None => [s]
      end
  end.

Definition py_split (sep s : string) : list string :=
  split_upto (String.length s) sep s.

(** [str(z)] for an [int]. *)
Definition py_str_int (z : Z) : string :=
  DecimalString.NilZero.string_of_int (Z.to_int z).

(** *** parse_ticket_name, summarize_offers and the quantity *)

(** The dict [parse_ticket_name] returns. *)
Record ticket_name : Type := TicketName {
  tn_raw : string;
  tn_draw_block : option Z;
  tn_ticket_num : option Z;
  tn_total_tickets : option Z
}.

(** The dict [summarize_offers] returns; [sm_draw_info] maps a draw key to
    its ["draw_block"] and ["total_tickets"]. *)
Record summary : Type := Summary {
  sm_total : Z;
  sm_ticket_names : list string;
  sm_draws : list (string * list string);
  sm_draw_info : list (string * (Z * option Z))
}.

(** [(((o or {}).get("offer") or {}).get("offer") or {}).get("name")]. *)
Definition offer_name (o : json) : result json :=
  let+ a := py_get (py_or o (JDict [])) "offer" in
  let+ b := py_get (py_or a (JDict [])) "offer" in
  py_get (py_or b (JDict [])) "name".

(** [by_draw.setdefault(draw_key, []).append(name)]. *)
Fixpoint setdefault_append (draw_key name : string) (by_draw : list (string * list string))
  : list (string * list string) :=
  match by_draw with
  | [] => [(draw_key, [name])]
  | (k, names) :: by_draw' =>
      if String.eqb k draw_key then (k, names ++ [name]) :: by_draw'
      else (k, names) :: setdefault_append draw_key name by_draw'
  end.

(** [if draw_key not in draw_info: draw_info[draw_key] = info]. *)
Definition add_draw_info (draw_key : string) (info : Z * option Z)
    (draw_info : list (string * (Z * option Z))) : list (string * (Z * option Z)) :=
  if existsb (fun kv => String.eqb (fst kv) draw_key) draw_info then draw_info
  else draw_info ++ [(draw_key, info)].

(** The sort key [(-len(kv[1]), kv[0])], compared as Python compares
    tuples. *)
Definition by_count_desc (x y : string * list string) : bool :=
  let kx := (- Z.of_nat (length (snd x)), fst x) in
  let ky := (- Z.of_nat (length (snd y)), fst y) in
  (fst kx <? fst ky) || ((fst kx =? fst ky) && String.ltb (snd kx) (snd ky)).

Section Integers.

(** [int(s)] for a string; [None] is [ValueError]. *)
Variable py_int_of_string : string -> option Z.

Definition parse_ticket_name (name : string) : ticket_name :=
  if negb (contains "_" name) then TicketName name None None None
  else
    let parts := split_once "_" name in
    let draw_block := py_int_of_string (nth 0 parts EmptyString) in
    match parts with
    | _ :: ticket_part :: _ =>
        if contains "of" ticket_part then
          match py_split "of" ticket_part with
          | [a; b] =>
              match py_int_of_string a with
              | Some n => TicketName name draw_block (Some n) (py_int_of_string b)
              | None => TicketName name draw_block None None
              end
          | _ => TicketName name draw_block None None
          end
        else TicketName name draw_block None None
    | _ => TicketName name draw_block None None
    end.

(** One turn of [for o in offers], on [names], [by_draw] and
    [draw_info]. A name that is not a string is left out of the
    embedding. *)
Definition summarize_step
    (acc : list string * list (string * list string) * list (string * (Z * option Z)))
    (o : json)
  : result (list string * list (string * list string) * list (string * (Z * option Z))) :=
  let+ name := offer_name o in
  if negb (truthy name) then Ret acc
  else
    let+ n := as_str name in
    let '(names, by_draw, draw_info) := acc in
    let parsed := parse_ticket_name n in
    match tn_draw_block parsed with
    | Some draw_block =>
        if draw_block =? 0 then Ret (names ++ [n], by_draw, draw_info)
        else
          let draw_key := py_str_int draw_block in
          Ret (names ++ [n],
               setdefault_append draw_key n by_draw,
               add_draw_info draw_key (draw_block, tn_total_tickets parsed) draw_info)
    | None => Ret (names ++ [n], by_draw, draw_info)
    end.

Fixpoint summarize_loop (offers : list json)
    (acc : list string * list (string * list string) * list (string * (Z * option Z)))
  : result (list string * list (string * list string) * list (string * (Z * option Z))) :=
  match offers with
  | [] => Ret acc
  | o :: offers' =>
      let+ acc' := summarize_step acc o in
      summarize_loop offers' acc'
  end.

Definition summarize_offers (offers : list json) : result summary :=
  let+ acc := summarize_loop offers ([], [], []) in
  let '(names, by_draw, draw_info) := acc in
  Ret (Summary (Z.of_nat (length offers)) names
               (py_sorted by_count_desc by_draw) draw_info).

(** [qty = int(qty_raw)], refused unless it is positive. *)
Definition main_quantity (qty_raw : string) : result Z :=
  match py_int_of_string qty_raw with
  | Some qty =>
      if qty <=? 0 then Exit "quantity must be a positive integer" else Ret qty
  | None => Exit "quantity must be a positive integer"
  end.

(** [main] from the quantity typed by the user to the final wait: the
    liquidity step, then the purchases, with [buffer_percent = 0.01],
    [dry_run = False] and the change sent to the buying address. [qty_raw]
    and [confirm] are the answers [prompt] returned. *)
Definition main_order (fuel : nat) (address qty_raw confirm : string) : M loop_state :=
  let* qty := lift (main_quantity qty_raw) in
  let* _ := main_liquidity fuel address qty 0.01 confirm in
  main_buy_tickets fuel address address qty false.

End Integers.

(** *** get_ledger_info *)

(** The outcome of [json.loads]: a value, [json.JSONDecodeError], or an
    exception of another class. *)
Inductive loaded : Type :=
| Loaded (v : json)
| DecodeError
| LoadError.

(** The [info] dict; [JNull] is [None]. *)
Record ledger_info : Type := LedgerInfo {
  li_jackpot : json;
  li_required_matches : json;
  li_drawing_block : json;
  li_total_tickets : json;
  li_tickets_on_marketplace : json;
  li_current_phase : json
}.

Definition no_ledger_info : ledger_info :=
  LedgerInfo JNull JNull JNull JNull JNull JNull.

(** The body of the inner [try] once [data] is loaded. A [.get] on a value
    that is not a dict raises, the handler of the outer [try] takes it and
    [info] is returned with the fields assigned before. *)
Definition read_report (data : json) : ledger_info :=
  match get_or data "lotteryParameters" (JDict []),
        get_or data "financialSummary" (JDict []),
        get_or data "ticketSummary" (JDict []) with
  | Some params, Some financial, Some tickets =>
      match get_or financial "jackpotCurrent" JNull with
      | Some jackpot =>
          match get_or params "requiredMatches" JNull,
                get_or params "drawingBlock" JNull with
          | Some required_matches, Some drawing_block =>
              match get_or tickets "planned" JNull,
                    get_or tickets "onMarketplace" JNull with
              | Some planned, Some on_marketplace =>
                  LedgerInfo jackpot required_matches drawing_block planned
                             on_marketplace
                             (default JNull (get_or data "currentPhase" JNull))
              | _, _ =>
                  LedgerInfo jackpot required_matches drawing_block JNull JNull JNull
              end
          | _, _ => LedgerInfo jackpot JNull JNull JNull JNull JNull
          end
      | None => no_ledger_info
      end
  | _, _, _ => no_ledger_info
  end.

(** A loop that returns at the first item for which its body returns. *)
Fixpoint first_found {A B} (f : A -> option B) (l : list A) : option B :=
  match l with
  | [] => None
  | x :: l' =>
      match f x with
      | Some b => Some b
      | None => first_found f l'
      end
  end.

Section Ledger.

Variable json_loads : string -> loaded.

(** One turn of [for inner_key, inner_val in entry.items()]: [None] when
    the loop goes on, [Some info] when the function returns [info], by
    [return info] or through the handler of the outer [try]. *)
Definition scan_message (inner_val : json) : option ledger_info :=
  match inner_val with
  | JDict d =>
      match get_or (default (JDict []) (dict_get d "objectdata")) "message" (JStr "") with
      | Some message =>
          if truthy message then
            match message with
            | JStr m =>
                if String.prefix "{" m then
                  match json_loads m with
                  | Loaded data => Some (read_report data)
                  | DecodeError => None
                  | LoadError => Some no_ledger_info
                  end
                else None
            | _ => Some no_ledger_info
            end
          else None
      | None => Some no_ledger_info
      end
  | _ => None
  end.

Definition scan_entry (entry : json) : option ledger_info :=
  match entry with
  | JDict d => first_found scan_message (dict_values d)
  | _ => None
  end.

Definition scan_entries (entries : json) : option ledger_info :=
  match entries with
  | JList l => first_found scan_entry l
  | _ => None
  end.

Definition get_ledger_info : M ledger_info :=
  try_except
    (let* ledger := call "getidentity" [JStr "ledger.vlotto@"] in
     match ledger with
     | JDict d =>
         match get_or (default (JDict []) (dict_get d "identity"))
                      "contentmultimap" (JDict []) with
         | Some (JDict contentmultimap) =>
             ret (default no_ledger_info
                          (first_found scan_entries (dict_values contentmultimap)))
         | _ => ret no_ledger_info
         end
     | _ => ret no_ledger_info
     end)
    (fun _ => ret no_ledger_info).

End Ledger.

(** *** The print calls of the purchase loop *)

(** The definitions above leave out the [print] calls: they describe the
    program on a console that takes every text. The purchase loop with its
    [print] calls, on a console that may refuse a text, is described here;
    on a console that takes every text it is the loop above. *)

Section Console.

(** [console line values w]: the outcome of the [print] call at line
    [line] of the source in the world [w], for a text built from [values]:
    [None] when the text is written, [Some msg] when the call raises an
    exception with the text [msg] (an output stream that is closed, or
    that cannot encode the text). Writing does not change the node. *)
Variable console : Z -> list json -> World -> option string.

Definition print_at (line : Z) (values : list json) : M unit :=
  fun s =>
    match console line values (world s) with
    | Some msg => (Raise msg, s)
    | None => (Ret tt, s)
    end.

(** The [while True] loop of [wait_for_tx_confirmed]. *)
Fixpoint wait_for_tx_polls_printing (fuel : nat) (txid : string) (min_confirmations : Z)
  : M json :=
  match fuel with
  | O => lift OutOfFuel
  | S fuel' =>
      let* confs := get_tx_confirmations txid in
      let* ge := lift (py_ge_int confs min_confirmations) in
      if ge : bool then
        let* _ := print_at 323 [confs] in
        ret confs
      else if py_eq_int confs (-1) then raise (orphaned_msg txid)
      else
        let* _ := print_at 326 [confs; JInt min_confirmations] in
        let* _ := sleep_ms 5000 in
        wait_for_tx_polls_printing fuel' txid min_confirmations
  end.

Definition wait_for_tx_confirmed_printing (fuel : nat) (txid : string)
    (min_confirmations : Z) : M json :=
  let* _ := print_at 319 [JStr txid] in
  wait_for_tx_polls_printing fuel txid min_confirmations.

(** The [except Exception as e] block with its [print] calls. *)
Definition on_error_printing (fuel : nat) (st : loop_state) (offer_txid err_msg : string)
  : M loop_state :=
  if is_rejected err_msg then
    let* _ := match last_txid st with
              | Some t =>
                  let* _ := print_at 749 [] in
                  let* _ := wait_for_tx_confirmed_printing fuel t 1 in
                  ret tt
              | None =>
                  let* _ := print_at 752 [] in
                  sleep_ms 5000
              end in
    ret (with_attempted st (attempted st ∖ {[offer_txid]}))
  else
    let* _ := print_at 758 [JStr err_msg] in
    ret (with_error st offer_txid err_msg).

(** The rest of the [try] body once [purchased] and [bought] are updated,
    from the [print] call that reports the purchase. *)
Definition after_purchase_printing (fuel : nat) (qty : Z) (dry_run : bool)
    (st : loop_state) (r tx_id : json) : M loop_state :=
  let* ticket := lift (py_get r "ticket") in
  let* _ := print_at 736 [JInt (bought st); JInt qty; ticket] in
  let* id := lift (as_id tx_id) in
  match id with
  | Some t =>
      if (bought st <? qty) && negb dry_run then
        let* _ := wait_for_tx_confirmed_printing fuel t 1 in ret st
      else
        ret (with_last_txid st t)
  | None => ret st
  end.

Definition attempt_offer_printing (fuel : nat) (address change_address : string)
    (qty : Z) (dry_run : bool) (st : loop_state) (found_offer : json)
    (offer_txid : string) : M flow :=
  let st1 := with_attempted st ({[offer_txid]} ∪ attempted st) in
  let* taken := attempt (take_ticket_offer address change_address
                                           found_offer dry_run) in
  match taken with
  | inl err_msg =>
      let* st' := on_error_printing fuel st1 offer_txid err_msg in
      ret (Continue st')
  | inr r =>
      let* result := lift (py_get r "result") in
      let st2 := with_purchase st1 r in
      let* rest := attempt (after_purchase_printing fuel qty dry_run st2 r
                                                    (result_tx_id result)) in
      match rest with
      | inl err_msg =>
          let* st' := on_error_printing fuel st2 offer_txid err_msg in
          ret (Continue st')
      | inr st3 => ret (Continue st3)
      end
  end.

Definition buy_one_printing (fuel : nat) (address change_address : string) (qty : Z)
    (dry_run : bool) (st : loop_state) : M flow :=
  let* offers_raw := call "getoffers" [JStr "vlotto"; JBool true] in
  let* found := lift (select_next offers_raw (attempted st)) in
  match found with
  | None =>
      let* _ := print_at 717 [] in
      ret (Break st)
  | Some (found_offer, offer_txid) =>
      attempt_offer_printing fuel address change_address qty dry_run st
                             found_offer offer_txid
  end.

Fixpoint main_buy_loop_printing (fuel : nat) (address change_address : string)
    (qty : Z) (dry_run : bool) (st : loop_state) : M loop_state :=
  if bought st <? qty then
    match fuel with
    | O => lift OutOfFuel
    | S fuel' =>
        let* f := buy_one_printing fuel' address change_address qty dry_run st in
        match f with
        | Continue st' =>
            main_buy_loop_printing fuel' address change_address qty dry_run st'
        | Break st' => ret st'
        end
    end
  else ret st.

End Console.

(** ** Vocabulary of the properties *)

(** The state after one remote call, and the node's reply to it. *)
Definition reply_of (method : string) (params : list json) (s : state) : string + json :=
  fst (rpc method params (world s)).

Definition after_call (method : string) (params : list json) (s : state) : state :=
  State (snd (rpc method params (world s)))
        (log s ++ [ECall method params (reply_of method params s)]).

Definition slept (ms : Z) (s : state) : state :=
  State (sleep ms (world s)) (log s ++ [ESleep ms]).

(** What one poll of [gettransaction] reads from the reply. *)
Definition confirmations_of (reply : string + json) : json :=
  match reply with
  | inr (JDict d) => default (JInt 0) (dict_get d "confirmations")
  | _ => JInt 0
  end.

Definition poll_reply (txid : string) (s : state) : string + json :=
  reply_of "gettransaction" [JStr txid] s.

Definition polled (txid : string) (s : state) : state :=
  after_call "gettransaction" [JStr txid] s.

(** [pending_rounds txid m n s s']: from [s], [n] polls in a row read a
    count below [m] other than -1, each followed by a sleep of 5000 ms, and
    lead to [s']. *)
Inductive pending_rounds (txid : string) (m : Z) : nat -> state -> state -> Prop :=
| PR_done s : pending_rounds txid m 0 s s
| PR_round n s c s' :
    confirmations_of (poll_reply txid s) = JInt c ->
    c < m -> c <> -1 ->
    pending_rounds txid m n (slept 5000 (polled txid s)) s' ->
    pending_rounds txid m (S n) s s'.

(** A poll that fails: the call raises, or the result is not a dict. *)
Definition poll_fails (reply : string + json) : Prop :=
  match reply with
  | inl _ => True
  | inr (JDict _) => False
  | inr _ => True
  end.

Inductive failing_rounds (txid : string) : nat -> state -> state -> Prop :=
| FR_done s : failing_rounds txid 0 s s
| FR_round n s s' :
    poll_fails (poll_reply txid s) ->
    failing_rounds txid n (slept 5000 (polled txid s)) s' ->
    failing_rounds txid (S n) s s'.

(** The log of [n] rounds of polling. *)
Definition polling_log (txid : string) (replies : list (string + json)) : list event :=
  flat_map (fun r => [ECall "gettransaction" [JStr txid] r; ESleep 5000]) replies.

(** [float(v)], or 0.0 when it raises. *)
Definition float_or_zero (v : json) : float :=
  match py_float v with
  | Ret f => f
  | _ => 0%float
  end.

(** [k.lower() == currency.lower()]. *)
Definition same_ignoring_case (currency : string) (kv : string * json) : Prop :=
  py_lower (fst kv) = py_lower currency.

(** The balance the specification reads off the reply of
    [getcurrencybalance]: the exact key first, else the first key equal
    ignoring case, else 0.0. *)
Inductive balance_lookup (currency : string) : string + json -> float -> Prop :=
| BL_error msg : balance_lookup currency (inl msg) 0%float
| BL_not_dict v : (forall d, v <> JDict d) -> balance_lookup currency (inr v) 0%float
| BL_exact d v :
    dict_get d currency = Some v ->
    balance_lookup currency (inr (JDict d)) (float_or_zero v)
| BL_ignoring_case d d1 k v d2 :
    dict_get d currency = None ->
    d = d1 ++ (k, v) :: d2 ->
    py_lower k = py_lower currency ->
    Forall (fun kv => ~ same_ignoring_case currency kv) d1 ->
    balance_lookup currency (inr (JDict d)) (float_or_zero v)
| BL_no_key d :
    Forall (fun kv => ~ same_ignoring_case currency kv) d ->
    balance_lookup currency (inr (JDict d)) 0%float.

(** *** Offer selection *)

(** Ascending order of the sort keys: no later key is smaller. *)
Definition key_le (x y : string * json) : Prop := String.ltb (fst y) (fst x) = false.

Definition has_key (k : string) (x : string * json) : bool := String.eqb (fst x) k.

(** An offer that the scan passes over: it has no txid, or its txid is in
    [attempted]. *)
Definition passed_over (attempted : gset string) (offer : json) : Prop :=
  exists id, offer_txid_of offer = Ret id /\
             forall txid, id = Some txid -> txid ∈ attempted.

(** What the scan returns, read off the list it scans. *)
Definition scan_result (attempted : gset string) (offers : list json)
    (r : result (option (json * string))) : Prop :=
  match r with
  | Ret (Some (offer, txid)) =>
      exists before after,
        offers = before ++ offer :: after /\
        Forall (passed_over attempted) before /\
        offer_txid_of offer = Ret (Some txid) /\ txid ∉ attempted
  | Ret None => Forall (passed_over attempted) offers
  | Raise msg =>
      exists before offer after,
        offers = before ++ offer :: after /\
        Forall (passed_over attempted) before /\ offer_txid_of offer = Raise msg
  | Stuck =>
      exists before offer after,
        offers = before ++ offer :: after /\
        Forall (passed_over attempted) before /\ offer_txid_of offer = Stuck
  | _ => False
  end.

(** *** Routes and quotes *)

(** The candidates that quote: for each entry of the reply that has a
    route name and a first positive amount, that name and amount, in the
    order of the reply. *)
Fixpoint quotes (res : list json) : result (list (json * float)) :=
  match res with
  | [] => Ret []
  | c :: res' =>
      let+ q := quote_of c in
      let+ qs := quotes res' in
      Ret (match q with
           | Some x => x :: qs
           | None => qs
           end)
  end.

(** [(via, m)] is the cheapest of [qs], the first one among equals: every
    earlier quote is strictly greater, no later quote is smaller. *)
Definition cheapest (qs : list (json * float)) (via : json) (m : float) : Prop :=
  exists before after,
    qs = before ++ (via, m) :: after /\
    Forall (fun q => (m <? snd q)%float = true) before /\
    Forall (fun q => (snd q <? m)%float = false) after.

Definition is_number (q : json * float) : Prop := (snd q =? snd q)%float = true.

(** An amount of a converter entry that counts: a number (a [bool] is an
    [int] in Python) or a string, which [float] reads. *)
Definition amount_value (v : json) : Prop :=
  match v with
  | JInt _ | JBool _ | JFloat _ | JStr _ => True
  | _ => False
  end.

(** A positive amount: a number, not NaN, above zero. *)
Definition positive_amount (r : float) : Prop :=
  (r =? r)%float = true /\ (0 <? r)%float = true.

(** The amounts before the one quoted: those that count are read, and
    none is positive. *)
Definition none_positive (amounts : list (string * json)) : Prop :=
  Forall (fun kv => amount_value (snd kv) ->
                    exists r, py_float (snd kv) = Ret r /\ ~ positive_amount r)
         amounts.

(** A candidate that quotes a positive numeric amount: the entry [c] is a
    dict with the non-empty route name [via] under ["fullyqualifiedname"],
    and [required] is the first positive amount of its ["sourceamounts"]. *)
Definition candidate (c via : json) (required : float) : Prop :=
  exists d sa d1 k v d2,
    c = JDict d /\
    dict_get d "fullyqualifiedname" = Some via /\ truthy via = true /\
    dict_get d "sourceamounts" = Some (JDict sa) /\
    sa = d1 ++ (k, v) :: d2 /\
    amount_value v /\ py_float v = Ret required /\ positive_amount required /\
    none_positive d1.

(** An entry whose reading raises nothing: a falsy value, or a dict in
    which, when it has a route name and a dict of source amounts, [float]
    converts every amount that counts. *)
Definition readable (c : json) : Prop :=
  truthy c = false \/
  exists d,
    c = JDict d /\
    forall sa,
      truthy (default JNull (dict_get d "fullyqualifiedname")) = true ->
      dict_get d "sourceamounts" = Some (JDict sa) ->
      Forall (fun kv => amount_value (snd kv) -> exists r, py_float (snd kv) = Ret r) sa.

(** [candidates_of l qs]: [qs] lists, in the order of the reply [l], the
    route name and the amount of every entry that is a candidate. *)
Inductive candidates_of : list json -> list (json * float) -> Prop :=
| CO_nil : candidates_of [] []
| CO_candidate c via required l qs :
    candidate c via required -> candidates_of l qs ->
    candidates_of (c :: l) ((via, required) :: qs)
| CO_skip c l qs :
    (forall via required, ~ candidate c via required) -> candidates_of l qs ->
    candidates_of (c :: l) qs.

(** *** Growth of the log *)

(** [extends_by P s s']: the log of [s'] is that of [s] followed by events
    that all satisfy [P]. *)
Definition extends_by (P : event -> Prop) (s s' : state) : Prop :=
  exists rest, log s' = log s ++ rest /\ Forall P rest.

Definition grows_by (P : event -> Prop) {A} (m : M A) : Prop :=
  forall s, extends_by P s (snd (m s)).

Definition any_event (e : event) : Prop := True.

(** An event that is not a [takeoffer]. *)
Definition quiet (e : event) : Prop :=
  match e with
  | ECall method _ _ => method <> "takeoffer"
  | ESleep _ => True
  end.

(** *** The purchase loop *)

(** The loop states met at the head of the [while] loop: the initial one,
    and the one each completed turn leaves. *)
Inductive reachable (address change_address : string) (qty : Z) (dry_run : bool)
  : loop_state -> state -> Prop :=
| reach_start s : reachable address change_address qty dry_run initial_loop_state s
| reach_turn fuel st s st' s' :
    reachable address change_address qty dry_run st s ->
    bought st < qty ->
    buy_one fuel address change_address qty dry_run st s = (Ret (Continue st'), s') ->
    reachable address change_address qty dry_run st' s'.

(** The offer id recorded in an entry of [purchased]. *)
Definition purchase_id (r : json) : option string :=
  match r with
  | JDict (("offer_txid", JStr t) :: _) => Some t
  | _ => None
  end.

Definition purchased_ids (st : loop_state) : list string := omap purchase_id (purchased st).

Definition offer_id (offer : json) : option string :=
  match offer_txid_of offer with
  | Ret (Some t) => Some t
  | _ => None
  end.

(** The offer ids seen in the replies to [getoffers]. *)
Definition offer_ids (offers : list json) : gset string := list_to_set (omap offer_id offers).

Fixpoint observed (l : list event) : gset string :=
  match l with
  | [] => ∅
  | ECall method _ (inr r) :: l' =>
      (if String.eqb method "getoffers" then offer_ids (extract_offers_list r) else ∅)
      ∪ observed l'
  | _ :: l' => observed l'
  end.

(** Hexadecimal transaction ids. *)
Definition is_hex_digit (c : ascii) : bool :=
  let n := nat_of_ascii c in
  ((48 <=? n)%nat && (n <=? 57)%nat) || ((97 <=? n)%nat && (n <=? 102)%nat)
  || ((65 <=? n)%nat && (n <=? 70)%nat).

Fixpoint is_hex (s : string) : bool :=
  match s with
  | EmptyString => true
  | String c s' => is_hex_digit c && is_hex s'
  end.

(** The transaction id a purchase is known by: that of the result of
    [takeoffer], when it has one. *)
Definition tx_id_of (result : json) : option string :=
  match as_id (result_tx_id result) with
  | Ret (Some t) => Some t
  | _ => None
  end.

(** The node's [takeoffer] hands out hexadecimal transaction ids. *)
Definition hex_tx_ids : Prop :=
  forall params w r t,
    fst (rpc "takeoffer" params w) = inr r -> tx_id_of r = Some t -> is_hex t = true.

(** A poll that shows at least one confirmation. *)
Definition confirms (reply : string + json) : bool :=
  match py_ge_int (confirmations_of reply) 1 with
  | Ret true => true
  | _ => false
  end.

(** A poll that reads an integer count other than the sentinel -1. *)
Definition plain_count (reply : string + json) : Prop :=
  exists c, confirmations_of reply = JInt c /\ c <> -1.

Definition plain_polls (l : list event) : Prop :=
  forall params reply, ECall "gettransaction" params reply ∈ l -> plain_count reply.

(** A monitor for the order of purchases: it remembers the transaction of
    the last purchase until a poll confirms it, and fails ([None]) when a
    [takeoffer] is submitted before that. *)
Definition monitor_step (awaiting : option string) (e : event) : option (option string) :=
  match e with
  | ECall method params reply =>
      if String.eqb method "takeoffer" then
        match awaiting with
        | Some _ => None
        | None => Some (match reply with
                        | inr r => tx_id_of r
                        | inl _ => None
                        end)
        end
      else if String.eqb method "gettransaction" then
        match awaiting, params with
        | Some t, [JStr t'] =>
            if String.eqb t t' && confirms reply then Some None else Some awaiting
        | _, _ => Some awaiting
        end
      else Some awaiting
  | ESleep _ => Some awaiting
  end.

Fixpoint monitor (awaiting : option string) (l : list event) : option (option string) :=
  match l with
  | [] => Some awaiting
  | e :: l' =>
      match monitor_step awaiting e with
      | Some awaiting' => monitor awaiting' l'
      | None => None
      end
  end.

(** Between a purchase that has a transaction id and the next [takeoffer]
    there is a poll that shows this transaction confirmed. *)
Definition sequenced (l : list event) : Prop :=
  forall l1 p1 r1 t l2 p2 r2 l3,
    l = l1 ++ ECall "takeoffer" p1 (inr r1) :: l2 ++ ECall "takeoffer" p2 r2 :: l3 ->
    tx_id_of r1 = Some t ->
    exists reply,
      ECall "gettransaction" [JStr t] reply ∈ l2 /\ confirms reply = true.

(** The same for every purchase, as the specification states it: between a
    successful [takeoffer] and the next one there is a poll that shows a
    transaction confirmed. *)
Definition sequenced_every_purchase (l : list event) : Prop :=
  forall l1 p1 r1 l2 p2 r2 l3,
    l = l1 ++ ECall "takeoffer" p1 (inr r1) :: l2 ++ ECall "takeoffer" p2 r2 :: l3 ->
    exists params reply,
      ECall "gettransaction" params reply ∈ l2 /\ confirms reply = true.

(** The specification's reading of the rejected second attempt: the event
    that follows a rejected [takeoffer] made after a purchase with
    transaction [t] is a poll of [t]. *)
Definition rejection_awaits_purchase (l : list event) : Prop :=
  forall l1 p1 r1 t l2 p2 msg e l3,
    l = l1 ++ ECall "takeoffer" p1 (inr r1) :: l2
           ++ ECall "takeoffer" p2 (inl msg) :: e :: l3 ->
    tx_id_of r1 = Some t ->
    is_rejected msg = true ->
    exists reply, e = ECall "gettransaction" [JStr t] reply.

(** The specification's reading of the attempted set: a strict subset of
    the observed offer ids. *)
Definition attempted_strictly_within (st : loop_state) (s : state) : Prop :=
  attempted st ⊂ observed (log s).

(** [mentions c s]: the character [c] occurs in [s]. *)
Fixpoint mentions (c : ascii) (s : string) : bool :=
  match s with
  | EmptyString => false
  | String c' s' => Ascii.eqb c c' || mentions c s'
  end.

(** The invariant of the loop on the three sets of ids. *)
Definition ids_invariant (st : loop_state) (s : state) : Prop :=
  length (purchased_ids st) = length (purchased st) /\
  NoDup (purchased_ids st) /\
  (forall id, id ∈ purchased_ids st -> id ∈ attempted st) /\
  attempted st ⊆ observed (log s).

(** What a completed turn does to [attempted]: it adds the id it tried, or
    leaves the set as it was when the attempt was rejected. *)
Definition attempted_step (a c : string) (dry_run : bool) (st : loop_state) (s : state)
    (st' : loop_state) : Prop :=
  exists raw offer t,
    reply_of "getoffers" [JStr "vlotto"; JBool true] s = inr raw /\
    select_next raw (attempted st) = Ret (Some (offer, t)) /\
    (attempted st' = {[t]} ∪ attempted st \/
     (attempted st' = attempted st /\
      exists msg s2,
        take_ticket_offer a c offer dry_run
                          (after_call "getoffers" [JStr "vlotto"; JBool true] s)
        = (Raise msg, s2) /\
        is_rejected msg = true)).

(** *** Offer entries *)

(** The txid, the ticket name and the identityid of an offer entry:
    [entry["offer"]["txid"]], [entry["offer"]["offer"]["name"]] and
    [entry["identityid"]], each [None] when a key on the way is missing or
    falsy; an error when a value on the way is not a dict. *)
Definition offer_fields (offer_entry : json) : result (json * json * json) :=
  let+ o := py_get offer_entry "offer" in
  let+ offer_txid := py_get (py_or o (JDict [])) "txid" in
  let+ oo := py_get (py_or o (JDict [])) "offer" in
  let+ ticket_name := py_get (py_or oo (JDict [])) "name" in
  let+ identity_id := py_get offer_entry "identityid" in
  Ret (offer_txid, ticket_name, identity_id).

(** *** Waiting for an operation and for a balance *)

Definition opid_reply (opid : string) (s : state) : string + json :=
  reply_of "z_getoperationstatus" [JList [JStr opid]] s.

Definition opid_polled (opid : string) (s : state) : state :=
  after_call "z_getoperationstatus" [JList [JStr opid]] s.

(** A status poll that leaves the operation pending: the result is not a
    non-empty list, or the first entry of the list is a dict whose
    ["status"] is neither ["success"] nor ["failed"]. *)
Definition opid_pending (reply : string + json) : Prop :=
  match reply with
  | inl _ => False
  | inr (JList (JDict d :: _)) =>
      is_str (default JNull (dict_get d "status")) "success" = false /\
      is_str (default JNull (dict_get d "status")) "failed" = false
  | inr (JList (_ :: _)) => False
  | inr _ => True
  end.

(** [opid_rounds opid n s s']: from [s], [n] status polls in a row leave
    the operation pending, each followed by a sleep of 3000 ms, and lead to
    [s']. *)
Inductive opid_rounds (opid : string) : nat -> state -> state -> Prop :=
| OR_done s : opid_rounds opid 0 s s
| OR_round n s s' :
    opid_pending (opid_reply opid s) ->
    opid_rounds opid n (slept 3000 (opid_polled opid s)) s' ->
    opid_rounds opid (S n) s s'.

(** The events of a wait for a balance: lookups of the address and sleeps
    of 5000 ms. *)
Definition balance_poll (address : string) (e : event) : Prop :=
  match e with
  | ECall method params _ => method = "getcurrencybalance" /\ params = [JStr address]
  | ESleep ms => ms = 5000
  end.

(** The node does not answer balance lookups for [address]. *)
Definition balance_unavailable (address : string) : Prop :=
  forall w, exists msg, fst (rpc "getcurrencybalance" [JStr address] w) = inl msg.

(** *** Outcomes of a turn of the purchase loop *)

(** The outcome of a turn that ended in the [try] body or in the [except]
    block: the loop goes on with the state that was left. *)
Definition continue_of (r : result loop_state) : result flow :=
  match r with
  | Ret st => Ret (Continue st)
  | Raise msg => Raise msg
  | Exit msg => Exit msg
  | Stuck => Stuck
  | OutOfFuel => OutOfFuel
  end.

(** The outcome of a turn in which the scan found no offer to take. *)
Definition no_offer (st : loop_state) (r : result (option (json * string)))
  : result flow :=
  match r with
  | Ret _ => Ret (Break st)
  | Raise msg => Raise msg
  | Exit msg => Exit msg
  | Stuck => Stuck
  | OutOfFuel => OutOfFuel
  end.

(** The outcome of the loop when a turn ends it. *)
Definition end_of (r : result flow) : result loop_state :=
  match r with
  | Ret (Continue st) | Ret (Break st) => Ret st
  | Raise msg => Raise msg
  | Exit msg => Exit msg
  | Stuck => Stuck
  | OutOfFuel => OutOfFuel
  end.

(** *** Properties of the log of the purchase loop *)

(** The number of purchases in a log: the [takeoffer] calls that
    returned. *)
Fixpoint purchases_in (l : list event) : Z :=
  match l with
  | [] => 0
  | ECall method _ (inr _) :: l' =>
      (if String.eqb method "takeoffer" then 1 else 0) + purchases_in l'
  | _ :: l' => purchases_in l'
  end.

(** An outcome of reading JSON data: a value, a Python exception, or a
    case the embedding leaves out; never an exit and never a loop. *)
Definition data_outcome {A} (r : result A) : Prop :=
  match r with
  | Exit _ | OutOfFuel => False
  | _ => True
  end.

(** Every [takeoffer] call comes right after a [getoffers] call that
    returned, and asks for an offer of that reply. *)
Definition refreshed (a c : string) (dry_run : bool) (l : list event) : Prop :=
  forall l1 params reply l2,
    l = l1 ++ ECall "takeoffer" params reply :: l2 ->
    exists l0 raw offer t name idid,
      l1 = l0 ++ [ECall "getoffers" [JStr "vlotto"; JBool true] (inr raw)] /\
      offer ∈ extract_offers_list raw /\
      offer_txid_of offer = Ret (Some t) /\
      params = takeoffer_params a c (JStr t) name idid dry_run.

(** The offer a [takeoffer] call asks for: the ["txid"] of its request. *)
Definition taken_offer (e : event) : option string :=
  match e with
  | ECall method (_ :: JDict (("txid", JStr t) :: _) :: _) _ =>
      if String.eqb method "takeoffer" then Some t else None
  | _ => None
  end.

(** A call that failed with a "rejected" error. *)
Definition rejected_reply (e : event) : bool :=
  match e with
  | ECall _ _ (inl msg) => is_rejected msg
  | _ => false
  end.

(** No offer is asked for twice, unless the earlier call was rejected. *)
Definition never_resubmitted (l : list event) : Prop :=
  forall l1 e1 l2 e2 l3 t,
    l = l1 ++ e1 :: l2 ++ e2 :: l3 ->
    taken_offer e1 = Some t -> taken_offer e2 = Some t ->
    rejected_reply e1 = true.

(** Every purchase that is known by a transaction id is followed by a poll
    that shows this transaction confirmed. *)
Definition all_confirmed (l : list event) : Prop :=
  forall l1 params r t l2,
    l = l1 ++ ECall "takeoffer" params (inr r) :: l2 ->
    tx_id_of r = Some t ->
    exists reply,
      ECall "gettransaction" [JStr t] reply ∈ l2 /\ confirms reply = true.

(** The offers asked for in a log, other than by calls that were rejected,
    are all in [tried]. *)
Definition tracked (tried : gset string) (l : list event) : Prop :=
  forall e t,
    e ∈ l -> taken_offer e = Some t -> rejected_reply e = false -> t ∈ tried.

(** *** The order *)

(** An event that moves no funds: not a [sendcurrency] and not a
    [takeoffer] call. *)
Definition keeps_funds (e : event) : Prop :=
  match e with
  | ECall method _ _ => method <> "sendcurrency" /\ method <> "takeoffer"
  | ESleep _ => True
  end.

(** The number of swaps in a log: the [sendcurrency] calls. *)
Fixpoint swaps_in (l : list event) : nat :=
  match l with
  | [] => 0
  | ECall method _ _ :: l' =>
      ((if String.eqb method "sendcurrency" then 1 else 0) + swaps_in l')%nat
  | _ :: l' => swaps_in l'
  end.

(** An event that is not a [sendcurrency] call. *)
Definition not_swap (e : event) : Prop :=
  match e with
  | ECall method _ _ => method <> "sendcurrency"
  | ESleep _ => True
  end.

(** The request of a conversion of [amount] VRSC to vlotto, sent from
    [address]; [extra] is the ["via"] field, when there is one. *)
Definition swap_request (address : string) (amount : float)
    (extra : list (string * json)) : list json :=
  [JStr address;
   JList [JDict ([("address", JStr address);
                  ("amount", JFloat (py_round amount 8));
                  ("currency", JStr "VRSC");
                  ("convertto", JStr "vlotto")] ++ extra)]].

(** [s'] is reached from [s] by events other than swaps up to [s1], the
    swap [sendcurrency params] made in [s1], and again events other than
    swaps. *)
Definition one_swap_at (s : state) (params : list json) (s1 s' : state) : Prop :=
  extends_by not_swap s s1 /\
  extends_by not_swap (after_call "sendcurrency" params s1) s'.

(** A piece of the program that does not return. *)
Definition never_returns {A} (m : M A) : Prop :=
  forall s a, fst (m s) <> Ret a.

(** *** Sorted lists *)

(** [x] may come before [y] in a list sorted with [lt]: the key of [y]
    is not smaller than the key of [x]. *)
Definition not_after {A} (lt : A -> A -> bool) (x y : A) : Prop := lt y x = false.


(** *** Tickets of the wallet *)

(** An identity entry that [get_my_tickets] counts as a ticket named
    [name]: its identity has the vlotto currency as parent, and lists the
    address when one is asked for. *)
Definition is_ticket_of (address : option string) (id_entry : json) (name : json) : Prop :=
  exists d info,
    id_entry = JDict d /\
    dict_get d "identity" = Some (JDict info) /\
    dict_get info "parent" = Some (JStr VLOTTO_CURRENCY_ID) /\
    name = default (JStr "") (dict_get info "name") /\
    forall a, address = Some a -> a <> "" ->
              exists primary, dict_get info "primaryaddresses" = Some primary /\
                              py_in a primary = Some true.

(** *** Ticket names and draws *)

(** The key of the draw a name is filed under by [summarize_offers]: the
    decimal text of its draw block, when it has one other than 0. *)
Definition draw_key_of (py_int_of_string : string -> option Z) (name : string)
  : option string :=
  match tn_draw_block (parse_ticket_name py_int_of_string name) with
  | Some draw_block => if draw_block =? 0 then None else Some (py_str_int draw_block)
  | None => None
  end.

Definition has_draw (py_int_of_string : string -> option Z) (name : string) : bool :=
  match draw_key_of py_int_of_string name with
  | Some _ => true
  | None => false
  end.

(** The order of the draws of a summary: more tickets first, and among
    draws with as many tickets, the smaller key first. *)
Definition draw_before (x y : string * list string) : Prop :=
  (length (snd y) < length (snd x))%nat \/
  (length (snd x) = length (snd y) /\ String.le (fst x) (fst y)).

(** A draw of a summary is well formed: it has a ticket, and its tickets
    are names filed under its key. *)
Definition draw_ok (py_int_of_string : string -> option Z) (d : string * list string)
  : Prop :=
  snd d <> [] /\ Forall (fun n => draw_key_of py_int_of_string n = Some (fst d)) (snd d).

(** *** The ledger *)

(** [m] is a message of the ledger identity in [reply]: the ["message"] of
    the ["objectdata"] of a value of an entry of its content multimap. *)
Definition ledger_message (reply : string + json) (m : string) : Prop :=
  exists d contentmultimap entries entry inner,
    reply = inr (JDict d) /\
    get_or (default (JDict []) (dict_get d "identity")) "contentmultimap" (JDict [])
    = Some (JDict contentmultimap) /\
    JList entries ∈ dict_values contentmultimap /\
    JDict entry ∈ entries /\
    JDict inner ∈ dict_values entry /\
    get_or (default (JDict []) (dict_get inner "objectdata")) "message" (JStr "")
    = Some (JStr m).

(** *** The console *)

(** A console that takes every text: no [print] call raises. *)
Definition console_quiet (console : Z -> list json -> World -> option string) : Prop :=
  forall line values w, console line values w = None.

(** ** Basic facts about the monad and the calls *)

Lemma call_eq method params s :
  call method params s =
  (match reply_of method params s with
   | inl msg => Raise msg
   | inr v => Ret v
   end, after_call method params s).
Proof.
  unfold call, after_call, reply_of.
  destruct (rpc method params (world s)) as [[msg|v] w]; reflexivity.
Qed.

Lemma sleep_ms_eq ms s : sleep_ms ms s = (Ret tt, slept ms s).
Proof. reflexivity. Qed.

Lemma get_tx_confirmations_eq txid s :
  get_tx_confirmations txid s =
  (Ret (confirmations_of (poll_reply txid s)), polled txid s).
Proof.
  unfold get_tx_confirmations, try_except, bind, poll_reply, polled.
  rewrite call_eq.
  destruct (reply_of "gettransaction" [JStr txid] s) as [msg|v]; [reflexivity|].
  destruct v; reflexivity.
Qed.

(** One turn of the [while True] loop of [wait_for_tx_confirmed]. *)
Lemma wait_for_tx_confirmed_step fuel txid m s :
  wait_for_tx_confirmed (S fuel) txid m s =
  let confs := confirmations_of (poll_reply txid s) in
  match py_ge_int confs m with
  | Ret true => (Ret confs, polled txid s)
  | Ret false =>
      if py_eq_int confs (-1) then (Raise (orphaned_msg txid), polled txid s)
      else wait_for_tx_confirmed fuel txid m (slept 5000 (polled txid s))
  | Raise msg => (Raise msg, polled txid s)
  | Exit msg => (Exit msg, polled txid s)
  | Stuck => (Stuck, polled txid s)
  | OutOfFuel => (OutOfFuel, polled txid s)
  end.
Proof.
  cbn [wait_for_tx_confirmed]. unfold bind at 1.
  rewrite get_tx_confirmations_eq. unfold bind, lift.
  destruct (py_ge_int _ m) as [[|]| | | |]; try reflexivity.
  destruct (py_eq_int _ _); reflexivity.
Qed.

Lemma py_eq_int_JInt c z : py_eq_int (JInt c) z = (c =? z).
Proof. reflexivity. Qed.

Lemma wait_pending_rounds txid m n s s' :
  pending_rounds txid m n s s' ->
  forall k, wait_for_tx_confirmed (n + k) txid m s = wait_for_tx_confirmed k txid m s'.
Proof.
  induction 1 as [s|n s c s' Hc Hlt Hne _ IH]; intros k; [reflexivity|].
  change (S n + k)%nat with (S (n + k)).
  rewrite wait_for_tx_confirmed_step. cbn zeta. rewrite Hc. cbn [py_ge_int].
  replace (m <=? c) with false by (symmetry; apply Z.leb_gt; lia).
  rewrite py_eq_int_JInt.
  replace (c =? -1) with false by (symmetry; apply Z.eqb_neq; lia).
  apply IH.
Qed.

Lemma pending_rounds_log txid m n s s' :
  pending_rounds txid m n s s' ->
  exists replies, length replies = n /\ log s' = log s ++ polling_log txid replies.
Proof.
  induction 1 as [s|n s c s' Hc Hlt Hne _ [replies [Hlen Hlog]]].
  - exists []. split; [reflexivity|]. cbn. by rewrite app_nil_r.
  - exists (poll_reply txid s :: replies). split; [cbn; by rewrite Hlen|].
    rewrite Hlog. cbn. rewrite <- !app_assoc. reflexivity.
Qed.

Lemma failing_pending txid m n s s' :
  1 <= m -> failing_rounds txid n s s' -> pending_rounds txid m n s s'.
Proof.
  intros Hm. induction 1 as [s|n s s' Hf _ IH]; [constructor|].
  apply PR_round with (c := 0); [|lia|lia|exact IH].
  unfold poll_fails in Hf. destruct (poll_reply txid s) as [msg|[]]; try reflexivity.
  contradiction.
Qed.

(** ** The confirmation gate *)

(** C6: with [min_confirmations = 1], [wait_for_tx_confirmed] polls the
    confirmation count and sleeps 5000 ms after every pending count, for as
    long as the counts stay pending (any number [n] of rounds leaves it
    still polling); the first count of at least 1 is returned, and a count
    of -1 raises the "orphaned" error. *)
Theorem wait_for_tx_confirmed_gate txid n s s' :
  pending_rounds txid 1 n s s' ->
  (exists replies, length replies = n /\ log s' = log s ++ polling_log txid replies) /\
  wait_for_tx_confirmed n txid 1 s = (OutOfFuel, s') /\
  (forall c k, confirmations_of (poll_reply txid s') = JInt c -> 1 <= c ->
     wait_for_tx_confirmed (n + S k) txid 1 s = (Ret (JInt c), polled txid s')) /\
  (forall k, confirmations_of (poll_reply txid s') = JInt (-1) ->
     wait_for_tx_confirmed (n + S k) txid 1 s
     = (Raise (orphaned_msg txid), polled txid s')).
Proof.
  intros Hp. split; [exact (pending_rounds_log _ _ _ _ _ Hp)|].
  pose proof (wait_pending_rounds _ _ _ _ _ Hp) as Hw.
  split; [|split].
  - specialize (Hw 0%nat). rewrite Nat.add_0_r in Hw. rewrite Hw. reflexivity.
  - intros c k Hc Hge. rewrite Hw, wait_for_tx_confirmed_step. cbn zeta.
    rewrite Hc. cbn [py_ge_int].
    replace (1 <=? c) with true by (symmetry; apply Z.leb_le; lia).
    reflexivity.
  - intros k Hc. rewrite Hw, wait_for_tx_confirmed_step. cbn zeta.
    rewrite Hc. reflexivity.
Qed.

(** C9: a poll whose RPC call fails, or whose result is not a dict, reads
    as 0 confirmations; [get_tx_confirmations] never raises; so after any
    number of failed polls [wait_for_tx_confirmed] is still polling (it has
    slept 5000 ms after each one), while the same RPC failure aborts
    [get_best_exact_out_converter]. *)
Theorem polling_survives_rpc_failures txid :
  (forall s, poll_fails (poll_reply txid s) ->
     get_tx_confirmations txid s = (Ret (JInt 0), polled txid s)) /\
  (forall s, exists v, get_tx_confirmations txid s = (Ret v, polled txid s)) /\
  (forall n s s', failing_rounds txid n s s' ->
     (forall k, wait_for_tx_confirmed (n + k) txid 1 s
                = wait_for_tx_confirmed k txid 1 s') /\
     wait_for_tx_confirmed n txid 1 s = (OutOfFuel, s') /\
     exists replies, length replies = n /\ log s' = log s ++ polling_log txid replies) /\
  (forall from_currency to_currency amount s msg,
     let params := [JStr (json_dumps (converter_query from_currency to_currency amount))] in
     reply_of "getcurrencyconverters" params s = inl msg ->
     get_best_exact_out_converter from_currency to_currency amount s
     = (Raise msg, after_call "getcurrencyconverters" params s)).
Proof.
  split; [|split; [|split]].
  - intros s Hf. rewrite get_tx_confirmations_eq. f_equal. f_equal.
    unfold poll_fails in Hf. destruct (poll_reply txid s) as [msg|[]]; try reflexivity.
    contradiction.
  - intros s. eexists. apply get_tx_confirmations_eq.
  - intros n s s' Hf.
    assert (Hp : pending_rounds txid 1 n s s') by (apply failing_pending; [lia|exact Hf]).
    pose proof (wait_pending_rounds _ _ _ _ _ Hp) as Hw.
    split; [exact Hw|]. split.
    + specialize (Hw 0%nat). rewrite Nat.add_0_r in Hw. rewrite Hw. reflexivity.
    + exact (pending_rounds_log _ _ _ _ _ Hp).
  - intros from_currency to_currency amount s msg params Hr.
    unfold get_best_exact_out_converter, bind. fold params.
    rewrite call_eq, Hr. reflexivity.
Qed.

(** ** Balance lookup *)

Lemma py_float_cases v :
  (exists f, py_float v = Ret f) \/ (exists msg, py_float v = Raise msg).
Proof.
  destruct v as [|b|z|f|str|l|d]; cbn; eauto.
  - destruct (float_of_Z z); eauto.
  - destruct (py_float_of_string str); eauto.
Qed.

Lemma float_or_zero_eq v s :
  try_except (lift (py_float v)) (fun _ => ret 0%float) s = (Ret (float_or_zero v), s).
Proof.
  unfold try_except, lift, ret, float_or_zero.
  destruct (py_float_cases v) as [[f ->]|[msg ->]]; reflexivity.
Qed.

Lemma find_first {A} (p : A -> bool) (l : list A) :
  match find p l with
  | Some x => exists l1 l2, l = l1 ++ x :: l2 /\ p x = true
                            /\ Forall (fun y => p y = false) l1
  | None => Forall (fun y => p y = false) l
  end.
Proof.
  induction l as [|a l IH]; cbn; [constructor|].
  destruct (p a) eqn:Hpa.
  - exists [], l. repeat split; [exact Hpa|constructor].
  - destruct (find p l) as [x|].
    + destruct IH as (l1 & l2 & -> & Hx & Hl1).
      exists (a :: l1), l2. repeat split; [exact Hx|]. constructor; assumption.
    + constructor; assumption.
Qed.

Lemma get_currency_balance_returns address currency s :
  exists bal,
    get_currency_balance address currency s
    = (Ret bal, after_call "getcurrencybalance" [JStr address] s).
Proof.
  unfold get_currency_balance, try_except, bind. rewrite call_eq.
  destruct (reply_of "getcurrencybalance" [JStr address] s) as [msg|v];
    [by eexists|].
  destruct v as [|b|z|f|str|l|d]; try by eexists.
  pose proof (fun v => float_or_zero_eq v
                (after_call "getcurrencybalance" [JStr address] s)) as Hval.
  unfold try_except in Hval.
  destruct (dict_get d currency) as [v|]; [by eexists; apply Hval|].
  destruct (find _ d) as [[k v]|]; by eexists; try apply Hval.
Qed.

(** C10: [get_currency_balance] makes one call, never raises, and returns
    the value of the exact key when the reply is a dict that has it,
    otherwise the value of the first key equal to the currency ignoring
    case (the two lower-cased by [str.lower] are equal), and 0.0 when no
    key matches, when the reply is not a dict, when the call raises or
    when the value cannot be converted by [float]. *)
Theorem get_currency_balance_lookup address currency s :
  exists bal,
    get_currency_balance address currency s
    = (Ret bal, after_call "getcurrencybalance" [JStr address] s) /\
    balance_lookup currency (reply_of "getcurrencybalance" [JStr address] s) bal.
Proof.
  unfold get_currency_balance.
  set (h := fun _ : string => ret 0%float).
  unfold try_except, bind. rewrite call_eq.
  destruct (reply_of "getcurrencybalance" [JStr address] s) as [msg|v].
  { exists 0%float. split; [reflexivity|constructor]. }
  destruct v as [|b|z|f|str|l|d];
    try (exists 0%float; split; [reflexivity|apply BL_not_dict; discriminate]).
  destruct (dict_get d currency) as [v|] eqn:Hget.
  { exists (float_or_zero v). split; [|by apply BL_exact].
    pose proof (float_or_zero_eq v (after_call "getcurrencybalance" [JStr address] s)) as H.
    unfold try_except in H. unfold lift in *.
    destruct (py_float_cases v) as [[f Hf]|[msg Hf]]; rewrite Hf in *; exact H. }
  pose proof (find_first (fun kv => String.eqb (py_lower (fst kv)) (py_lower currency)) d)
    as Hfind.
  destruct (find _ d) as [[k v]|].
  - destruct Hfind as (d1 & d2 & Hd & Hk & Hd1).
    exists (float_or_zero v). split.
    + pose proof (float_or_zero_eq v (after_call "getcurrencybalance" [JStr address] s)) as H.
      unfold try_except in H. unfold lift in *.
      destruct (py_float_cases v) as [[f Hf]|[msg Hf]]; rewrite Hf in *; exact H.
    + apply BL_ignoring_case with (d1 := d1) (k := k) (d2 := d2); try assumption.
      * by apply String.eqb_eq.
      * eapply Forall_impl; [exact Hd1|]. intros kv Hkv. unfold same_ignoring_case.
        by apply String.eqb_neq.
  - exists 0%float. split; [reflexivity|]. apply BL_no_key.
    eapply Forall_impl; [exact Hfind|]. intros kv Hkv. unfold same_ignoring_case.
    by apply String.eqb_neq.
Qed.

(** ** Offer selection *)

Lemma ltb_false_le a b : String.ltb b a = false -> String.le a b.
Proof.
  unfold String.ltb, String.le, String.leb. rewrite (String.compare_antisym b a).
  destruct (String.compare a b); cbn; done.
Qed.

Lemma le_ltb_false a b : String.le a b -> String.ltb b a = false.
Proof.
  unfold String.ltb, String.le, String.leb. rewrite (String.compare_antisym b a).
  destruct (String.compare a b); cbn; done.
Qed.

Lemma key_le_trans x y z : key_le x y -> key_le y z -> key_le x z.
Proof.
  unfold key_le. intros H1%ltb_false_le H2%ltb_false_le. apply le_ltb_false.
  by etrans.
Qed.

Lemma ltb_true_key_le x y : String.ltb (fst y) (fst x) = true -> key_le y x.
Proof.
  unfold key_le, String.ltb. rewrite (String.compare_antisym (fst x) (fst y)).
  destruct (String.compare (fst y) (fst x)); cbn; done.
Qed.

Lemma ltb_true_neq a b : String.ltb a b = true -> a <> b.
Proof.
  intros H Heq. subst b. unfold String.ltb in H.
  destruct (String.compare a a) eqn:Hc; try discriminate.
  pose proof (String.compare_antisym a a) as Ha. rewrite Hc in Ha. discriminate.
Qed.

Lemma insert_by_key_perm x l : Permutation (insert_by_key x l) (x :: l).
Proof.
  induction l as [|y l IH]; cbn; [reflexivity|].
  destruct (String.ltb (fst y) (fst x)); [|reflexivity].
  rewrite IH. apply perm_swap.
Qed.

Lemma insert_by_key_sorted x l :
  StronglySorted key_le l -> StronglySorted key_le (insert_by_key x l).
Proof.
  induction 1 as [|y l Hs IH Hy]; cbn; [repeat constructor|].
  destruct (String.ltb (fst y) (fst x)) eqn:Hlt.
  - constructor; [exact IH|].
    rewrite Forall_forall. intros z Hz. rewrite insert_by_key_perm in Hz.
    apply elem_of_cons in Hz as [->|Hz]; [by apply ltb_true_key_le|].
    by apply (proj1 (Forall_forall _ _) Hy).
  - constructor; [by constructor|]. constructor; [exact Hlt|].
    eapply Forall_impl; [exact Hy|]. intros z Hz. by eapply key_le_trans.
Qed.

Lemma insert_by_key_stable k x l :
  List.filter (has_key k) (insert_by_key x l) = List.filter (has_key k) (x :: l).
Proof.
  induction l as [|y l IH]; [reflexivity|].
  cbn [insert_by_key]. destruct (String.ltb (fst y) (fst x)) eqn:Hlt; [|reflexivity].
  cbn [List.filter] in *. rewrite IH.
  destruct (has_key k x) eqn:Hx; [|reflexivity].
  destruct (has_key k y) eqn:Hy; [|reflexivity].
  unfold has_key in *. apply String.eqb_eq in Hx, Hy.
  apply ltb_true_neq in Hlt. congruence.
Qed.

Lemma sort_by_key_perm l : Permutation (sort_by_key l) l.
Proof.
  induction l as [|x l IH]; cbn; [reflexivity|].
  rewrite insert_by_key_perm. by constructor.
Qed.

Lemma sort_by_key_sorted l : StronglySorted key_le (sort_by_key l).
Proof.
  induction l as [|x l IH]; cbn; [constructor|]. by apply insert_by_key_sorted.
Qed.

Lemma sort_by_key_stable k l :
  List.filter (has_key k) (sort_by_key l) = List.filter (has_key k) l.
Proof.
  induction l as [|x l IH]; [reflexivity|].
  cbn [sort_by_key fold_right]. rewrite insert_by_key_stable.
  cbn [List.filter]. fold (sort_by_key l). by rewrite IH.
Qed.

Lemma keyed_spec offers ks :
  keyed offers = Ret ks ->
  map snd ks = offers /\ Forall (fun ko => name_key (snd ko) = Ret (fst ko)) ks.
Proof.
  revert ks. induction offers as [|o offers IH]; intros ks; cbn.
  - intros [= <-]. split; [reflexivity|constructor].
  - destruct (name_key o) as [k| | | |] eqn:Hk; cbn; try discriminate.
    destruct (keyed offers) as [ks'| | | |]; cbn; try discriminate.
    intros [= <-]. destruct (IH ks' eq_refl) as [Hm Hf].
    split; [cbn; by rewrite Hm|]. constructor; [exact Hk|exact Hf].
Qed.

Lemma offer_txid_of_cases offer :
  (exists id, offer_txid_of offer = Ret id) \/
  (exists msg, offer_txid_of offer = Raise msg) \/ offer_txid_of offer = Stuck.
Proof.
  unfold offer_txid_of.
  destruct (py_get offer "offer") as [o| | | |] eqn:Ho; cbn; eauto;
    try (destruct offer; discriminate).
  destruct (py_get (py_or o (JDict [])) "txid") as [t| | | |] eqn:Ht; cbn; eauto;
    try (destruct (py_or o (JDict [])); discriminate).
  unfold as_id. destruct t; cbn; eauto;
    repeat match goal with |- context [if ?c then _ else _] => destruct c end; eauto.
Qed.

Lemma find_offer_scan attempted offers :
  scan_result attempted offers (find_offer attempted offers).
Proof.
  induction offers as [|offer offers IH]; cbn [find_offer]; [constructor|].
  destruct (offer_txid_of_cases offer) as [[id Hid]|[[msg Hmsg]|Hst]].
  - rewrite Hid. cbn [rbind].
    assert (Hskip : (forall txid, id = Some txid -> txid ∈ attempted) ->
                    scan_result attempted (offer :: offers) (find_offer attempted offers)).
    { intros Hin. assert (Hp : passed_over attempted offer) by (exists id; eauto).
      destruct (find_offer attempted offers) as [[[o t]|]|msg| | |]; cbn in *;
        try contradiction.
      - destruct IH as (before & after & -> & Hb & Ho & Ht).
        exists (offer :: before), after. repeat split; try assumption. by constructor.
      - by constructor.
      - destruct IH as (before & o & after & -> & Hb & Ho).
        exists (offer :: before), o, after. repeat split; try assumption. by constructor.
      - destruct IH as (before & o & after & -> & Hb & Ho).
        exists (offer :: before), o, after. repeat split; try assumption. by constructor. }
    destruct id as [txid|]; [|apply Hskip; discriminate].
    destruct (bool_decide (txid ∈ attempted)) eqn:Hdec.
    + apply Hskip. intros ? [= <-]. by apply bool_decide_eq_true in Hdec.
    + apply bool_decide_eq_false in Hdec. exists [], offers. repeat split; try done.
  - rewrite Hmsg. cbn. exists [], offer, offers. repeat split; done.
  - rewrite Hst. cbn. exists [], offer, offers. repeat split; done.
Qed.

(** C7: when every offer has a string (or no) name, the next offer is read
    off the pool sorted by name (a permutation of the pool, ascending,
    offers of equal name in their original order): it is the first offer
    whose txid is present and not in [attempted], and there is none when
    every offer is without txid or attempted.  The choice is a function of
    the pool and the attempted set alone. *)
Theorem select_next_first_unattempted offers_raw attempted ks :
  keyed (extract_offers_list offers_raw) = Ret ks ->
  let sorted := sort_by_key ks in
  map snd ks = extract_offers_list offers_raw /\
  Forall (fun ko => name_key (snd ko) = Ret (fst ko)) ks /\
  Permutation sorted ks /\
  StronglySorted key_le sorted /\
  (forall k, List.filter (has_key k) sorted = List.filter (has_key k) ks) /\
  scan_result attempted (map snd sorted) (select_next offers_raw attempted).
Proof.
  intros Hk sorted. destruct (keyed_spec _ _ Hk) as [Hm Hf].
  repeat split; try assumption.
  - apply sort_by_key_perm.
  - apply sort_by_key_sorted.
  - intros k. apply sort_by_key_stable.
  - unfold select_next, sort_offers. rewrite Hk. cbn [rbind].
    apply find_offer_scan.
Qed.

(** ** Facts about binary64 numbers *)

Ltac key_case :=
  first
    [ split; [discriminate | intros (? & ? & ? & ? & ?); discriminate]
    | split; [intros _; do 2 eexists; repeat split; cbn; lia | reflexivity]
    | split; [discriminate
             | let Hk := fresh "Hk" in
               intros (? & ? & [= <-] & [= <-] & Hk); cbn in Hk; lia] ].

Lemma SFltb_key x y :
  SFltb x y = true <->
  exists kx ky, SFkey x = Some kx /\ SFkey y = Some ky /\ lt3 kx ky.
Proof.
  unfold SFltb, SFcompare.
  destruct x as [sx|sx| |sx mx ex], y as [sy|sy| |sy my ey]; cbn [SFkey];
    repeat match goal with s : bool |- _ => destruct s end;
    try key_case;
    change (Pos.compare_cont Eq mx my) with (Pos.compare mx my);
    destruct (Z.compare_spec ex ey), (Pos.compare_spec mx my); cbn; key_case.
Qed.

Lemma SFeqb_key x : SFeqb x x = true <-> SFkey x <> None.
Proof.
  unfold SFeqb, SFcompare.
  destruct x as [s|s| |s m e]; cbn.
  - split; [discriminate|reflexivity].
  - destruct s; (split; [discriminate|reflexivity]).
  - split; [discriminate|congruence].
  - change (Pos.compare_cont Eq m m) with (Pos.compare m m).
    rewrite Z.compare_refl, Pos.compare_refl.
    destruct s; (split; [discriminate|reflexivity]).
Qed.

Lemma ltb_key x y :
  (x <? y)%float = true <-> exists kx ky, fkey x = Some kx /\ fkey y = Some ky /\ lt3 kx ky.
Proof. rewrite FloatAxioms.ltb_spec. apply SFltb_key. Qed.

Lemma ltb_trans x y z : (x <? y)%float = true -> (y <? z)%float = true -> (x <? z)%float = true.
Proof.
  rewrite !ltb_key. intros (kx & ky & Hx & Hy & H1) (ky' & kz & Hy' & Hz & H2).
  rewrite Hy in Hy'. injection Hy' as <-. exists kx, kz. repeat split; try assumption.
  destruct kx as [? [? ?]], ky as [? [? ?]], kz as [? [? ?]]. cbn in *. lia.
Qed.

Lemma ltb_le_trans x y z :
  (x <? y)%float = true -> (z <? y)%float = false -> (z =? z)%float = true ->
  (x <? z)%float = true.
Proof.
  intros H1 H2 H3. rewrite FloatAxioms.eqb_spec in H3. apply SFeqb_key in H3.
  apply ltb_key in H1 as (kx & ky & Hx & Hy & H1).
  destruct (fkey z) as [kz|] eqn:Hz; [|contradiction].
  apply ltb_key. exists kx, kz. repeat split; try assumption.
  assert (Hn : ~ lt3 kz ky).
  { intros Hlt. assert ((z <? y)%float = true) by (apply ltb_key; eauto). congruence. }
  destruct kx as [? [? ?]], ky as [? [? ?]], kz as [? [? ?]]. cbn in *. lia.
Qed.

Lemma SFltb_zero r : SFltb (S754_zero false) r = SFpositive r.
Proof. destruct r as [s|s| |s m e]; try destruct s; reflexivity. Qed.

Lemma binary_normalize_nonpos m e :
  m <= 0 -> SFpositive (binary_normalize prec emax m e false) = false.
Proof.
  intros Hm. destruct m as [|p|p]; [reflexivity|lia|].
  cbn [binary_normalize]. unfold binary_round, binary_round_aux.
  destruct (shl_align _ _ _) as [mz ez].
  destruct (shr_fexp _ _ _ _ _) as [mrs' e'].
  destruct (shr_fexp _ _ _ _ _) as [mrs'' e''].
  destruct (shr_m mrs''); try reflexivity.
  destruct (Z.leb _ _); reflexivity.
Qed.

Lemma digits2_pos_bounds m :
  2 ^ (Zpos (digits2_pos m) - 1) <= Zpos m < 2 ^ Zpos (digits2_pos m).
Proof.
  induction m as [m IH|m IH|]; cbn [digits2_pos].
  - rewrite Pos2Z.inj_succ. replace (Z.succ (Zpos (digits2_pos m)) - 1) with (Zpos (digits2_pos m)) by lia.
    rewrite Z.pow_succ_r by lia.
    assert (2 ^ Zpos (digits2_pos m) = 2 * 2 ^ (Zpos (digits2_pos m) - 1)).
    { rewrite <- Z.pow_succ_r by lia. f_equal. lia. }
    lia.
  - rewrite Pos2Z.inj_succ. replace (Z.succ (Zpos (digits2_pos m)) - 1) with (Zpos (digits2_pos m)) by lia.
    rewrite Z.pow_succ_r by lia.
    assert (2 ^ Zpos (digits2_pos m) = 2 * 2 ^ (Zpos (digits2_pos m) - 1)).
    { rewrite <- Z.pow_succ_r by lia. f_equal. lia. }
    lia.
  - cbn. lia.
Qed.

Lemma shl_align_value mx ex ez :
  ez <= ex -> Zpos (fst (shl_align mx ex ez)) = Zpos mx * 2 ^ (ex - ez).
Proof.
  intros Hle. unfold shl_align. destruct (ez - ex) as [|d|d] eqn:Hd.
  - replace (ex - ez) with 0 by lia. cbn [fst]. lia.
  - lia.
  - cbn [fst]. change (Pos.iter xO mx d) with (shift_pos d mx).
    rewrite shift_pos_correct, Z.pow_pos_fold. replace (ex - ez) with (Zpos d) by lia. lia.
Qed.

(** What validity says about a finite binary64 number. *)
Lemma bounded_facts m e :
  bounded prec emax m e = true ->
  -1074 <= e /\ Zpos m < 2 ^ 53 /\ (-1074 < e -> 2 ^ 52 <= Zpos m).
Proof.
  unfold bounded, canonical_mantissa, fexp. intros [Hc _]%andb_prop.
  apply Z.eqb_eq in Hc. change (SpecFloat.emin prec emax) with (-1074) in Hc.
  change prec with 53 in Hc.
  pose proof (digits2_pos_bounds m) as [Hlo Hhi].
  set (d := Zpos (digits2_pos m)) in *.
  assert (Hd : d <= 53) by lia.
  split; [lia|]. split.
  - eapply Z.lt_le_trans; [exact Hhi|]. apply Z.pow_le_mono_r; lia.
  - intros He. assert (d = 53) by lia. subst d. rewrite H in Hlo. exact Hlo.
Qed.

Lemma aligned_le mx ex my ey :
  bounded prec emax mx ex = true -> bounded prec emax my ey = true ->
  (ex < ey \/ (ex = ey /\ (mx <= my)%positive)) ->
  Zpos (fst (shl_align mx ex (Z.min ex ey))) <= Zpos (fst (shl_align my ey (Z.min ex ey))).
Proof.
  intros Hx Hy Hle.
  rewrite !shl_align_value by lia.
  destruct Hle as [Hlt|[-> Hm]].
  - replace (Z.min ex ey) with ex by lia. replace (ex - ex) with 0 by lia.
    destruct (bounded_facts _ _ Hx) as (Hex & Hmx & _).
    destruct (bounded_facts _ _ Hy) as (_ & _ & Hmy). specialize (Hmy ltac:(lia)).
    assert (Hp : 2 ^ 1 <= 2 ^ (ey - ex)) by (apply Z.pow_le_mono_r; lia).
    change (2 ^ 1) with 2 in Hp. change (2 ^ 53) with 9007199254740992 in Hmx.
    change (2 ^ 52) with 4503599627370496 in Hmy. change (2 ^ 0) with 1.
    set (P := 2 ^ (ey - ex)) in *.
    assert (4503599627370496 * 2 <= Z.pos my * P) by (apply Z.mul_le_mono_nonneg; lia).
    lia.
  - replace (Z.min ey ey) with ey by lia. replace (ey - ey) with 0 by lia.
    change (2 ^ 0) with 1. lia.
Qed.

Lemma SFsub_not_positive x y :
  valid_binary x = true -> valid_binary y = true ->
  SFleb x y = true -> SFpositive (SF64sub x y) = false.
Proof.
  unfold SFleb, SFcompare, SF64sub, SFsub.
  destruct x as [sx|sx| |sx mx ex], y as [sy|sy| |sy my ey]; intros Vx Vy;
    repeat match goal with s : bool |- _ => destruct s end;
    try discriminate; try reflexivity.
  all: cbn [valid_binary SpecFloat.valid_binary] in Vx, Vy; cbn [cond_Zopp]; intros Hle; apply binary_normalize_nonpos.
  - (* both negative *)
    change (Pos.compare_cont Eq mx my) with (Pos.compare mx my) in Hle.
    assert (H : ey < ex \/ (ey = ex /\ (my <= mx)%positive)).
    { destruct (Z.compare_spec ex ey); cbn in Hle; try discriminate; try lia.
      destruct (Pos.compare_spec mx my); cbn in Hle; try discriminate; lia. }
    pose proof (aligned_le my ey mx ex Vy Vx H) as Ha. rewrite Z.min_comm in Ha. lia.
  - lia.
  - change (Pos.compare_cont Eq mx my) with (Pos.compare mx my) in Hle.
    assert (H : ex < ey \/ (ex = ey /\ (mx <= my)%positive)).
    { destruct (Z.compare_spec ex ey); cbn in Hle; try discriminate; try lia.
      destruct (Pos.compare_spec mx my); cbn in Hle; try discriminate; lia. }
    pose proof (aligned_le mx ex my ey Vx Vy H) as Ha. lia.
Qed.

Lemma sub_not_positive a b :
  (a <=? b)%float = true -> (0 <? a - b)%float = false.
Proof.
  rewrite FloatAxioms.leb_spec, FloatAxioms.ltb_spec, sub_spec.
  change (Prim2SF 0) with (S754_zero false). rewrite SFltb_zero.
  apply SFsub_not_positive; apply Prim2SF_valid.
Qed.

(** ** The cheapest route *)

Lemma quote_of_positive c via m :
  quote_of c = Ret (Some (via, m)) -> truthy via = true /\ positive_number m = true.
Proof.
  unfold quote_of.
  destruct (py_get (py_or c (JDict [])) "fullyqualifiedname") as [v| | | |]; cbn;
    try discriminate.
  destruct (py_get (py_or c (JDict [])) "sourceamounts") as [sa| | | |]; cbn;
    try discriminate.
  destruct sa as [| | | | | |[|kv d]]; try discriminate.
  destruct (truthy v) eqn:Hv; cbn; try discriminate.
  destruct (floats_of _) as [vals| | | |]; cbn; try discriminate.
  destruct (List.filter positive_number vals) as [|r rest] eqn:Hf; try discriminate.
  intros [= <- <-]. split; [exact Hv|].
  assert (Hin : In r (List.filter positive_number vals)) by (rewrite Hf; left; reflexivity).
  apply filter_In in Hin. exact (proj2 Hin).
Qed.

Lemma quotes_numbers res qs : quotes res = Ret qs -> Forall is_number qs.
Proof.
  revert qs. induction res as [|c res IH]; intros qs; cbn.
  - intros [= <-]. constructor.
  - destruct (quote_of c) as [q| | | |] eqn:Hq; cbn; try discriminate.
    destruct (quotes res) as [qs'| | | |]; cbn; try discriminate.
    intros [= <-]. specialize (IH qs' eq_refl).
    destruct q as [[via m]|]; [|exact IH].
    constructor; [|exact IH].
    apply quote_of_positive in Hq as [_ Hp]. unfold positive_number in Hp.
    apply andb_prop in Hp as [Hp _]. exact Hp.
Qed.

Lemma cheapest_keep seen via m v r :
  Forall is_number seen -> cheapest seen via m ->
  match keep_best (Some (m, via)) r v with
  | Some (m', via') => cheapest (seen ++ [(v, r)]) via' m'
  | None => False
  end.
Proof.
  intros Hnum (before & after & -> & Hb & Ha). cbn [keep_best].
  destruct (r <? m)%float eqn:Hlt.
  - exists (before ++ (via, m) :: after), []. split; [reflexivity|]. split; [|constructor].
    apply Forall_app in Hnum as [_ Hnum]. apply Forall_cons in Hnum as [_ Hnum].
    apply Forall_app. split; [|apply Forall_cons; split; [exact Hlt|]].
    + eapply Forall_impl; [exact Hb|]. intros q Hq. cbn in *. by eapply ltb_trans.
    + rewrite Forall_forall in Ha, Hnum. apply Forall_forall. intros q Hq.
      eapply ltb_le_trans; [exact Hlt|by apply Ha|by apply Hnum].
  - exists before, (after ++ [(v, r)]). split; [by rewrite <- app_assoc|].
    split; [exact Hb|]. apply Forall_app. split; [exact Ha|].
    by repeat constructor.
Qed.

(** The scan keeps the cheapest quote seen so far. *)
Lemma scan_converters_cheapest res :
  forall seen best qs,
    quotes res = Ret qs ->
    Forall is_number seen ->
    match best with
    | None => seen = []
    | Some (m, via) => cheapest seen via m
    end ->
    exists best',
      scan_converters res best = Ret best' /\
      match best' with
      | None => seen ++ qs = []
      | Some (m, via) => cheapest (seen ++ qs) via m
      end.
Proof.
  induction res as [|c res IH]; intros seen best qs; cbn [quotes scan_converters].
  - intros [= <-] _ Hbest. exists best. split; [reflexivity|].
    rewrite app_nil_r. exact Hbest.
  - destruct (quote_of c) as [q| | | |] eqn:Hq; cbn [rbind]; try discriminate.
    destruct (quotes res) as [qs'| | | |] eqn:Hqs; cbn [rbind]; try discriminate.
    intros [= <-] Hnum Hbest.
    destruct q as [[via r]|]; [|by apply IH].
    assert (Hr : is_number (via, r)).
    { apply quote_of_positive in Hq as [_ Hp]. unfold positive_number in Hp.
      apply andb_prop in Hp as [Hp _]. exact Hp. }
    replace (seen ++ (via, r) :: qs') with ((seen ++ [(via, r)]) ++ qs')
      by (by rewrite <- app_assoc).
    apply IH; [reflexivity|apply Forall_app; split; [exact Hnum|by repeat constructor]|].
    destruct best as [[m via0]|].
    + pose proof (cheapest_keep _ _ _ via r Hnum Hbest) as Hk.
      destruct (keep_best (Some (m, via0)) r via) as [[m' via']|]; [exact Hk|contradiction].
    + subst seen. cbn. exists [], []. repeat split; constructor.
Qed.

Lemma amount_value_spec v : amount_value v <-> is_num_or_str v = true.
Proof. destruct v; cbn; split; (done || discriminate). Qed.

Lemma positive_amount_spec r : positive_amount r <-> positive_number r = true.
Proof.
  unfold positive_amount, positive_number. rewrite andb_true_iff. reflexivity.
Qed.

(** The amounts of an entry whose amounts all convert: the list of their
    values, and its first positive one. *)
Lemma first_positive_amount sa :
  Forall (fun kv => amount_value (snd kv) -> exists r, py_float (snd kv) = Ret r) sa ->
  exists vals,
    floats_of (List.filter is_num_or_str (dict_values sa)) = Ret vals /\
    match List.filter positive_number vals with
    | [] => none_positive sa
    | required :: _ =>
        exists d1 k v d2,
          sa = d1 ++ (k, v) :: d2 /\ amount_value v /\ py_float v = Ret required /\
          positive_amount required /\ none_positive d1
    end.
Proof.
  induction 1 as [|[k v] sa Hv _ (vals & Hvals & IH)];
    cbn [dict_values map List.filter snd].
  - exists []. split; [reflexivity|constructor].
  - cbn [snd] in Hv. change (map snd sa) with (dict_values sa).
    destruct (is_num_or_str v) eqn:Hnum.
    + apply amount_value_spec in Hnum. destruct (Hv Hnum) as [r Hr].
      exists (r :: vals). cbn [floats_of rbind]. rewrite Hr, Hvals. cbn [rbind].
      split; [reflexivity|]. cbn [List.filter].
      destruct (positive_number r) eqn:Hpos.
      * exists [], k, v, sa. apply positive_amount_spec in Hpos.
        split; [reflexivity|]. split; [exact Hnum|]. split; [exact Hr|].
        split; [exact Hpos|constructor].
      * assert (Hhead : amount_value (snd (k, v)) ->
                        exists r0, py_float (snd (k, v)) = Ret r0 /\ ~ positive_amount r0).
        { intros _. exists r. split; [exact Hr|].
          intros Hp%positive_amount_spec. congruence. }
        destruct (List.filter positive_number vals) as [|required rest].
        -- by constructor.
        -- destruct IH as (d1 & k' & v' & d2 & -> & Ha & Hf & Hp & Hd1).
           exists ((k, v) :: d1), k', v', d2.
           split; [reflexivity|]. split; [exact Ha|]. split; [exact Hf|].
           split; [exact Hp|by constructor].
    + assert (Hhead : amount_value (snd (k, v)) ->
                      exists r0, py_float (snd (k, v)) = Ret r0 /\ ~ positive_amount r0).
      { intros Ha%amount_value_spec. cbn [snd] in Ha. congruence. }
      exists vals. split; [exact Hvals|].
      destruct (List.filter positive_number vals) as [|required rest].
      * by constructor.
      * destruct IH as (d1 & k' & v' & d2 & -> & Ha & Hf & Hp & Hd1).
        exists ((k, v) :: d1), k', v', d2.
        split; [reflexivity|]. split; [exact Ha|]. split; [exact Hf|].
        split; [exact Hp|by constructor].
Qed.

(** On an entry that can be read, one turn of the scan finds the entry's
    quote when it is a candidate, and passes over it when it is not. *)
Lemma quote_of_readable c :
  readable c ->
  exists q,
    quote_of c = Ret q /\
    match q with
    | Some (via, required) => candidate c via required
    | None => forall via required, ~ candidate c via required
    end.
Proof.
  intros [Hfalsy|(d & -> & Hread)].
  - exists None. unfold quote_of, py_or. rewrite Hfalsy. split; [reflexivity|].
    intros via required (d & sa & d1 & k & v & d2 & -> & Hvia & _).
    destruct d; [discriminate|]. cbn in Hfalsy. discriminate.
  - assert (Hor : py_or (JDict d) (JDict []) = JDict d).
    { unfold py_or. cbn. by destruct d. }
    unfold quote_of. rewrite Hor. cbn [py_get rbind].
    destruct (dict_get d "sourceamounts") as [amounts|] eqn:Hsa; cbn [default from_option id].
    2:{ exists None. split; [reflexivity|].
        intros via required (d' & sa & d1 & k & v & d2 & [= <-] & _ & _ & Hsa' & _).
        congruence. }
    destruct amounts as [| | | | | |sa];
      try (exists None; split; [reflexivity|];
           intros via required (d' & sa & d1 & k & v & d2 & [= <-] & _ & _ & Hsa' & _);
           congruence).
    destruct sa as [|kv sa].
    { exists None. split; [reflexivity|].
      intros via required (d' & sa & d1 & k & v & d2 & [= <-] & _ & _ & Hsa' & Hsplit & _).
      rewrite Hsa in Hsa'. injection Hsa' as <-. by destruct d1. }
    destruct (truthy (default JNull (dict_get d "fullyqualifiedname"))) eqn:Hvia;
      cbn [negb].
    2:{ exists None. split; [reflexivity|].
        intros via required (d' & sa' & d1 & k & v & d2 & [= <-] & Hvia' & Htr & _).
        rewrite Hvia' in Hvia. cbn in Hvia. congruence. }
    destruct (first_positive_amount (kv :: sa) (Hread _ eq_refl eq_refl)) as (vals & Hvals & Hfirst).
    rewrite Hvals. cbn [rbind].
    destruct (List.filter positive_number vals) as [|required rest].
    + exists None. split; [reflexivity|].
      intros via required (d' & sa' & d1 & k & v & d2 & [= <-] & _ & _ & Hsa' & Hsplit
                           & Ha & Hf & Hp & _).
      rewrite Hsa in Hsa'. injection Hsa' as <-. unfold none_positive in Hfirst.
      rewrite Hsplit in Hfirst.
      apply Forall_app in Hfirst as [_ Hfirst]. apply Forall_cons in Hfirst as [Hfirst _].
      destruct (Hfirst Ha) as (r & Hr & Hn). cbn [snd] in Hr. congruence.
    + exists (Some (default JNull (dict_get d "fullyqualifiedname"), required)).
      split; [reflexivity|].
      destruct Hfirst as (d1 & k & v & d2 & Hsplit & Ha & Hf & Hp & Hd1).
      exists d, (kv :: sa), d1, k, v, d2.
      split; [reflexivity|]. split.
      { destruct (dict_get d "fullyqualifiedname"); [reflexivity|discriminate]. }
      split; [exact Hvia|]. split; [exact Hsa|]. split; [exact Hsplit|].
      split; [exact Ha|]. split; [exact Hf|]. split; [exact Hp|exact Hd1].
Qed.

Lemma quotes_candidates l :
  Forall readable l -> exists qs, quotes l = Ret qs /\ candidates_of l qs.
Proof.
  induction 1 as [|c l Hc _ (qs & Hqs & IH)]; cbn [quotes].
  - exists []. split; [reflexivity|constructor].
  - destruct (quote_of_readable c Hc) as (q & Hq & Hcand). rewrite Hq, Hqs. cbn [rbind].
    destruct q as [[via required]|].
    + exists ((via, required) :: qs). split; [reflexivity|]. by constructor.
    + exists qs. split; [reflexivity|]. by constructor.
Qed.

(** C3: when the reply of [getcurrencyconverters] is a list whose entries
    can all be read, [get_best_exact_out_converter] returns the route name
    of the cheapest candidate that quotes a positive numeric amount, the
    first one among equals, with its amount rounded to 8 places; it raises
    "No usable converter route found" when no entry is such a candidate,
    and "No converters found" when the reply is empty or not a list. *)
Theorem get_best_exact_out_converter_cheapest from_currency to_currency to_amount s :
  let params := [JStr (json_dumps (converter_query from_currency to_currency to_amount))] in
  let s' := after_call "getcurrencyconverters" params s in
  (forall l,
     reply_of "getcurrencyconverters" params s = inr (JList l) ->
     Forall readable l ->
     exists qs,
       candidates_of l qs /\
       match l, qs with
       | [], _ =>
           get_best_exact_out_converter from_currency to_currency to_amount s
           = (Raise (no_converters_msg from_currency to_currency), s')
       | _, [] =>
           get_best_exact_out_converter from_currency to_currency to_amount s
           = (Raise (no_route_msg from_currency to_currency), s')
       | _, _ =>
           exists via m,
             cheapest qs via m /\
             get_best_exact_out_converter from_currency to_currency to_amount s
             = (Ret (py_round m 8, via), s')
       end) /\
  (forall v,
     reply_of "getcurrencyconverters" params s = inr v ->
     (forall l, v <> JList l) ->
     get_best_exact_out_converter from_currency to_currency to_amount s
     = (Raise (no_converters_msg from_currency to_currency), s')).
Proof.
  intros params s'. split.
  - intros l Hr Hread.
    destruct (quotes_candidates l Hread) as (qs & Hqs & Hcand).
    exists qs. split; [exact Hcand|].
    unfold get_best_exact_out_converter, bind. fold params.
    rewrite call_eq, Hr. fold s'.
    destruct l as [|c l]; [reflexivity|].
    destruct (scan_converters_cheapest (c :: l) [] None qs Hqs) as (best' & Hscan & Hbest);
      [constructor|reflexivity|].
    unfold lift, raise. rewrite Hscan. cbn [app] in Hbest.
    destruct best' as [[m via]|].
    + destruct qs as [|q qs]; [|by exists via, m].
      destruct Hbest as (before & after & Habs & _). by destruct before.
    + subst qs. reflexivity.
  - intros v Hr Hv.
    unfold get_best_exact_out_converter, bind. fold params.
    rewrite call_eq, Hr. fold s'.
    destruct v as [| | | | |l|]; try reflexivity. by destruct (Hv l).
Qed.

(** ** The log only grows *)

Lemma extends_by_refl P s : extends_by P s s.
Proof. exists []. split; [by rewrite app_nil_r|constructor]. Qed.

Lemma extends_by_trans P s1 s2 s3 :
  extends_by P s1 s2 -> extends_by P s2 s3 -> extends_by P s1 s3.
Proof.
  intros (r1 & H1 & P1) (r2 & H2 & P2). exists (r1 ++ r2).
  split; [by rewrite H2, H1, app_assoc|]. apply Forall_app. by split.
Qed.

Lemma bind_extends P {A B} (m : M A) (k : A -> M B) s :
  (forall a, grows_by P (k a)) -> extends_by P (snd (m s)) (snd (bind m k s)).
Proof.
  intros Hk. unfold bind. destruct (m s) as [[a| | | |] s1]; cbn [snd];
    try apply extends_by_refl.
  apply Hk.
Qed.

Lemma grows_ret P {A} (a : A) : grows_by P (ret a).
Proof. intros s. apply extends_by_refl. Qed.

Lemma grows_lift P {A} (r : result A) : grows_by P (lift r).
Proof. intros s. apply extends_by_refl. Qed.

Lemma grows_raise P {A} msg : grows_by P (@raise A msg).
Proof. intros s. apply extends_by_refl. Qed.

Lemma grows_bind P {A B} (m : M A) (k : A -> M B) :
  grows_by P m -> (forall a, grows_by P (k a)) -> grows_by P (bind m k).
Proof.
  intros Hm Hk s. eapply extends_by_trans; [apply Hm|]. by apply bind_extends.
Qed.

Lemma grows_try_except P {A} (m : M A) (h : string -> M A) :
  grows_by P m -> (forall msg, grows_by P (h msg)) -> grows_by P (try_except m h).
Proof.
  intros Hm Hh s. unfold try_except. specialize (Hm s).
  destruct (m s) as [[a|msg| | |] s1]; cbn [snd] in *; try exact Hm.
  eapply extends_by_trans; [exact Hm|apply Hh].
Qed.

Lemma grows_attempt P {A} (m : M A) : grows_by P m -> grows_by P (attempt m).
Proof.
  intros Hm. unfold attempt. apply grows_try_except.
  - apply grows_bind; [exact Hm|]. intros a. apply grows_ret.
  - intros msg. apply grows_ret.
Qed.

Lemma grows_call (P : event -> Prop) method params :
  (forall reply, P (ECall method params reply)) -> grows_by P (call method params).
Proof.
  intros HP s. rewrite call_eq. cbn [snd]. unfold after_call. eexists.
  split; [reflexivity|]. by repeat constructor.
Qed.

Lemma grows_sleep_ms (P : event -> Prop) ms : P (ESleep ms) -> grows_by P (sleep_ms ms).
Proof.
  intros HP s. unfold sleep_ms. cbn. eexists. split; [reflexivity|].
  by repeat constructor.
Qed.

Ltac grows_step :=
  repeat first
    [ apply grows_ret | apply grows_lift | apply grows_raise
    | apply grows_call; intros ?; first [exact I | discriminate]
    | apply grows_sleep_ms; exact I
    | apply grows_attempt
    | apply grows_bind; [|intros ?] | apply grows_try_except; [|intros ?]
    | match goal with
      | |- grows_by _ (match ?x with _ => _ end) => destruct x
      | |- grows_by _ (if ?x then _ else _) => destruct x
      end
    | assumption ].

Lemma grows_get_currency_balance address currency :
  grows_by any_event (get_currency_balance address currency).
Proof. unfold get_currency_balance. grows_step. Qed.

Lemma grows_get_tx_confirmations P txid :
  (forall reply, P (ECall "gettransaction" [JStr txid] reply)) ->
  grows_by P (get_tx_confirmations txid).
Proof.
  intros HP. unfold get_tx_confirmations.
  apply grows_try_except; [|intros ?; apply grows_ret].
  apply grows_bind; [by apply grows_call|]. intros tx. grows_step.
Qed.

Lemma grows_wait_for_tx_confirmed fuel txid m :
  grows_by quiet (wait_for_tx_confirmed fuel txid m).
Proof.
  induction fuel as [|fuel IH]; cbn [wait_for_tx_confirmed]; [grows_step|].
  apply grows_bind; [apply grows_get_tx_confirmations; intros ?; discriminate|].
  intros confs. grows_step.
Qed.

Lemma extends_by_weaken (P Q : event -> Prop) s s' :
  (forall e, P e -> Q e) -> extends_by P s s' -> extends_by Q s s'.
Proof.
  intros HPQ (rest & Hlog & Hrest). exists rest. split; [exact Hlog|].
  eapply Forall_impl; [exact Hrest|exact HPQ].
Qed.

Lemma grows_weaken (P Q : event -> Prop) {A} (m : M A) :
  (forall e, P e -> Q e) -> grows_by P m -> grows_by Q m.
Proof. intros HPQ Hm s. eapply extends_by_weaken; [exact HPQ|apply Hm]. Qed.

Lemma grows_wait_any fuel txid m : grows_by any_event (wait_for_tx_confirmed fuel txid m).
Proof. eapply grows_weaken; [|apply grows_wait_for_tx_confirmed]. done. Qed.

Lemma grows_get_best_exact_out_converter from_currency to_currency to_amount :
  grows_by any_event (get_best_exact_out_converter from_currency to_currency to_amount).
Proof. unfold get_best_exact_out_converter. grows_step. Qed.

Lemma grows_sendcurrency_convert a f t amount via :
  grows_by any_event (sendcurrency_convert a f t amount via).
Proof. unfold sendcurrency_convert. grows_step. Qed.

Lemma grows_wait_for_opid_success fuel opid :
  grows_by any_event (wait_for_opid_success fuel opid).
Proof.
  induction fuel as [|fuel IH]; cbn [wait_for_opid_success]; [grows_step|].
  grows_step.
Qed.

Lemma grows_wait_for_balance fuel address currency min_balance :
  grows_by any_event (wait_for_balance fuel address currency min_balance).
Proof.
  induction fuel as [|fuel IH]; cbn [wait_for_balance]; [grows_step|].
  apply grows_bind; [apply grows_get_currency_balance|]. intros bal. grows_step.
Qed.

Lemma grows_take_ticket_offer a c offer returntx :
  grows_by any_event (take_ticket_offer a c offer returntx).
Proof. unfold take_ticket_offer. grows_step. Qed.

Lemma grows_on_error fuel st offer_txid err_msg :
  grows_by quiet (on_error fuel st offer_txid err_msg).
Proof.
  unfold on_error. destruct (is_rejected err_msg); [|apply grows_ret].
  apply grows_bind; [|intros ?; apply grows_ret].
  destruct (last_txid st).
  - apply grows_bind; [apply grows_wait_for_tx_confirmed|]. intros ?. apply grows_ret.
  - by apply grows_sleep_ms.
Qed.

Lemma grows_after_purchase fuel qty dry_run st tx_id :
  grows_by quiet (after_purchase fuel qty dry_run st tx_id).
Proof.
  unfold after_purchase. apply grows_bind; [apply grows_lift|]. intros [t|].
  - destruct (_ && _); [|apply grows_ret].
    apply grows_bind; [apply grows_wait_for_tx_confirmed|]. intros ?. apply grows_ret.
  - apply grows_ret.
Qed.

(** ** Liquidity *)

Lemma get_currency_balance_state address currency s bal :
  fst (get_currency_balance address currency s) = Ret bal ->
  get_currency_balance address currency s
  = (Ret bal, after_call "getcurrencybalance" [JStr address] s).
Proof.
  destruct (get_currency_balance_returns address currency s) as (bal' & Heq).
  rewrite Heq. cbn [fst]. by intros [= ->].
Qed.

(** C5: the deficit is [max(0.0, needed - balance)]; when the amount needed
    is at most the balance it is 0.0, and the liquidity step makes no call
    but the balance lookup: no converter query, no conversion, no wait. It
    returns the balance with no swap (or leaves when the user declines). *)
Theorem main_liquidity_sufficient fuel address qty buffer_percent confirm s q bal :
  py_float (JInt qty) = Ret q ->
  fst (get_currency_balance address "vlotto" s) = Ret bal ->
  (q * 1 <=? bal)%float = true ->
  max0 (q * 1 - bal) = 0%float /\
  main_liquidity fuel address qty buffer_percent confirm s
  = (if String.eqb (lower confirm) "y" then Ret (bal, None)
     else Exit "Cancelled by user.",
     after_call "getcurrencybalance" [JStr address] s) /\
  log (snd (main_liquidity fuel address qty buffer_percent confirm s))
  = log s ++ [ECall "getcurrencybalance" [JStr address]
                    (reply_of "getcurrencybalance" [JStr address] s)].
Proof.
  intros Hq Hbal Hle.
  assert (Hd : max0 (q * 1 - bal) = 0%float).
  { unfold max0. by rewrite (sub_not_positive _ _ Hle). }
  assert (Hrun : main_liquidity fuel address qty buffer_percent confirm s
                 = (if String.eqb (lower confirm) "y" then Ret (bal, None)
                    else Exit "Cancelled by user.",
                    after_call "getcurrencybalance" [JStr address] s)).
  { unfold main_liquidity. unfold bind at 1, lift at 1. rewrite Hq.
    unfold bind at 1. rewrite (get_currency_balance_state _ _ _ _ Hbal).
    rewrite Hd. change (0 <? 0)%float with false. cbn iota.
    unfold bind, ret, lift. by destruct (String.eqb (lower confirm) "y"). }
  split; [exact Hd|]. split; [exact Hrun|]. by rewrite Hrun.
Qed.

Lemma float_of_two : py_float (JInt 2) = Ret 2%float.
Proof. vm_compute. reflexivity. Qed.

Lemma grows_main_liquidity_swap fuel address needed required_vrsc via :
  grows_by any_event (let* swap_opid :=
           sendcurrency_convert address "VRSC" "vlotto" required_vrsc via in
         let* _ :=
           if String.prefix "opid-" swap_opid then
             let* swap_txid := wait_for_opid_success fuel swap_opid in
             let* t := lift (as_str swap_txid) in
             let* _ := wait_for_tx_confirmed fuel t 1 in
             ret tt
           else ret tt in
         let* bal := wait_for_balance fuel address "vlotto" needed in
         ret (bal, Some swap_opid)).
Proof.
  apply grows_bind; [apply grows_sendcurrency_convert|]. intros swap_opid.
  apply grows_bind.
  - destruct (String.prefix "opid-" swap_opid); [|apply grows_ret].
    apply grows_bind; [apply grows_wait_for_opid_success|]. intros swap_txid.
    apply grows_bind; [apply grows_lift|]. intros t.
    apply grows_bind; [apply grows_wait_any|]. intros _. apply grows_ret.
  - intros _. apply grows_bind; [apply grows_wait_for_balance|]. intros b.
    apply grows_ret.
Qed.

(** C8: with a vlotto balance of 0.0, 2 tickets at 1.0 each and the buffer
    of 0.01, the deficit is 2.0, the buffered deficit is 2.02, and the call
    that follows the balance lookup is the converter query for VRSC to
    vlotto whose amount is 2.02 rounded to 8 places. *)
Theorem main_liquidity_scenario fuel address confirm s :
  fst (get_currency_balance address "vlotto" s) = Ret 0%float ->
  let s1 := after_call "getcurrencybalance" [JStr address] s in
  let query := JDict [("fromcurrency", JList [JDict [("currency", JStr "VRSC")]]);
                      ("convertto", JStr "vlotto");
                      ("amount", JFloat (py_round 2.02 8))] in
  let params := [JStr (json_dumps query)] in
  max0 (2 * 1 - 0) = 2%float /\
  (max0 (2 * 1 - 0) * (1 + 0.01))%float = 2.02%float /\
  exists rest,
    log (snd (main_liquidity fuel address 2 0.01 confirm s))
    = log s
      ++ [ECall "getcurrencybalance" [JStr address]
                (reply_of "getcurrencybalance" [JStr address] s);
          ECall "getcurrencyconverters" params
                (reply_of "getcurrencyconverters" params s1)]
      ++ rest.
Proof.
  intros Hbal s1 query params.
  split; [by vm_compute|]. split; [by vm_compute|].
  unfold main_liquidity. unfold bind at 1, lift at 1. rewrite float_of_two.
  unfold bind at 1. rewrite (get_currency_balance_state _ _ _ _ Hbal). fold s1.
  change (max0 (2 * 1 - 0))%float with 2%float.
  change (0.01 <? 0)%float with false. cbn iota.
  change (0 <? 2)%float with true. cbn iota.
  change (2 * (1 + 0.01))%float with 2.02%float.
  change (0 <? 2.02)%float with true. cbn iota.
  set (k := fun quote : float * json => _).
  assert (Hk : forall quote, grows_by any_event (k quote)).
  { intros [required_vrsc via]. unfold k.
    destruct (negb (String.eqb (lower confirm) "y")); [apply grows_lift|].
    apply grows_main_liquidity_swap. }
  destruct (bind_extends any_event
              (get_best_exact_out_converter "VRSC" "vlotto" 2.02) k s1 Hk)
    as (rest & Hrest & _).
  exists rest. rewrite Hrest.
  assert (Hs : snd (get_best_exact_out_converter "VRSC" "vlotto" 2.02 s1)
               = after_call "getcurrencyconverters" params s1).
  { unfold get_best_exact_out_converter, bind. rewrite call_eq.
    change (converter_query "VRSC" "vlotto" 2.02) with query. fold params.
    destruct (reply_of "getcurrencyconverters" params s1) as [msg|v]; [reflexivity|].
    destruct v as [| | | | |[|c l]|]; try reflexivity.
    unfold lift, raise, ret. destruct (scan_converters (c :: l) None) as [[[m v]|]| | | |];
      reflexivity. }
  rewrite Hs. unfold after_call at 1. cbn [log]. unfold s1 at 1, after_call at 1.
  cbn [log]. by rewrite <- !app_assoc.
Qed.

(** ** The purchase loop: one turn *)

Lemma attempt_eq {A} (m : M A) s :
  attempt m s =
  match m s with
  | (Ret a, s') => (Ret (inr a), s')
  | (Raise msg, s') => (Ret (inl msg), s')
  | (Exit msg, s') => (Exit msg, s')
  | (Stuck, s') => (Stuck, s')
  | (OutOfFuel, s') => (OutOfFuel, s')
  end.
Proof.
  unfold attempt, try_except, bind, ret. by destruct (m s) as [[a| | | |] s'].
Qed.

Lemma py_get_cases v k :
  (exists x, py_get v k = Ret x) \/ (exists msg, py_get v k = Raise msg).
Proof. destruct v; cbn; eauto. Qed.

Lemma as_id_some v t : as_id v = Ret (Some t) -> v = JStr t /\ t <> "".
Proof.
  destruct v as [|b|z|f|str|l|d]; cbn;
    repeat match goal with |- context [if ?c then _ else _] => destruct c eqn:? end;
    try discriminate.
  intros [= ->]. split; [reflexivity|]. intros ->. discriminate.
Qed.

Lemma as_id_cases v : (exists id, as_id v = Ret id) \/ as_id v = Stuck.
Proof.
  destruct v; cbn; eauto;
    repeat match goal with |- context [if ?c then _ else _] => destruct c end; eauto.
Qed.

Lemma offer_txid_of_some offer t :
  offer_txid_of offer = Ret (Some t) ->
  exists o, py_get offer "offer" = Ret o /\
            py_get (py_or o (JDict [])) "txid" = Ret (JStr t) /\ t <> "".
Proof.
  unfold offer_txid_of.
  destruct (py_get offer "offer") as [o| | | |]; cbn [rbind]; try discriminate.
  destruct (py_get (py_or o (JDict [])) "txid") as [v| | | |] eqn:Hv; cbn [rbind];
    try discriminate.
  intros [-> Hne]%as_id_some. exists o. auto.
Qed.

Lemma select_next_some offers_raw attempted offer t :
  select_next offers_raw attempted = Ret (Some (offer, t)) ->
  offer ∈ extract_offers_list offers_raw /\
  offer_txid_of offer = Ret (Some t) /\ t ∉ attempted.
Proof.
  unfold select_next, sort_offers.
  destruct (keyed (extract_offers_list offers_raw)) as [ks| | | |] eqn:Hk; cbn [rbind];
    try discriminate.
  intros Hf. pose proof (find_offer_scan attempted (map snd (sort_by_key ks))) as Hs.
  rewrite Hf in Hs. destruct Hs as (before & after & Hsplit & _ & Ho & Ht).
  split; [|by split]. destruct (keyed_spec _ _ Hk) as [<- _].
  assert (Hp : Permutation (map snd (sort_by_key ks)) (map snd ks))
    by (apply Permutation_map, sort_by_key_perm).
  rewrite <- Hp, Hsplit. apply elem_of_app. right. by left.
Qed.

Lemma take_ticket_offer_selected a c offer t rt s :
  offer_txid_of offer = Ret (Some t) ->
  (exists msg, take_ticket_offer a c offer rt s = (Raise msg, s)) \/
  (exists params name,
     take_ticket_offer a c offer rt s
     = (match reply_of "takeoffer" params s with
        | inl msg => Raise msg
        | inr v => Ret (JDict [("offer_txid", JStr t); ("ticket", name); ("result", v)])
        end, after_call "takeoffer" params s)).
Proof.
  intros (o & Ho & Htx & Hne)%offer_txid_of_some.
  unfold take_ticket_offer, bind, lift, raise. rewrite Ho, Htx.
  destruct (py_get_cases (py_or o (JDict [])) "offer") as [[oo ->]|[msg ->]]; [|eauto].
  destruct (py_get_cases (py_or oo (JDict [])) "name") as [[name ->]|[msg ->]]; [|eauto].
  destruct (py_get_cases offer "identityid") as [[idid ->]|[msg ->]]; [|eauto].
  destruct (negb (truthy (JStr t)) || negb (truthy name)); [eauto|].
  destruct (negb (truthy idid)); [eauto|].
  right. exists (takeoffer_params a c (JStr t) name idid rt), name.
  rewrite call_eq. unfold ret. by destruct (reply_of "takeoffer" _ s).
Qed.

Lemma on_error_ret fuel st offer_txid err_msg s st' s' :
  on_error fuel st offer_txid err_msg s = (Ret st', s') ->
  (is_rejected err_msg = false /\ st' = with_error st offer_txid err_msg /\ s' = s) \/
  (is_rejected err_msg = true /\
   st' = with_attempted st (attempted st ∖ {[offer_txid]}) /\
   ((last_txid st = None /\ s' = slept 5000 s) \/
    (exists t c, last_txid st = Some t /\
                 wait_for_tx_confirmed fuel t 1 s = (Ret c, s')))).
Proof.
  unfold on_error. destruct (is_rejected err_msg).
  - unfold bind, ret. destruct (last_txid st) as [t|].
    + destruct (wait_for_tx_confirmed fuel t 1 s) as [[c| | | |] s1] eqn:Hw;
        try discriminate.
      intros [= <- <-]. right. repeat split. right. eauto.
    + rewrite sleep_ms_eq. intros [= <- <-]. right. repeat split. by left.
  - unfold ret. intros [= <- <-]. by left.
Qed.

Lemma after_purchase_ret fuel qty dry_run st tx_id s st' s' :
  after_purchase fuel qty dry_run st tx_id s = (Ret st', s') ->
  (as_id tx_id = Ret None /\ st' = st /\ s' = s) \/
  (exists t, as_id tx_id = Ret (Some t) /\
     ((bought st < qty /\ dry_run = false /\ st' = st /\
       exists c, wait_for_tx_confirmed fuel t 1 s = (Ret c, s')) \/
      ((qty <= bought st \/ dry_run = true) /\ st' = with_last_txid st t /\ s' = s))).
Proof.
  unfold after_purchase, bind, lift, ret.
  destruct (as_id tx_id) as [[t|]| | | |]; try discriminate.
  - destruct (bought st <? qty) eqn:Hb; cbn [andb].
    + destruct dry_run; cbn [negb].
      * intros [= <- <-]. right. exists t. split; [reflexivity|]. right. auto.
      * destruct (wait_for_tx_confirmed fuel t 1 s) as [[c| | | |] s1] eqn:Hw;
          try discriminate.
        intros [= <- <-]. right. exists t. split; [reflexivity|]. left.
        apply Z.ltb_lt in Hb. eauto.
    + intros [= <- <-]. right. exists t. split; [reflexivity|]. right.
      apply Z.ltb_ge in Hb. auto.
  - intros [= <- <-]. by left.
Qed.

Lemma after_purchase_raise fuel qty dry_run st tx_id s msg s' :
  after_purchase fuel qty dry_run st tx_id s = (Raise msg, s') ->
  exists t, as_id tx_id = Ret (Some t) /\ bought st < qty /\ dry_run = false /\
            wait_for_tx_confirmed fuel t 1 s = (Raise msg, s').
Proof.
  unfold after_purchase, bind, lift, ret.
  destruct (as_id_cases tx_id) as [[[t|] ->]| ->]; try discriminate.
  destruct (bought st <? qty) eqn:Hb; cbn [andb]; try discriminate.
  destruct dry_run; cbn [negb]; try discriminate.
  destruct (wait_for_tx_confirmed fuel t 1 s) as [[c| | | |] s1] eqn:Hw;
    try discriminate.
  intros [= <- <-]. exists t. apply Z.ltb_lt in Hb. repeat split; auto.
Qed.

(** What a completed turn did. *)
Lemma buy_one_continue fuel a c qty dry_run st s st' s' :
  buy_one fuel a c qty dry_run st s = (Ret (Continue st'), s') ->
  exists raw offer t,
    reply_of "getoffers" [JStr "vlotto"; JBool true] s = inr raw /\
    select_next raw (attempted st) = Ret (Some (offer, t)) /\
    let s1 := after_call "getoffers" [JStr "vlotto"; JBool true] s in
    let st1 := with_attempted st ({[t]} ∪ attempted st) in
    ((exists msg s2,
        take_ticket_offer a c offer dry_run s1 = (Raise msg, s2) /\
        on_error fuel st1 t msg s2 = (Ret st', s')) \/
     (exists r s2 result,
        take_ticket_offer a c offer dry_run s1 = (Ret r, s2) /\
        py_get r "result" = Ret result /\
        let st2 := with_purchase st1 r in
        (after_purchase fuel qty dry_run st2 (result_tx_id result) s2 = (Ret st', s') \/
         exists msg s3,
           after_purchase fuel qty dry_run st2 (result_tx_id result) s2
           = (Raise msg, s3) /\
           on_error fuel st2 t msg s3 = (Ret st', s')))).
Proof.
  unfold buy_one. unfold bind at 1. rewrite call_eq.
  destruct (reply_of "getoffers" _ s) as [msg|raw]; [discriminate|].
  unfold bind at 1, lift at 1.
  destruct (select_next raw (attempted st)) as [[[offer t]|]| | | |] eqn:Hsel;
    try discriminate.
  intros H. exists raw, offer, t. split; [reflexivity|]. split; [exact Hsel|].
  cbn zeta. revert H. unfold attempt_offer. unfold bind at 1. rewrite attempt_eq.
  destruct (take_ticket_offer a c offer dry_run _) as [[r|msg| | |] s2] eqn:Ht;
    try discriminate.
  - unfold bind at 1, lift at 1.
    destruct (py_get r "result") as [result| | | |] eqn:Hr; try discriminate.
    unfold bind at 1. rewrite attempt_eq.
    destruct (after_purchase _ _ _ _ _ s2) as [[st3|msg| | |] s3] eqn:Hap;
      try discriminate.
    + unfold ret. intros [= <- <-]. right. exists r, s2, result.
      split; [reflexivity|]. split; [exact Hr|]. left. exact Hap.
    + unfold bind, ret.
      destruct (on_error _ _ _ _ s3) as [[st4| | | |] s4] eqn:Hoe; try discriminate.
      intros [= <- <-]. right. exists r, s2, result.
      split; [reflexivity|]. split; [exact Hr|]. right. exists msg, s3. by split.
  - unfold bind, ret.
    destruct (on_error _ _ _ _ s2) as [[st4| | | |] s4] eqn:Hoe; try discriminate.
    intros [= <- <-]. left. exists msg, s2. by split.
Qed.

Lemma take_ticket_offer_ret a c offer t rt s r s2 :
  offer_txid_of offer = Ret (Some t) ->
  take_ticket_offer a c offer rt s = (Ret r, s2) ->
  exists params name v,
    reply_of "takeoffer" params s = inr v /\
    s2 = after_call "takeoffer" params s /\
    r = JDict [("offer_txid", JStr t); ("ticket", name); ("result", v)].
Proof.
  intros Ho Ht. destruct (take_ticket_offer_selected a c offer t rt s Ho)
    as [[msg Hm]|(params & name & Hp)].
  - rewrite Hm in Ht. discriminate.
  - rewrite Hp in Ht. exists params, name.
    destruct (reply_of "takeoffer" params s) as [msg|v]; [discriminate|].
    exists v. injection Ht as <- <-. auto.
Qed.

Lemma take_ticket_offer_raise a c offer t rt s msg s2 :
  offer_txid_of offer = Ret (Some t) ->
  take_ticket_offer a c offer rt s = (Raise msg, s2) ->
  s2 = s \/
  exists params, reply_of "takeoffer" params s = inl msg /\
                 s2 = after_call "takeoffer" params s.
Proof.
  intros Ho Ht. destruct (take_ticket_offer_selected a c offer t rt s Ho)
    as [[msg' Hm]|(params & name & Hp)].
  - rewrite Hm in Ht. injection Ht as _ <-. by left.
  - rewrite Hp in Ht. right. exists params.
    destruct (reply_of "takeoffer" params s) as [msg'|v]; [|discriminate].
    injection Ht as <- <-. auto.
Qed.

(** In a run that is not a dry run, [last_txid] is only set by the purchase
    that completes the order. *)
Lemma reachable_last_txid a c qty st s :
  reachable a c qty false st s -> last_txid st = None \/ qty <= bought st.
Proof.
  induction 1 as [s|fuel st s st' s' _ IH Hb Hturn]; [by left|].
  destruct IH as [Hl|]; [|lia].
  apply buy_one_continue in Hturn as (raw & offer & t & _ & _ & Hturn).
  cbn zeta in Hturn.
  assert (Herr : forall st0 msg s0,
             last_txid st0 = None -> on_error fuel st0 t msg s0 = (Ret st', s') ->
             last_txid st' = None).
  { intros st0 msg s0 Hl0 [(_ & -> & _)|(_ & -> & _)]%on_error_ret; exact Hl0. }
  destruct Hturn as [(msg & s2 & _ & Hoe)|(r & s2 & result & _ & _ & Hap)].
  - left. eapply Herr; [|exact Hoe]. exact Hl.
  - cbn zeta in Hap. destruct Hap as [Hap|(msg & s3 & _ & Hoe)].
    + apply after_purchase_ret in Hap
        as [(_ & -> & _)|(t' & _ & [(_ & _ & -> & _)|([Hq|Hd] & -> & _)])];
        try (left; exact Hl); try discriminate.
      right. exact Hq.
    + left. eapply Herr; [|exact Hoe]. exact Hl.
Qed.

(** ** Errors that are not rejections *)

Lemma prefix_mentions c n h :
  String.prefix n h = true -> mentions c n = true -> mentions c h = true.
Proof.
  revert n. induction h as [|b h IH]; intros [|a n]; cbn; try (intros; discriminate).
  destruct (ascii_dec a b) as [->|]; [|discriminate].
  intros Hp. destruct (Ascii.eqb c b); [reflexivity|]. cbn. by apply IH.
Qed.

Lemma contains_mentions c n h :
  contains n h = true -> mentions c n = true -> mentions c h = true.
Proof.
  induction h as [|b h IH]; cbn [contains].
  - rewrite orb_false_r. apply prefix_mentions.
  - intros [Hp|Hc]%orb_prop Hn; [by eapply prefix_mentions|].
    cbn. rewrite (IH Hc Hn). apply orb_true_r.
Qed.

Lemma lower_app a b : lower (a +:+ b) = lower a +:+ lower b.
Proof.
  induction a as [|x a IH]; [reflexivity|].
  change (String x a +:+ b) with (String x (a +:+ b)). cbn [lower]. by rewrite IH.
Qed.

Lemma mentions_app c a b : mentions c (a +:+ b) = mentions c a || mentions c b.
Proof.
  induction a as [|x a IH]; [reflexivity|].
  change (String x a +:+ b) with (String x (a +:+ b)). cbn [mentions].
  by rewrite IH, orb_assoc.
Qed.

Lemma hex_digit_lower c :
  is_hex_digit c = true -> Ascii.eqb "j" (lower_ascii c) = false.
Proof. destruct c as [[] [] [] [] [] [] [] []]; vm_compute; congruence. Qed.

Lemma hex_no_j t : is_hex t = true -> mentions "j" (lower t) = false.
Proof.
  induction t as [|c t IH]; [reflexivity|]. cbn [is_hex lower mentions].
  intros [Hc Ht]%andb_prop. by rewrite (hex_digit_lower _ Hc), (IH Ht).
Qed.

Lemma hex_not_rejected t : is_hex t = true -> is_rejected (orphaned_msg t) = false.
Proof.
  intros Hh. unfold is_rejected, orphaned_msg.
  destruct (contains "rejected" _) eqn:Hc; [|reflexivity].
  apply (contains_mentions "j") in Hc; [|reflexivity].
  rewrite !lower_app, !mentions_app, (hex_no_j _ Hh) in Hc. discriminate.
Qed.

Lemma py_ge_int_raise_not_rejected v m msg :
  py_ge_int v m = Raise msg -> is_rejected msg = false.
Proof.
  destruct v; cbn; try discriminate; try (intros [= <-]; reflexivity).
  destruct (float_of_Z m); discriminate.
Qed.

Lemma wait_for_tx_confirmed_raise fuel t m s msg s' :
  wait_for_tx_confirmed fuel t m s = (Raise msg, s') ->
  msg = orphaned_msg t \/ exists v, py_ge_int v m = Raise msg.
Proof.
  revert s. induction fuel as [|fuel IH]; intros s; [discriminate|].
  rewrite wait_for_tx_confirmed_step. cbn zeta.
  destruct (py_ge_int _ m) as [[|]|msg'| | |] eqn:Hge; try discriminate.
  - destruct (py_eq_int _ _); [|apply IH]. intros [= <- _]. by left.
  - intros [= <- _]. right. eauto.
Qed.

(** ** Rejected attempts *)

Lemma unmark_attempted (st : loop_state) t :
  t ∉ attempted st ->
  with_attempted (with_attempted st ({[t]} ∪ attempted st))
                 (attempted (with_attempted st ({[t]} ∪ attempted st)) ∖ {[t]})
  = st.
Proof.
  intros Ht. destruct st as [p e a b l]. unfold with_attempted. cbn in *.
  f_equal. clear -Ht. set_solver.
Qed.

(** C4 (amended): when [takeoffer] fails with a message that contains
    "rejected", the turn ends with the offer id out of [attempted] again
    (the loop state is the one the turn started with, so the offer is
    retried), after a wait for [last_txid] when that is set, or else after a
    sleep of 5000 ms.  In a run that is not a dry run [last_txid] is never
    set while tickets remain to be bought (the confirmation of a purchase
    is awaited right after the purchase), so there the backoff is the sleep. *)
Theorem rejected_attempt_backoff fuel a c qty dry_run st s raw offer t msg s2 :
  reply_of "getoffers" [JStr "vlotto"; JBool true] s = inr raw ->
  select_next raw (attempted st) = Ret (Some (offer, t)) ->
  take_ticket_offer a c offer dry_run (after_call "getoffers" [JStr "vlotto"; JBool true] s)
  = (Raise msg, s2) ->
  is_rejected msg = true ->
  (last_txid st = None ->
   buy_one fuel a c qty dry_run st s = (Ret (Continue st), slept 5000 s2)) /\
  (forall l, last_txid st = Some l ->
   buy_one fuel a c qty dry_run st s
   = match wait_for_tx_confirmed fuel l 1 s2 with
     | (Ret _, s3) => (Ret (Continue st), s3)
     | (Raise m, s3) => (Raise m, s3)
     | (Exit m, s3) => (Exit m, s3)
     | (Stuck, s3) => (Stuck, s3)
     | (OutOfFuel, s3) => (OutOfFuel, s3)
     end) /\
  (dry_run = false -> reachable a c qty dry_run st s -> bought st < qty ->
   last_txid st = None).
Proof.
  intros Hraw Hsel Htake Hrej.
  destruct (select_next_some _ _ _ _ Hsel) as (_ & _ & Hnew).
  assert (Hrun : buy_one fuel a c qty dry_run st s
                 = bind (on_error fuel (with_attempted st ({[t]} ∪ attempted st)) t msg)
                        (fun st' => ret (Continue st')) s2).
  { unfold buy_one. unfold bind at 1. rewrite call_eq, Hraw.
    unfold bind at 1, lift at 1. rewrite Hsel.
    unfold attempt_offer. unfold bind at 1. rewrite attempt_eq, Htake. reflexivity. }
  split; [|split].
  - intros Hl. rewrite Hrun. unfold bind, on_error. rewrite Hrej.
    unfold bind. cbn [last_txid with_attempted]. rewrite Hl, sleep_ms_eq.
    unfold ret. by rewrite (unmark_attempted st t Hnew).
  - intros l Hl. rewrite Hrun. unfold bind, on_error. rewrite Hrej.
    unfold bind. cbn [last_txid with_attempted]. rewrite Hl.
    destruct (wait_for_tx_confirmed fuel l 1 s2) as [[cf| | | |] s3]; try reflexivity.
    unfold ret. by rewrite (unmark_attempted st t Hnew).
  - intros -> Hreach Hb. destruct (reachable_last_txid _ _ _ _ _ Hreach); [done|lia].
Qed.

(** ** Attempted, purchased and observed offer ids *)

Lemma grows_attempt_offer fuel a c qty dry_run st offer t :
  grows_by any_event (attempt_offer fuel a c qty dry_run st offer t).
Proof.
  unfold attempt_offer. apply grows_bind.
  { apply grows_attempt, grows_take_ticket_offer. }
  intros [msg|r].
  - apply grows_bind; [|intros ?; apply grows_ret].
    eapply grows_weaken; [|apply grows_on_error]. done.
  - apply grows_bind; [apply grows_lift|]. intros result.
    apply grows_bind.
    { apply grows_attempt. eapply grows_weaken; [|apply grows_after_purchase]. done. }
    intros [msg|st3]; [|apply grows_ret].
    apply grows_bind; [|intros ?; apply grows_ret].
    eapply grows_weaken; [|apply grows_on_error]. done.
Qed.

Lemma grows_buy_one fuel a c qty dry_run st :
  grows_by any_event (buy_one fuel a c qty dry_run st).
Proof.
  unfold buy_one. apply grows_bind; [by apply grows_call|]. intros raw.
  apply grows_bind; [apply grows_lift|]. intros [[offer t]|]; [|apply grows_ret].
  apply grows_attempt_offer.
Qed.

Lemma grows_main_buy_loop fuel a c qty dry_run st :
  grows_by any_event (main_buy_loop fuel a c qty dry_run st).
Proof.
  revert st. induction fuel as [|fuel IH]; intros st; cbn [main_buy_loop];
    destruct (bought st <? qty); try apply grows_ret; try apply grows_lift.
  apply grows_bind; [apply grows_buy_one|]. intros [st'|st']; [apply IH|apply grows_ret].
Qed.

Lemma observed_app l1 l2 : observed (l1 ++ l2) = observed l1 ∪ observed l2.
Proof.
  clear. induction l1 as [|e l1 IH]; cbn [app observed]; [set_solver|].
  destruct e as [method params [msg|r]|ms]; rewrite ?IH; set_solver.
Qed.

Lemma observed_extends P s s' :
  extends_by P s s' -> observed (log s) ⊆ observed (log s').
Proof. intros (rest & -> & _). rewrite observed_app. clear. set_solver. Qed.

Lemma selected_is_observed raw attempted offer t s :
  reply_of "getoffers" [JStr "vlotto"; JBool true] s = inr raw ->
  select_next raw attempted = Ret (Some (offer, t)) ->
  t ∈ observed (log (after_call "getoffers" [JStr "vlotto"; JBool true] s)).
Proof.
  intros Hraw (Hin & Hid & _)%select_next_some.
  unfold after_call. cbn [log]. rewrite observed_app, Hraw. cbn [observed String.eqb].
  change (if String.eqb "getoffers" "getoffers" then ?x else _) with x.
  apply elem_of_union_r, elem_of_union_l. unfold offer_ids.
  apply elem_of_list_to_set, list_elem_of_omap. exists offer. split; [exact Hin|].
  unfold offer_id. by rewrite Hid.
Qed.

Lemma purchased_ids_with_purchase st t name v :
  purchased_ids (with_purchase st (JDict [("offer_txid", JStr t); ("ticket", name);
                                          ("result", v)]))
  = purchased_ids st ++ [t].
Proof. unfold purchased_ids, with_purchase. cbn [purchased]. by rewrite omap_app. Qed.

Lemma after_purchase_error_not_rejected fuel qty dry_run st result params w s msg s' :
  hex_tx_ids ->
  fst (rpc "takeoffer" params w) = inr result ->
  after_purchase fuel qty dry_run st (result_tx_id result) s = (Raise msg, s') ->
  is_rejected msg = false.
Proof.
  intros Hhex Hr (t & Hid & _ & _ & Hw)%after_purchase_raise.
  apply wait_for_tx_confirmed_raise in Hw as [->|[v Hv]].
  - apply hex_not_rejected. apply (Hhex params w result t Hr).
    unfold tx_id_of. by rewrite Hid.
  - by eapply py_ge_int_raise_not_rejected.
Qed.

Lemma turn_keeps_ids a c qty dry_run fuel st s st' s' :
  hex_tx_ids ->
  ids_invariant st s ->
  buy_one fuel a c qty dry_run st s = (Ret (Continue st'), s') ->
  ids_invariant st' s' /\ attempted_step a c dry_run st s st'.
Proof.
  clear json_dumps py_float_of_string py_round py_lower.
  intros Hhex (Hlen & Hnd & Hpa & Hao) Hturn.
  assert (Hext : extends_by any_event s s').
  { pose proof (grows_buy_one fuel a c qty dry_run st s) as H. by rewrite Hturn in H. }
  apply buy_one_continue in Hturn as (raw & offer & t & Hraw & Hsel & Hturn).
  cbn zeta in Hturn.
  destruct (select_next_some _ _ _ _ Hsel) as (_ & Hid & Hnew).
  pose proof (selected_is_observed _ _ _ _ s Hraw Hsel) as Hobs.
  set (s1 := after_call "getoffers" [JStr "vlotto"; JBool true] s) in *.
  assert (Hobs' : t ∈ observed (log s')).
  { assert (extends_by any_event s1 s') as Hs1.
    { destruct Hturn as [(msg & s2 & Ht & Hoe)|(r & s2 & result & Ht & _ & Hap)].
      - eapply extends_by_trans.
        + pose proof (grows_take_ticket_offer a c offer dry_run s1) as H.
          rewrite Ht in H. exact H.
        + pose proof (grows_on_error fuel (with_attempted st ({[t]} ∪ attempted st))
                                     t msg s2) as H.
          rewrite Hoe in H. eapply extends_by_weaken; [|exact H]. done.
      - eapply extends_by_trans.
        + pose proof (grows_take_ticket_offer a c offer dry_run s1) as H.
          rewrite Ht in H. exact H.
        + cbn zeta in Hap. destruct Hap as [Hap|(msg & s3 & Hap & Hoe)].
          * pose proof (grows_after_purchase fuel qty dry_run
                          (with_purchase (with_attempted st ({[t]} ∪ attempted st)) r)
                          (result_tx_id result) s2) as H.
            rewrite Hap in H. eapply extends_by_weaken; [|exact H]. done.
          * eapply extends_by_trans.
            -- pose proof (grows_after_purchase fuel qty dry_run
                          (with_purchase (with_attempted st ({[t]} ∪ attempted st)) r)
                          (result_tx_id result) s2) as H.
               rewrite Hap in H. eapply extends_by_weaken; [|exact H]. done.
            -- pose proof (grows_on_error fuel
                          (with_purchase (with_attempted st ({[t]} ∪ attempted st)) r)
                          t msg s3) as H.
               rewrite Hoe in H. eapply extends_by_weaken; [|exact H]. done. }
    by apply (observed_extends _ _ _ Hs1). }
  pose proof (observed_extends _ _ _ Hext) as Hmono.
  assert (Hfresh : t ∉ purchased_ids st) by (intros Hin; apply Hnew, Hpa, Hin).
  destruct Hturn as [(msg & s2 & Ht & Hoe)|(r & s2 & result & Ht & Hres & Hap)].
  - (* the attempt failed *)
    apply on_error_ret in Hoe as [(Hrej & -> & _)|(Hrej & -> & _)].
    + split.
      * repeat split; cbn; try assumption; set_solver.
      * exists raw, offer, t. repeat split; try assumption. by left.
    + split.
      * repeat split; cbn; try assumption; set_solver.
      * exists raw, offer, t. repeat split; try assumption. right.
        split; [cbn; set_solver|]. eauto.
  - (* the offer was bought *)
    destruct (take_ticket_offer_ret _ _ _ _ _ _ _ _ Hid Ht)
      as (params & name & v & Hreply & -> & ->).
    cbn in Hres. injection Hres as <-.
    cbn zeta in Hap.
    set (st2 := with_purchase _ _) in Hap.
    assert (Hinv2 : ids_invariant st2 s' /\ attempted st2 = {[t]} ∪ attempted st).
    { subst st2. split; [|reflexivity]. unfold ids_invariant.
      rewrite purchased_ids_with_purchase. cbn [with_purchase purchased attempted
        with_attempted].
      change (purchased_ids (with_attempted st ({[t]} ∪ attempted st)))
        with (purchased_ids st).
      rewrite !List.length_app, Hlen. repeat split.
      - apply NoDup_app. repeat split; [exact Hnd| |apply NoDup_singleton].
        intros x Hx ->%list_elem_of_singleton. contradiction.
      - intros id [Hin| ->%list_elem_of_singleton]%elem_of_app; set_solver.
      - set_solver. }
    destruct Hinv2 as [(Hlen2 & Hnd2 & Hpa2 & Hao2) Hatt2].
    assert (Hstep : forall st3, attempted st3 = attempted st2 ->
                                attempted_step a c dry_run st s st3).
    { intros st3 H3. exists raw, offer, t. repeat split; try assumption.
      left. by rewrite H3. }
    assert (Hkeep : forall st3,
               purchased st3 = purchased st2 -> attempted st3 = attempted st2 ->
               ids_invariant st3 s').
    { intros st3 Hp3 Ha3. unfold ids_invariant, purchased_ids. rewrite Hp3, Ha3.
      repeat split; assumption. }
    destruct Hap as [Hap|(msg & s3 & Hap & Hoe)].
    + apply after_purchase_ret in Hap
        as [(_ & -> & _)|(t' & _ & [(_ & _ & -> & _)|(_ & -> & _)])];
        (split; [by apply Hkeep|by apply Hstep]).
    + assert (Hrej : is_rejected msg = false).
      { eapply (after_purchase_error_not_rejected _ _ _ _ v params (world s1));
          [exact Hhex| |exact Hap].
        exact Hreply. }
      apply on_error_ret in Hoe as [(_ & -> & _)|(Hrej' & _)]; [|congruence].
      split; [by apply Hkeep|by apply Hstep].
Qed.

(** C2 (amended): with hexadecimal transaction ids, at every head of the
    loop no offer id occurs twice in [purchased], every purchased id is in
    [attempted], and [attempted] is a subset (not always a strict one) of
    the offer ids observed in the replies to [getoffers]; a completed turn
    adds the id it tried to [attempted], or leaves the set unchanged when
    the attempt failed with a "rejected" error, and takes nothing else
    out. *)
Theorem attempted_within_observed a c qty dry_run :
  hex_tx_ids ->
  (forall st s, reachable a c qty dry_run st s -> ids_invariant st s) /\
  (forall fuel st s st' s',
     reachable a c qty dry_run st s ->
     buy_one fuel a c qty dry_run st s = (Ret (Continue st'), s') ->
     attempted_step a c dry_run st s st').
Proof.
  intros Hhex.
  assert (Hinv : forall st s, reachable a c qty dry_run st s -> ids_invariant st s).
  { induction 1 as [s|fuel st s st' s' _ IH _ Hturn].
    - repeat split; cbn; [constructor|set_solver|set_solver].
    - by destruct (turn_keeps_ids _ _ _ _ _ _ _ _ _ Hhex IH Hturn). }
  split; [exact Hinv|].
  intros fuel st s st' s' Hreach Hturn.
  by destruct (turn_keeps_ids _ _ _ _ _ _ _ _ _ Hhex (Hinv _ _ Hreach) Hturn).
Qed.

(** ** The order of purchases *)

Lemma monitor_app a l1 l2 :
  monitor a (l1 ++ l2) = match monitor a l1 with
                         | Some a' => monitor a' l2
                         | None => None
                         end.
Proof.
  revert a. induction l1 as [|e l1 IH]; intros a; cbn [app monitor]; [reflexivity|].
  destruct (monitor_step a e); [apply IH|reflexivity].
Qed.

Lemma monitor_step_quiet a e : quiet e -> exists a', monitor_step a e = Some a'.
Proof.
  destruct e as [method params reply|ms]; cbn; [|eauto].
  intros Hq. destruct (String.eqb_spec method "takeoffer"); [contradiction|].
  destruct (String.eqb method "gettransaction"); [|eauto].
  destruct a as [t|]; [|eauto].
  destruct params as [|[| | | |t'| |] [|]]; eauto.
  destruct (_ && _); eauto.
Qed.

Lemma monitor_step_quiet_none e : quiet e -> monitor_step None e = Some None.
Proof.
  destruct e as [method params reply|ms]; cbn; [|reflexivity].
  intros Hq. destruct (String.eqb_spec method "takeoffer"); [contradiction|].
  by destruct (String.eqb method "gettransaction").
Qed.

Lemma monitor_quiet a l : Forall quiet l -> exists a', monitor a l = Some a'.
Proof.
  intros Hq. revert a. induction Hq as [|e l He _ IH]; intros a; cbn [monitor]; [eauto|].
  destruct (monitor_step_quiet a e He) as [a' ->]. apply IH.
Qed.

Lemma monitor_quiet_none l : Forall quiet l -> monitor None l = Some None.
Proof.
  induction 1 as [|e l He _ IH]; cbn [monitor]; [reflexivity|].
  by rewrite (monitor_step_quiet_none e He).
Qed.

Lemma monitor_step_poll t reply :
  monitor_step (Some t) (ECall "gettransaction" [JStr t] reply)
  = Some (if confirms reply then None else Some t).
Proof.
  cbn. rewrite String.eqb_refl. cbn. by destruct (confirms reply).
Qed.

Lemma monitor_cleared t l :
  monitor (Some t) l = Some None ->
  exists reply, ECall "gettransaction" [JStr t] reply ∈ l /\ confirms reply = true.
Proof.
  induction l as [|e l IH]; cbn [monitor]; [discriminate|].
  destruct (monitor_step (Some t) e) as [a'|] eqn:Hstep; [|discriminate].
  intros Hm.
  assert (Hcases : a' = Some t \/
                   exists reply, e = ECall "gettransaction" [JStr t] reply /\
                                 confirms reply = true).
  { destruct e as [method params reply|ms]; cbn in Hstep; [|left; congruence].
    destruct (String.eqb method "takeoffer"); [discriminate|].
    destruct (String.eqb_spec method "gettransaction") as [->|]; [|left; congruence].
    destruct params as [|[| | | |t'| |] [|]]; try (left; congruence).
    destruct (String.eqb_spec t t') as [<-|]; cbn in Hstep; [|left; congruence].
    destruct (confirms reply) eqn:Hc; [|left; congruence].
    right. eauto. }
  destruct Hcases as [->|(reply & -> & Hc)].
  - destruct (IH Hm) as (reply & Hin & Hc). exists reply. split; [by right|exact Hc].
  - exists reply. split; [by left|exact Hc].
Qed.

Lemma monitor_step_takeoffer a params reply :
  monitor_step a (ECall "takeoffer" params reply)
  = match a with
    | Some _ => None
    | None => Some (match reply with
                    | inr r => tx_id_of r
                    | inl _ => None
                    end)
    end.
Proof. reflexivity. Qed.

Lemma monitor_sound l a : monitor None l = Some a -> sequenced l.
Proof.
  intros Hm l1 p1 r1 t l2 p2 r2 l3 -> Ht.
  rewrite monitor_app in Hm.
  destruct (monitor None l1) as [a1|]; [|discriminate].
  cbn [monitor] in Hm. rewrite monitor_step_takeoffer in Hm.
  destruct a1; [discriminate|]. rewrite Ht, monitor_app in Hm.
  destruct (monitor (Some t) l2) as [a2|] eqn:H2; [|discriminate].
  cbn [monitor] in Hm. rewrite monitor_step_takeoffer in Hm.
  destruct a2; [discriminate|]. by apply monitor_cleared.
Qed.

Lemma wait_ret_monitor fuel t s c s' :
  wait_for_tx_confirmed fuel t 1 s = (Ret c, s') ->
  exists rest, log s' = log s ++ rest /\ monitor (Some t) rest = Some None.
Proof.
  revert s. induction fuel as [|fuel IH]; intros s; [discriminate|].
  rewrite wait_for_tx_confirmed_step. cbn zeta.
  destruct (py_ge_int _ 1) as [[|]| | | |] eqn:Hge; try discriminate.
  - intros [= <- <-]. exists [ECall "gettransaction" [JStr t] (poll_reply t s)].
    split; [reflexivity|]. cbn [monitor]. rewrite monitor_step_poll.
    unfold confirms. by rewrite Hge.
  - destruct (py_eq_int _ _); [discriminate|]. intros Hw.
    destruct (IH _ Hw) as (rest & Hlog & Hm).
    exists (ECall "gettransaction" [JStr t] (poll_reply t s) :: ESleep 5000 :: rest).
    split.
    + rewrite Hlog. unfold slept, polled, after_call. cbn [log].
      by rewrite <- !app_assoc.
    + cbn [monitor]. rewrite monitor_step_poll. unfold confirms. rewrite Hge.
      exact Hm.
Qed.

Lemma wait_raise_not_plain fuel t s msg s' :
  wait_for_tx_confirmed fuel t 1 s = (Raise msg, s') -> ~ plain_polls (log s').
Proof.
  revert s. induction fuel as [|fuel IH]; intros s; [discriminate|].
  rewrite wait_for_tx_confirmed_step. cbn zeta.
  assert (Hlast : forall st0, extends_by any_event (polled t s) st0 ->
             plain_polls (log st0) -> plain_count (poll_reply t s)).
  { intros st0 (rest & Hlog & _) Hp. apply (Hp [JStr t]). rewrite Hlog.
    unfold polled, after_call. cbn [log]. apply elem_of_app. left.
    apply elem_of_app. right. by left. }
  destruct (py_ge_int _ 1) as [[|]|msg'| | |] eqn:Hge; try discriminate.
  - destruct (py_eq_int _ _) eqn:Heq.
    + intros [= <- <-] Hp.
      destruct (Hlast _ (extends_by_refl _ _) Hp) as (cc & Hc & Hne).
      rewrite Hc in Heq. cbn in Heq. apply Z.eqb_eq in Heq. contradiction.
    + apply IH.
  - intros [= <- <-] Hp.
    destruct (Hlast _ (extends_by_refl _ _) Hp) as (cc & Hc & Hne).
    rewrite Hc in Hge. discriminate.
Qed.

Lemma plain_polls_extends P s s' :
  extends_by P s s' -> plain_polls (log s') -> plain_polls (log s).
Proof.
  intros (rest & Hlog & _) Hp params reply Hin. apply (Hp params). rewrite Hlog.
  apply elem_of_app. by left.
Qed.

Lemma take_ticket_offer_state a c offer rt s :
  snd (take_ticket_offer a c offer rt s) = s \/
  exists params, snd (take_ticket_offer a c offer rt s) = after_call "takeoffer" params s.
Proof.
  unfold take_ticket_offer, bind, lift, raise.
  destruct (py_get_cases offer "offer") as [[o ->]|[msg ->]]; [|by left].
  destruct (py_get_cases (py_or o (JDict [])) "txid") as [[tx ->]|[msg ->]]; [|by left].
  destruct (py_get_cases (py_or o (JDict [])) "offer") as [[oo ->]|[msg ->]]; [|by left].
  destruct (py_get_cases (py_or oo (JDict [])) "name") as [[name ->]|[msg ->]]; [|by left].
  destruct (py_get_cases offer "identityid") as [[idid ->]|[msg ->]]; [|by left].
  destruct (negb (truthy tx) || negb (truthy name)); [by left|].
  destruct (negb (truthy idid)); [by left|].
  right. exists (takeoffer_params a c tx name idid rt). rewrite call_eq.
  by destruct (reply_of "takeoffer" _ s).
Qed.

Lemma monitor_after_call a method params s :
  monitor None (log s) = Some a ->
  monitor None (log (after_call method params s))
  = monitor_step a (ECall method params (reply_of method params s)).
Proof.
  intros Hm. unfold after_call. cbn [log]. rewrite monitor_app, Hm. cbn [monitor].
  by destruct (monitor_step a _).
Qed.

Lemma monitor_extends_quiet a s s' :
  monitor None (log s) = Some a -> extends_by quiet s s' ->
  exists a', monitor None (log s') = Some a'.
Proof.
  intros Hm (rest & -> & Hq). rewrite monitor_app, Hm. by apply monitor_quiet.
Qed.

Lemma monitor_extends_quiet_none s s' :
  monitor None (log s) = Some None -> extends_by quiet s s' ->
  monitor None (log s') = Some None.
Proof.
  intros Hm (rest & -> & Hq). rewrite monitor_app, Hm. by apply monitor_quiet_none.
Qed.

(** Whatever a turn does, it submits no [takeoffer] while the monitor is
    waiting for a confirmation. *)
Lemma buy_one_monitor_safe fuel a c qty dry_run st s :
  monitor None (log s) = Some None ->
  exists a', monitor None (log (snd (buy_one fuel a c qty dry_run st s))) = Some a'.
Proof.
  intros Hm.
  assert (Hm1 : monitor None (log (after_call "getoffers" [JStr "vlotto"; JBool true] s))
                = Some None).
  { rewrite (monitor_after_call None) by exact Hm. reflexivity. }
  unfold buy_one. unfold bind at 1. rewrite call_eq.
  set (s1 := after_call "getoffers" _ s) in *.
  destruct (reply_of "getoffers" _ s) as [msg|raw]; [eauto|].
  unfold bind at 1, lift at 1.
  destruct (select_next raw (attempted st)) as [[[offer t]|]| | | |]; eauto.
  unfold attempt_offer.
  set (k := fun taken : string + json => _).
  assert (Hk : forall taken, grows_by quiet (k taken)).
  { intros [msg|r]; unfold k.
    - apply grows_bind; [apply grows_on_error|]. intros ?. apply grows_ret.
    - apply grows_bind; [apply grows_lift|]. intros result.
      apply grows_bind; [apply grows_attempt, grows_after_purchase|].
      intros [msg|st3]; [|apply grows_ret].
      apply grows_bind; [apply grows_on_error|]. intros ?. apply grows_ret. }
  pose proof (bind_extends quiet (attempt (take_ticket_offer a c offer dry_run)) k s1 Hk)
    as Hext.
  assert (Hs : snd (attempt (take_ticket_offer a c offer dry_run) s1)
               = snd (take_ticket_offer a c offer dry_run s1)).
  { rewrite attempt_eq. by destruct (take_ticket_offer _ _ _ _ s1) as [[| | | |] ?]. }
  assert (Htake : exists a0,
             monitor None (log (snd (take_ticket_offer a c offer dry_run s1))) = Some a0).
  { destruct (take_ticket_offer_state a c offer dry_run s1) as [->|[params ->]].
    - eauto.
    - rewrite (monitor_after_call None) by exact Hm1.
      rewrite monitor_step_takeoffer. eauto. }
  destruct Htake as [a0 Ha0]. rewrite <- Hs in Ha0.
  exact (monitor_extends_quiet _ _ _ Ha0 Hext).
Qed.

(** A completed turn of a run that is not a dry run leaves the monitor
    waiting for exactly [last_txid]. *)
Lemma buy_one_monitor_continue fuel a c qty st s st' s' :
  monitor None (log s) = Some None ->
  last_txid st = None ->
  buy_one fuel a c qty false st s = (Ret (Continue st'), s') ->
  plain_polls (log s') ->
  monitor None (log s') = Some (last_txid st') /\
  (last_txid st' = None \/ qty <= bought st').
Proof.
  intros Hm Hl Hturn Hplain.
  apply buy_one_continue in Hturn as (raw & offer & t & Hraw & Hsel & Hturn).
  cbn zeta in Hturn.
  destruct (select_next_some _ _ _ _ Hsel) as (_ & Hid & _).
  assert (Hm1 : monitor None (log (after_call "getoffers" [JStr "vlotto"; JBool true] s))
                = Some None).
  { rewrite (monitor_after_call None) by exact Hm. reflexivity. }
  set (s1 := after_call "getoffers" _ s) in *.
  assert (Herr : forall st0 msg s0,
             last_txid st0 = None -> monitor None (log s0) = Some None ->
             on_error fuel st0 t msg s0 = (Ret st', s') ->
             monitor None (log s') = Some (last_txid st') /\
             (last_txid st' = None \/ qty <= bought st')).
  { intros st0 msg s0 Hl0 Hm0 Hoe.
    assert (Hq : extends_by quiet s0 s').
    { pose proof (grows_on_error fuel st0 t msg s0) as H. by rewrite Hoe in H. }
    rewrite (monitor_extends_quiet_none _ _ Hm0 Hq).
    apply on_error_ret in Hoe as [(_ & -> & _)|(_ & -> & _)]; cbn; rewrite Hl0; auto. }
  destruct Hturn as [(msg & s2 & Ht & Hoe)|(r & s2 & result & Ht & Hres & Hap)].
  - refine (Herr (with_attempted st ({[t]} ∪ attempted st)) msg s2 Hl _ Hoe).
    destruct (take_ticket_offer_raise _ _ _ _ _ _ _ _ Hid Ht) as [->|(params & Hr & ->)];
      [exact Hm1|].
    rewrite (monitor_after_call None) by exact Hm1.
    rewrite monitor_step_takeoffer. by rewrite Hr.
  - destruct (take_ticket_offer_ret _ _ _ _ _ _ _ _ Hid Ht)
      as (params & name & v & Hreply & -> & ->).
    cbn in Hres. injection Hres as <-. cbn zeta in Hap.
    set (s2 := after_call "takeoffer" params s1) in *.
    assert (Hm2 : monitor None (log s2) = Some (tx_id_of v)).
    { unfold s2. rewrite (monitor_after_call None) by exact Hm1.
      rewrite monitor_step_takeoffer. by rewrite Hreply. }
    set (st2 := with_purchase _ _) in Hap.
    assert (Hl2 : last_txid st2 = None) by exact Hl.
    destruct Hap as [Hap|(msg & s3 & Hap & Hoe)].
    + apply after_purchase_ret in Hap
        as [(Hnone & -> & ->)|(t' & Hsome & [(_ & _ & -> & cf & Hw)|([Hq|Hd] & -> & ->)])];
        try discriminate.
      * rewrite Hm2, Hl2. unfold tx_id_of. rewrite Hnone. auto.
      * rewrite Hl2. split; [|by left].
        destruct (wait_ret_monitor _ _ _ _ _ Hw) as (rest & -> & Hrest).
        rewrite monitor_app, Hm2. unfold tx_id_of. by rewrite Hsome.
      * rewrite Hm2. unfold tx_id_of. rewrite Hsome. cbn. auto.
    + exfalso.
      apply after_purchase_raise in Hap as (t' & _ & _ & _ & Hw).
      apply wait_raise_not_plain in Hw. apply Hw.
      eapply plain_polls_extends; [|exact Hplain].
      pose proof (grows_on_error fuel st2 t msg s3) as H. rewrite Hoe in H. exact H.
Qed.

Lemma main_buy_loop_monitor fuel a c qty :
  forall st s,
    monitor None (log s) = Some (last_txid st) ->
    (last_txid st = None \/ qty <= bought st) ->
    plain_polls (log (snd (main_buy_loop fuel a c qty false st s))) ->
    exists a', monitor None (log (snd (main_buy_loop fuel a c qty false st s))) = Some a'.
Proof.
  induction fuel as [|fuel IH]; intros st s Hm Hl; cbn [main_buy_loop];
    destruct (bought st <? qty) eqn:Hb; try (intros _; by eauto).
  apply Z.ltb_lt in Hb. destruct Hl as [Hl|]; [|lia]. rewrite Hl in Hm.
  unfold bind.
  pose proof (buy_one_monitor_safe fuel a c qty false st s Hm) as Hsafe.
  destruct (buy_one fuel a c qty false st s) as [[[st'|st']| | | |] s1] eqn:Hturn;
    try (intros _; exact Hsafe).
  intros Hplain.
  assert (Hp1 : plain_polls (log s1)).
  { eapply plain_polls_extends; [|exact Hplain]. apply grows_main_buy_loop. }
  destruct (buy_one_monitor_continue _ _ _ _ _ _ _ _ Hm Hl Hturn Hp1) as [Hm1 Hl1].
  by apply IH.
Qed.

(** C1 (amended): in a run that is not a dry run and in which every poll
    reads an integer count other than -1, a [takeoffer] that follows a
    purchase whose result carries a transaction id is submitted only after
    a poll has shown that transaction with at least one confirmation: the
    loop waits for the confirmation right after the purchase.  A purchase
    whose result carries no transaction id is not waited for. *)
Theorem purchases_wait_for_confirmation fuel a c qty s :
  log s = [] ->
  plain_polls (log (snd (main_buy_loop fuel a c qty false initial_loop_state s))) ->
  sequenced (log (snd (main_buy_loop fuel a c qty false initial_loop_state s))).
Proof.
  intros Hlog Hplain.
  destruct (main_buy_loop_monitor fuel a c qty initial_loop_state s) as [a' Hm];
    [by rewrite Hlog|by left|exact Hplain|].
  by eapply monitor_sound.
Qed.

(** ** Requests of take_ticket_offer *)

(** X1: [take_ticket_offer] calls the node only for a complete entry. When
    the entry cannot be read it raises the error of the reading; when the
    txid or the ticket name is missing or empty it raises "Offer missing
    txid or ticket name", and when only the identityid is, "Offer missing
    identityid"; in these cases nothing is sent. For a complete entry it
    makes exactly one call, [takeoffer], whose request carries the txid,
    the ticket name and the identityid of the entry; it returns the reply
    with that txid and name, and an error of the call is raised as it is. *)
Theorem take_ticket_offer_request a c offer rt s :
  (forall msg,
     offer_fields offer = Raise msg ->
     take_ticket_offer a c offer rt s = (Raise msg, s)) /\
  (forall txid name idid,
     offer_fields offer = Ret (txid, name, idid) ->
     (truthy txid = false \/ truthy name = false ->
      take_ticket_offer a c offer rt s
      = (Raise "Offer missing txid or ticket name", s)) /\
     (truthy txid = true -> truthy name = true -> truthy idid = false ->
      take_ticket_offer a c offer rt s = (Raise "Offer missing identityid", s)) /\
     (truthy txid = true -> truthy name = true -> truthy idid = true ->
      let params := takeoffer_params a c txid name idid rt in
      take_ticket_offer a c offer rt s
      = (match reply_of "takeoffer" params s with
         | inl msg => Raise msg
         | inr v => Ret (JDict [("offer_txid", txid); ("ticket", name); ("result", v)])
         end, after_call "takeoffer" params s))).
Proof.
  unfold offer_fields, take_ticket_offer, bind, lift, raise.
  destruct (py_get_cases offer "offer") as [[o ->]|[msg0 ->]]; cbn [rbind];
    [|split; [by intros ? [= <-]|discriminate]].
  destruct (py_get_cases (py_or o (JDict [])) "txid") as [[txid0 ->]|[msg0 ->]];
    cbn [rbind]; [|split; [by intros ? [= <-]|discriminate]].
  destruct (py_get_cases (py_or o (JDict [])) "offer") as [[oo ->]|[msg0 ->]];
    cbn [rbind]; [|split; [by intros ? [= <-]|discriminate]].
  destruct (py_get_cases (py_or oo (JDict [])) "name") as [[name0 ->]|[msg0 ->]];
    cbn [rbind]; [|split; [by intros ? [= <-]|discriminate]].
  destruct (py_get_cases offer "identityid") as [[idid0 ->]|[msg0 ->]];
    cbn [rbind]; [|split; [by intros ? [= <-]|discriminate]].
  split; [discriminate|]. intros txid name idid [= <- <- <-]. split; [|split].
  - intros [-> | ->]; [reflexivity|]. by destruct (truthy txid0).
  - by intros -> -> ->.
  - intros -> -> ->. cbn [negb orb]. cbn zeta. rewrite call_eq. unfold ret.
    by destruct (reply_of "takeoffer" _ s).
Qed.

(** ** Waiting for an operation *)

Lemma wait_for_opid_success_step fuel opid s :
  wait_for_opid_success (S fuel) opid s =
  let s1 := opid_polled opid s in
  let again := wait_for_opid_success fuel opid (slept 3000 s1) in
  match opid_reply opid s with
  | inl msg => (Raise msg, s1)
  | inr (JList (s0 :: _)) =>
      match py_get s0 "status" with
      | Ret st =>
          if is_str st "success" then
            match py_get s0 "result" with
            | Ret r =>
                match py_get (py_or r (JDict [])) "txid" with
                | Ret txid => (Ret (py_or txid (JStr "")), s1)
                | Raise msg => (Raise msg, s1)
                | Exit msg => (Exit msg, s1)
                | Stuck => (Stuck, s1)
                | OutOfFuel => (OutOfFuel, s1)
                end
            | Raise msg => (Raise msg, s1)
            | Exit msg => (Exit msg, s1)
            | Stuck => (Stuck, s1)
            | OutOfFuel => (OutOfFuel, s1)
            end
          else if is_str st "failed" then
            match py_get s0 "error" with
            | Ret e =>
                match py_get (py_or e (JDict [])) "message" with
                | Ret err => (Raise (str_of (py_or err (JStr "Operation failed"))), s1)
                | Raise msg => (Raise msg, s1)
                | Exit msg => (Exit msg, s1)
                | Stuck => (Stuck, s1)
                | OutOfFuel => (OutOfFuel, s1)
                end
            | Raise msg => (Raise msg, s1)
            | Exit msg => (Exit msg, s1)
            | Stuck => (Stuck, s1)
            | OutOfFuel => (OutOfFuel, s1)
            end
          else again
      | Raise msg => (Raise msg, s1)
      | Exit msg => (Exit msg, s1)
      | Stuck => (Stuck, s1)
      | OutOfFuel => (OutOfFuel, s1)
      end
  | inr _ => again
  end.
Proof.
  cbn [wait_for_opid_success]. unfold bind at 1. rewrite call_eq.
  unfold opid_reply, opid_polled. cbn zeta.
  destruct (reply_of "z_getoperationstatus" _ s) as [msg|v]; [reflexivity|].
  destruct v as [|b|z|f|str|[|s0 l]|d]; try reflexivity.
  unfold bind at 1, lift at 1.
  destruct (py_get s0 "status") as [st| | | |]; try reflexivity.
  destruct (is_str st "success").
  - unfold bind at 1, lift at 1.
    destruct (py_get s0 "result") as [r| | | |]; reflexivity.
  - destruct (is_str st "failed"); [|reflexivity].
    unfold bind at 1, lift at 1.
    destruct (py_get s0 "error") as [e| | | |]; reflexivity.
Qed.

Lemma wait_opid_rounds opid n s s' :
  opid_rounds opid n s s' ->
  forall k, wait_for_opid_success (n + k) opid s = wait_for_opid_success k opid s'.
Proof.
  induction 1 as [s|n s s' Hp _ IH]; intros k; [reflexivity|].
  change (S n + k)%nat with (S (n + k)).
  rewrite wait_for_opid_success_step. cbn zeta.
  unfold opid_pending in Hp.
  destruct (opid_reply opid s) as [msg|v]; [contradiction|].
  destruct v as [|b|z|f|str|[|s0 l]|d]; try apply IH.
  destruct s0 as [|b|z|f|str|l0|d]; try contradiction.
  destruct Hp as [Hs Hf]. cbn [py_get]. rewrite Hs, Hf. apply IH.
Qed.

(** X2: [wait_for_opid_success] polls [z_getoperationstatus] and sleeps
    3000 ms after every poll that leaves the operation pending, for as long
    as the polls do so; at the first other poll it returns the txid of a
    ["success"] entry (the empty string when the entry has none), raises
    the message of a ["failed"] entry (["Operation failed"] when it has
    none), and raises the error of a call that fails: unlike the
    confirmation polls, a failure of the node ends the wait. *)
Theorem wait_for_opid_success_outcomes opid n s s' :
  opid_rounds opid n s s' ->
  (forall k, wait_for_opid_success (n + k) opid s = wait_for_opid_success k opid s') /\
  wait_for_opid_success n opid s = (OutOfFuel, s') /\
  (forall k msg,
     opid_reply opid s' = inl msg ->
     wait_for_opid_success (n + S k) opid s = (Raise msg, opid_polled opid s')) /\
  (forall k d rest txid,
     opid_reply opid s' = inr (JList (JDict d :: rest)) ->
     dict_get d "status" = Some (JStr "success") ->
     py_get (py_or (default JNull (dict_get d "result")) (JDict [])) "txid" = Ret txid ->
     wait_for_opid_success (n + S k) opid s
     = (Ret (py_or txid (JStr "")), opid_polled opid s')) /\
  (forall k d rest err,
     opid_reply opid s' = inr (JList (JDict d :: rest)) ->
     dict_get d "status" = Some (JStr "failed") ->
     py_get (py_or (default JNull (dict_get d "error")) (JDict [])) "message" = Ret err ->
     wait_for_opid_success (n + S k) opid s
     = (Raise (str_of (py_or err (JStr "Operation failed"))), opid_polled opid s')).
Proof.
  intros Hr. pose proof (wait_opid_rounds _ _ _ _ Hr) as Hw.
  split; [exact Hw|]. split; [|split; [|split]].
  - specialize (Hw 0%nat). rewrite Nat.add_0_r in Hw. rewrite Hw. reflexivity.
  - intros k msg Hm. rewrite Hw, wait_for_opid_success_step. cbn zeta.
    by rewrite Hm.
  - intros k d rest txid Hm Hs Ht. rewrite Hw, wait_for_opid_success_step. cbn zeta.
    rewrite Hm. cbn [py_get]. rewrite Hs. cbn [default is_str String.eqb].
    change (String.eqb "success" "success") with true. cbn iota.
    by rewrite Ht.
  - intros k d rest err Hm Hs He. rewrite Hw, wait_for_opid_success_step. cbn zeta.
    rewrite Hm. cbn [py_get]. rewrite Hs. cbn [default is_str].
    change (String.eqb "failed" "success") with false.
    change (String.eqb "failed" "failed") with true. cbn iota.
    by rewrite He.
Qed.

(** ** Waiting for a balance *)

Lemma wait_for_balance_step fuel address currency m s :
  exists bal,
    get_currency_balance address currency s
    = (Ret bal, after_call "getcurrencybalance" [JStr address] s) /\
    wait_for_balance (S fuel) address currency m s
    = if (m <=? bal)%float
      then (Ret bal, after_call "getcurrencybalance" [JStr address] s)
      else wait_for_balance fuel address currency m
             (slept 5000 (after_call "getcurrencybalance" [JStr address] s)).
Proof.
  destruct (get_currency_balance_returns address currency s) as [bal Hb].
  exists bal. split; [exact Hb|].
  cbn [wait_for_balance]. unfold bind at 1. rewrite Hb.
  destruct (m <=? bal)%float; [reflexivity|].
  unfold bind. by rewrite sleep_ms_eq.
Qed.

(** X3: [wait_for_balance] never fails: it either is still polling or
    returns a balance, and the balance it returns is the one its last
    lookup read and is at least [min_balance]; all it does is look up the
    balance of the address and sleep 5000 ms. *)
Theorem wait_for_balance_outcomes fuel address currency min_balance s :
  let r := wait_for_balance fuel address currency min_balance s in
  extends_by (balance_poll address) s (snd r) /\
  (fst r = OutOfFuel \/
   exists bal s0,
     fst r = Ret bal /\
     get_currency_balance address currency s0 = (Ret bal, snd r) /\
     (min_balance <=? bal)%float = true).
Proof.
  revert s. induction fuel as [|fuel IH]; intros s.
  - cbn. split; [apply extends_by_refl|by left].
  - destruct (wait_for_balance_step fuel address currency min_balance s)
      as (bal & Hb & Hstep).
    cbn zeta. rewrite Hstep.
    destruct (min_balance <=? bal)%float eqn:Hle.
    + cbn [fst snd]. split.
      * exists [ECall "getcurrencybalance" [JStr address]
                      (reply_of "getcurrencybalance" [JStr address] s)].
        split; [reflexivity|]. by repeat constructor.
      * right. exists bal, s. auto.
    + destruct (IH (slept 5000 (after_call "getcurrencybalance" [JStr address] s)))
        as [(rest & Hlog & Hrest) Hout].
      split; [|exact Hout].
      exists ([ECall "getcurrencybalance" [JStr address]
                     (reply_of "getcurrencybalance" [JStr address] s);
               ESleep 5000] ++ rest).
      split.
      * rewrite Hlog. cbn [slept after_call log]. by rewrite <- !app_assoc.
      * apply Forall_app. split; [by repeat constructor|exact Hrest].
Qed.

(** X4: when the node does not answer the balance lookups and a positive
    balance is awaited, [wait_for_balance] never returns and never reports
    the failure: every lookup reads 0.0 and the wait polls again. *)
Theorem wait_for_balance_unreachable_node address currency min_balance :
  balance_unavailable address ->
  (min_balance <=? 0)%float = false ->
  forall fuel s,
    fst (wait_for_balance fuel address currency min_balance s) = OutOfFuel /\
    length (log (snd (wait_for_balance fuel address currency min_balance s)))
    = (length (log s) + 2 * fuel)%nat.
Proof.
  intros Hdown Hpos. induction fuel as [|fuel IH]; intros s.
  - cbn. split; [reflexivity|lia].
  - destruct (wait_for_balance_step fuel address currency min_balance s)
      as (bal & Hb & Hstep).
    assert (Hzero : bal = 0%float).
    { destruct (Hdown (world s)) as [msg Hmsg].
      revert Hb. unfold get_currency_balance, try_except, bind. rewrite call_eq.
      unfold reply_of. rewrite Hmsg. unfold ret. by intros [= <-]. }
    subst bal. rewrite Hstep, Hpos.
    destruct (IH (slept 5000 (after_call "getcurrencybalance" [JStr address] s)))
      as [Hout Hlen].
    split; [exact Hout|]. rewrite Hlen. cbn [slept after_call log].
    rewrite !List.length_app. cbn [length]. lia.
Qed.

(** ** Quotes that are returned *)

Lemma scan_converters_origin res best required via :
  scan_converters res best = Ret (Some (required, via)) ->
  best = Some (required, via) \/
  exists c, c ∈ res /\ quote_of c = Ret (Some (via, required)).
Proof.
  revert best. induction res as [|c res IH]; intros best; cbn [scan_converters].
  - intros [= ->]. by left.
  - destruct (quote_of c) as [[[via' required']|]| | | |] eqn:Hq; cbn [rbind];
      try discriminate.
    + intros [Hb|(c' & Hin & Hc')]%IH.
      * unfold keep_best in Hb. destruct best as [[b v]|].
        -- destruct (required' <? b)%float.
           ++ injection Hb as <- <-. right. exists c. split; [by left|exact Hq].
           ++ by left.
        -- injection Hb as <- <-. right. exists c. split; [by left|exact Hq].
      * right. exists c'. split; [by right|exact Hc'].
    + intros [Hb|(c' & Hin & Hc')]%IH; [by left|].
      right. exists c'. split; [by right|exact Hc'].
Qed.

(** X5: whatever the node replies, a route that
    [get_best_exact_out_converter] returns is quoted by an entry of the
    reply: the route name is non-empty, and the amount is the entry's first
    positive amount (a number, greater than 0) rounded to 8 places. *)
Theorem get_best_exact_out_converter_quoted from_currency to_currency to_amount s
    amount via s' :
  get_best_exact_out_converter from_currency to_currency to_amount s
  = (Ret (amount, via), s') ->
  let params := [JStr (json_dumps (converter_query from_currency to_currency to_amount))] in
  exists l c required,
    reply_of "getcurrencyconverters" params s = inr (JList l) /\
    c ∈ l /\
    quote_of c = Ret (Some (via, required)) /\
    truthy via = true /\
    (required =? required)%float = true /\ (0 <? required)%float = true /\
    amount = py_round required 8.
Proof.
  unfold get_best_exact_out_converter. unfold bind at 1. rewrite call_eq.
  cbn zeta.
  destruct (reply_of "getcurrencyconverters" _ s) as [msg|v] eqn:Hr; [discriminate|].
  destruct v as [|b|z|f|str|[|c0 l]|d]; try discriminate.
  unfold bind, lift.
  destruct (scan_converters (c0 :: l) None) as [[[required v]|]| | | |] eqn:Hs;
    try discriminate.
  unfold ret. intros [= <- <- <-].
  apply scan_converters_origin in Hs as [Hs|(c & Hin & Hq)]; [discriminate|].
  exists (c0 :: l), c, required. split; [reflexivity|]. split; [exact Hin|].
  split; [exact Hq|].
  destruct (quote_of_positive _ _ _ Hq) as [Hv Hp].
  unfold positive_number in Hp. apply andb_true_iff in Hp as [Hn Hp].
  auto.
Qed.

(** ** The purchase loop: every outcome of a turn *)

Lemma take_ticket_offer_params a c offer t rt s :
  offer_txid_of offer = Ret (Some t) ->
  (exists msg, take_ticket_offer a c offer rt s = (Raise msg, s)) \/
  (exists name idid,
     let params := takeoffer_params a c (JStr t) name idid rt in
     take_ticket_offer a c offer rt s
     = (match reply_of "takeoffer" params s with
        | inl msg => Raise msg
        | inr v => Ret (JDict [("offer_txid", JStr t); ("ticket", name); ("result", v)])
        end, after_call "takeoffer" params s)).
Proof.
  intros (o & Ho & Htx & Hne)%offer_txid_of_some.
  unfold take_ticket_offer, bind, lift, raise. rewrite Ho, Htx.
  destruct (py_get_cases (py_or o (JDict [])) "offer") as [[oo ->]|[msg ->]]; [|eauto].
  destruct (py_get_cases (py_or oo (JDict [])) "name") as [[name ->]|[msg ->]]; [|eauto].
  destruct (py_get_cases offer "identityid") as [[idid ->]|[msg ->]]; [|eauto].
  destruct (negb (truthy (JStr t)) || negb (truthy name)); [eauto|].
  destruct (negb (truthy idid)); [eauto|].
  right. exists name, idid. cbn zeta.
  rewrite call_eq. unfold ret. by destruct (reply_of "takeoffer" _ s).
Qed.

Lemma purchase_result txid name v :
  py_get (JDict [("offer_txid", txid); ("ticket", name); ("result", v)]) "result" = Ret v.
Proof. reflexivity. Qed.

(** A turn of the loop, by cases: a property holds of the outcome of
    [buy_one] as soon as it holds in each way a turn can go. *)
Lemma buy_one_rule (Q : result flow -> state -> Prop) fuel a c qty dry_run st s :
  let s0 := after_call "getoffers" [JStr "vlotto"; JBool true] s in
  (forall msg,
     reply_of "getoffers" [JStr "vlotto"; JBool true] s = inl msg ->
     Q (Raise msg) s0) ->
  (forall raw r,
     reply_of "getoffers" [JStr "vlotto"; JBool true] s = inr raw ->
     select_next raw (attempted st) = r ->
     (forall x, r <> Ret (Some x)) ->
     Q (no_offer st r) s0) ->
  (forall raw offer t,
     reply_of "getoffers" [JStr "vlotto"; JBool true] s = inr raw ->
     select_next raw (attempted st) = Ret (Some (offer, t)) ->
     let st1 := with_attempted st ({[t]} ∪ attempted st) in
     (forall msg s1 r s2,
        take_ticket_offer a c offer dry_run s0 = (Raise msg, s1) ->
        on_error fuel st1 t msg s1 = (r, s2) ->
        Q (continue_of r) s2) /\
     (forall rr s1 result,
        take_ticket_offer a c offer dry_run s0 = (Ret rr, s1) ->
        py_get rr "result" = Ret result ->
        let st2 := with_purchase st1 rr in
        (forall r s2,
           after_purchase fuel qty dry_run st2 (result_tx_id result) s1 = (r, s2) ->
           (forall msg, r <> Raise msg) ->
           Q (continue_of r) s2) /\
        (forall msg s2 r s3,
           after_purchase fuel qty dry_run st2 (result_tx_id result) s1
           = (Raise msg, s2) ->
           on_error fuel st2 t msg s2 = (r, s3) ->
           Q (continue_of r) s3))) ->
  Q (fst (buy_one fuel a c qty dry_run st s)) (snd (buy_one fuel a c qty dry_run st s)).
Proof.
  intros s0 Hfail Hnone Hsome.
  destruct (buy_one fuel a c qty dry_run st s) as [r s'] eqn:Hb. cbn [fst snd].
  revert Hb. unfold buy_one. unfold bind at 1. rewrite call_eq. fold s0.
  destruct (reply_of "getoffers" _ s) as [msg|raw] eqn:Hraw;
    [intros [= <- <-]; by apply Hfail|].
  unfold bind at 1, lift at 1.
  destruct (select_next raw (attempted st)) as [[[offer t]|]| | | |] eqn:Hsel;
    try (intros [= <- <-]; by apply (Hnone raw _ eq_refl Hsel)).
  destruct (Hsome raw offer t eq_refl Hsel) as [Herr Hok]. clear Hsome Hnone Hfail.
  destruct (select_next_some _ _ _ _ Hsel) as (_ & Ho & _).
  unfold attempt_offer. unfold bind at 1. rewrite attempt_eq.
  destruct (take_ticket_offer_params a c offer t dry_run s0 Ho)
    as [[msg Ht]|(name & idid & Ht)]; cbn zeta in Ht.
  - rewrite Ht. unfold bind, ret.
    destruct (on_error fuel _ t msg s0) as [r1 s2] eqn:Hoe.
    specialize (Herr msg s0 r1 s2 Ht Hoe).
    destruct r1; intros [= <- <-]; exact Herr.
  - rewrite Ht.
    destruct (reply_of "takeoffer" _ s0) as [msg|v] eqn:Hv.
    + unfold bind, ret.
      destruct (on_error fuel _ t msg _) as [r1 s2] eqn:Hoe.
      specialize (Herr msg _ r1 s2 Ht Hoe).
      destruct r1; intros [= <- <-]; exact Herr.
    + destruct (Hok _ _ v Ht eq_refl) as [Hret Hraise]. cbn zeta in Hret, Hraise.
      unfold bind at 1, lift at 1. rewrite purchase_result.
      unfold bind at 1. rewrite attempt_eq.
      destruct (after_purchase fuel qty dry_run _ (result_tx_id v) _) as [r1 s2] eqn:Hap.
      destruct r1 as [st3|msg| | |];
        try (intros [= <- <-]; by apply (Hret _ s2 eq_refl)).
      unfold bind, ret.
      destruct (on_error fuel _ t msg s2) as [r1 s3] eqn:Hoe.
      specialize (Hraise msg s2 r1 s3 eq_refl Hoe).
      destruct r1; intros [= <- <-]; exact Hraise.
Qed.

(** The loop, by induction on its turns. *)
Lemma main_buy_loop_rule (I : loop_state -> state -> Prop)
    (F : result loop_state -> state -> Prop) a c qty dry_run :
  (forall st s, I st s -> qty <= bought st -> F (Ret st) s) ->
  (forall st s, I st s -> bought st < qty -> F OutOfFuel s) ->
  (forall fuel st s,
     I st s -> bought st < qty ->
     match buy_one fuel a c qty dry_run st s with
     | (Ret (Continue st'), s') => I st' s'
     | (r, s') => F (end_of r) s'
     end) ->
  forall fuel st s,
    I st s ->
    F (fst (main_buy_loop fuel a c qty dry_run st s))
      (snd (main_buy_loop fuel a c qty dry_run st s)).
Proof.
  intros Hexit Hfuel Hturn. induction fuel as [|fuel IH]; intros st s HI;
    cbn [main_buy_loop]; destruct (bought st <? qty) eqn:Hb;
    try (apply Z.ltb_ge in Hb; by apply Hexit);
    apply Z.ltb_lt in Hb; [by apply (Hfuel st)|].
  specialize (Hturn fuel st s HI Hb). unfold bind.
  destruct (buy_one fuel a c qty dry_run st s) as [[[st'|st']|msg|msg| |] s'];
    try exact Hturn.
  by apply IH.
Qed.

(** ** The purchase loop never buys more than asked *)

Lemma purchases_in_app l1 l2 :
  purchases_in (l1 ++ l2) = purchases_in l1 + purchases_in l2.
Proof.
  induction l1 as [|e l1 IH]; [reflexivity|].
  destruct e as [method params [msg|v]|ms]; cbn [app purchases_in]; lia.
Qed.

Lemma purchases_in_quiet l : Forall quiet l -> purchases_in l = 0.
Proof.
  induction 1 as [|e l He _ IH]; [reflexivity|].
  destruct e as [method params [msg|v]|ms]; cbn [purchases_in]; try exact IH.
  cbn in He. destruct (String.eqb_spec method "takeoffer") as [->|_]; [done|lia].
Qed.

Lemma purchases_in_extends_quiet s s' :
  extends_by quiet s s' -> purchases_in (log s') = purchases_in (log s).
Proof.
  intros (rest & -> & Hq). rewrite purchases_in_app, (purchases_in_quiet _ Hq). lia.
Qed.

Lemma purchases_in_getoffers s :
  purchases_in (log (after_call "getoffers" [JStr "vlotto"; JBool true] s))
  = purchases_in (log s).
Proof.
  unfold after_call. cbn [log]. rewrite purchases_in_app. cbn [purchases_in].
  destruct (reply_of "getoffers" _ s); cbn; lia.
Qed.

Lemma purchases_in_takeoffer params s :
  purchases_in (log (after_call "takeoffer" params s))
  = purchases_in (log s) + match reply_of "takeoffer" params s with
                            | inl _ => 0
                            | inr _ => 1
                            end.
Proof.
  unfold after_call. cbn [log]. rewrite purchases_in_app. cbn [purchases_in].
  destruct (reply_of "takeoffer" params s); cbn; lia.
Qed.

Lemma on_error_keeps fuel st t msg s st' s' :
  on_error fuel st t msg s = (Ret st', s') ->
  bought st' = bought st /\ purchased st' = purchased st /\
  last_txid st' = last_txid st.
Proof.
  intros [(_ & -> & _)|(_ & -> & _)]%on_error_ret; by repeat split.
Qed.

Lemma after_purchase_keeps fuel qty dry_run st tx_id s st' s' :
  after_purchase fuel qty dry_run st tx_id s = (Ret st', s') ->
  bought st' = bought st /\ purchased st' = purchased st /\
  attempted st' = attempted st /\ errors st' = errors st.
Proof.
  intros [(_ & -> & _)|(t & _ & [(_ & _ & -> & _)|(_ & -> & _)])]%after_purchase_ret;
    by repeat split.
Qed.

Lemma on_error_quiet fuel st t msg s r s' :
  on_error fuel st t msg s = (r, s') -> extends_by quiet s s'.
Proof.
  intros H. pose proof (grows_on_error fuel st t msg s) as Hg. by rewrite H in Hg.
Qed.

Lemma after_purchase_quiet fuel qty dry_run st tx_id s r s' :
  after_purchase fuel qty dry_run st tx_id s = (r, s') -> extends_by quiet s s'.
Proof.
  intros H. pose proof (grows_after_purchase fuel qty dry_run st tx_id s) as Hg.
  by rewrite H in Hg.
Qed.

(** X6: the purchase loop never buys more than [qty] tickets: whatever the
    node replies and however the loop ends, the log holds at most [qty]
    [takeoffer] calls that returned; when the loop returns, [bought] is
    their number and the length of [purchased]. *)
Theorem main_buy_loop_never_overbuys fuel a c qty dry_run s :
  purchases_in (log s) = 0 ->
  let r := main_buy_loop fuel a c qty dry_run initial_loop_state s in
  purchases_in (log (snd r)) <= Z.max 0 qty /\
  forall st,
    fst r = Ret st ->
    bought st = purchases_in (log (snd r)) /\
    Z.of_nat (length (purchased st)) = bought st.
Proof.
  intros Hlog.
  set (I := fun (st : loop_state) (s : state) =>
              purchases_in (log s) = bought st /\
              Z.of_nat (length (purchased st)) = bought st /\
              bought st <= Z.max 0 qty).
  set (F := fun (r : result loop_state) (s : state) =>
              purchases_in (log s) <= Z.max 0 qty /\
              forall st, r = Ret st ->
                         bought st = purchases_in (log s) /\
                         Z.of_nat (length (purchased st)) = bought st).
  apply (main_buy_loop_rule I F).
  - intros st s0 (Hc & Hl & Hb) _. split; [lia|]. intros ? [= <-]. auto.
  - intros st s0 (Hc & Hl & Hb) _. split; [lia|]. intros ? [=].
  - intros fuel' st s0 (Hc & Hl & Hb) Hlt.
    assert (HI : forall st' s', purchases_in (log s') = bought st' ->
                   Z.of_nat (length (purchased st')) = bought st' ->
                   bought st' <= bought st + 1 -> I st' s')
      by (intros st' s' ? ? ?; repeat split; [assumption..|lia]).
    assert (HF : forall r s', purchases_in (log s') <= bought st + 1 ->
                   (forall st', r = Ret st' -> I st' s') -> F r s').
    { intros r s' Hle Hr. split; [lia|]. intros st' ->.
      destruct (Hr st' eq_refl) as (? & ? & _). auto. }
    pose proof (buy_one_rule
      (fun r s' => match r with
                   | Ret (Continue st') => I st' s'
                   | _ => F (end_of r) s'
                   end) fuel' a c qty dry_run st s0) as Hrule.
    cbn zeta in Hrule.
    destruct (buy_one fuel' a c qty dry_run st s0) as [r s'] eqn:Hturn.
    cbn [fst snd] in Hrule.
    assert (Hgoal : match r with
                    | Ret (Continue st') => I st' s'
                    | _ => F (end_of r) s'
                    end); [|by destruct r as [[?|?]| | | |]].
    clear Hturn. apply Hrule; clear Hrule.
    + intros msg _. apply HF; [rewrite purchases_in_getoffers; lia|]. intros ? [=].
    + intros raw r0 _ _ Hnone.
      destruct r0 as [[x|]| | | |]; cbn [no_offer end_of];
        try (apply HF; [rewrite purchases_in_getoffers; lia|]; by intros ? [=]).
      * by destruct (Hnone x).
      * apply HF; [rewrite purchases_in_getoffers; lia|]. intros ? [= <-].
        apply HI; [by rewrite purchases_in_getoffers|assumption|lia].
    + intros raw offer t _ Hsel. cbn zeta.
      destruct (select_next_some _ _ _ _ Hsel) as (_ & Ho & _).
      split.
      * intros msg s1 r0 s2 Ht Hoe.
        assert (Hs1 : purchases_in (log s1) = bought st).
        { destruct (take_ticket_offer_raise _ _ _ _ _ _ _ _ Ho Ht)
            as [->|(params & Hp & ->)].
          - by rewrite purchases_in_getoffers.
          - rewrite purchases_in_takeoffer, Hp, purchases_in_getoffers. lia. }
        pose proof (purchases_in_extends_quiet _ _ (on_error_quiet _ _ _ _ _ _ _ Hoe))
          as Hs2.
        destruct r0 as [st'| | | |]; cbn [continue_of end_of];
          try (apply HF; [lia|]; by intros ? [=]).
        destruct (on_error_keeps _ _ _ _ _ _ _ Hoe) as (Hb' & Hp' & _).
        cbn [with_attempted bought purchased] in Hb', Hp'.
        apply HI; [lia|by rewrite Hp', Hb'|lia].
      * intros rr s1 result Ht Hres.
        assert (Hs1 : purchases_in (log s1) = bought st + 1).
        { destruct (take_ticket_offer_ret _ _ _ _ _ _ _ _ Ho Ht)
            as (params & name & v & Hp & -> & _).
          rewrite purchases_in_takeoffer, Hp, purchases_in_getoffers. lia. }
        split.
        -- intros r0 s2 Hap Hnr.
           pose proof (purchases_in_extends_quiet _ _
                         (after_purchase_quiet _ _ _ _ _ _ _ _ Hap)) as Hs2.
           destruct r0 as [st'|msg| | |]; cbn [continue_of end_of];
             try (apply HF; [lia|]; by intros ? [=]).
           destruct (after_purchase_keeps _ _ _ _ _ _ _ _ Hap) as (Hb' & Hp' & _).
           cbn [with_purchase with_attempted bought purchased] in Hb', Hp'.
           apply HI; [lia| |lia].
           rewrite Hp', Hb', List.length_app. cbn [length]. lia.
        -- intros msg s2 r0 s3 Hap Hoe.
           pose proof (purchases_in_extends_quiet _ _
                         (after_purchase_quiet _ _ _ _ _ _ _ _ Hap)) as Hs2.
           pose proof (purchases_in_extends_quiet _ _
                         (on_error_quiet _ _ _ _ _ _ _ Hoe)) as Hs3.
           destruct r0 as [st'| | | |]; cbn [continue_of end_of];
             try (apply HF; [lia|]; by intros ? [=]).
           destruct (on_error_keeps _ _ _ _ _ _ _ Hoe) as (Hb' & Hp' & _).
           cbn [with_purchase with_attempted bought purchased] in Hb', Hp'.
           apply HI; [lia| |lia].
           rewrite Hp', Hb', List.length_app. cbn [length]. lia.
  - repeat split; cbn; [exact Hlog|lia].
Qed.

(** ** What ends the purchase loop with an error *)

Lemma data_outcome_rbind {A B} (r : result A) (k : A -> result B) :
  data_outcome r -> (forall a, data_outcome (k a)) -> data_outcome (rbind r k).
Proof. destruct r; cbn; auto. Qed.

Lemma data_outcome_py_get v k : data_outcome (py_get v k).
Proof. by destruct v. Qed.

Lemma data_outcome_as_id v : data_outcome (as_id v).
Proof. destruct v; cbn; try done; by destruct (_ : bool). Qed.

Lemma data_outcome_as_str v : data_outcome (as_str v).
Proof. by destruct v. Qed.

Lemma data_outcome_keyed offers : data_outcome (keyed offers).
Proof.
  induction offers as [|o offers IH]; cbn [keyed]; [done|].
  apply data_outcome_rbind.
  - unfold name_key. repeat (apply data_outcome_rbind; [apply data_outcome_py_get|intros ?]).
    apply data_outcome_as_str.
  - intros k. apply data_outcome_rbind; [exact IH|done].
Qed.

Lemma data_outcome_find_offer attempted offers : data_outcome (find_offer attempted offers).
Proof.
  induction offers as [|o offers IH]; cbn [find_offer]; [done|].
  apply data_outcome_rbind.
  - unfold offer_txid_of.
    repeat (apply data_outcome_rbind; [apply data_outcome_py_get|intros ?]).
    apply data_outcome_as_id.
  - intros [t|]; [|exact IH]. by destruct (bool_decide _).
Qed.

Lemma data_outcome_select_next raw attempted : data_outcome (select_next raw attempted).
Proof.
  unfold select_next, sort_offers. apply data_outcome_rbind.
  - apply data_outcome_rbind; [apply data_outcome_keyed|done].
  - intros offers. apply data_outcome_find_offer.
Qed.

Lemma data_outcome_py_ge_int v z : data_outcome (py_ge_int v z).
Proof. destruct v; cbn; try done. by destruct (float_of_Z z). Qed.

Lemma wait_for_tx_confirmed_no_exit fuel t m s msg :
  fst (wait_for_tx_confirmed fuel t m s) <> Exit msg.
Proof.
  revert s. induction fuel as [|fuel IH]; intros s; [done|].
  rewrite wait_for_tx_confirmed_step. cbn zeta.
  pose proof (data_outcome_py_ge_int (confirmations_of (poll_reply t s)) m) as Hd.
  destruct (py_ge_int _ m) as [[|]| | | |]; try done.
  destruct (py_eq_int _ _); [done|apply IH].
Qed.

Lemma on_error_no_wait fuel st t msg s :
  last_txid st = None ->
  exists st', (on_error fuel st t msg s
               = (Ret st', if is_rejected msg then slept 5000 s else s)) /\
              last_txid st' = None /\ bought st' = bought st.
Proof.
  intros Hl. unfold on_error. rewrite Hl.
  destruct (is_rejected msg).
  - unfold bind. rewrite sleep_ms_eq. unfold ret. eexists. split; [reflexivity|].
    by split.
  - unfold ret. eexists. split; [reflexivity|]. by split.
Qed.

(** Without its [print] calls, the loop of a run that is not a dry run
    never leaves the program, and ends with an error only at a refresh of
    the offers. *)
Lemma main_buy_loop_raises fuel a c qty s :
  let r := main_buy_loop fuel a c qty false initial_loop_state s in
  (forall msg, fst r <> Exit msg) /\
  (forall msg,
     fst r = Raise msg ->
     exists s0,
       snd r = after_call "getoffers" [JStr "vlotto"; JBool true] s0 /\
       (reply_of "getoffers" [JStr "vlotto"; JBool true] s0 = inl msg \/
        exists raw tried,
          reply_of "getoffers" [JStr "vlotto"; JBool true] s0 = inr raw /\
          select_next raw tried = Raise msg)).
Proof.
  set (I := fun (st : loop_state) (s : state) =>
              last_txid st = None \/ qty <= bought st).
  set (F := fun (r : result loop_state) (s' : state) =>
              (forall msg, r <> Exit msg) /\
              (forall msg,
                 r = Raise msg ->
                 exists s0,
                   s' = after_call "getoffers" [JStr "vlotto"; JBool true] s0 /\
                   (reply_of "getoffers" [JStr "vlotto"; JBool true] s0 = inl msg \/
                    exists raw tried,
                      reply_of "getoffers" [JStr "vlotto"; JBool true] s0 = inr raw /\
                      select_next raw tried = Raise msg))).
  apply (main_buy_loop_rule I F); [by split..| |by left].
  intros fuel' st s0 [Hl|] Hlt; [|lia].
  pose proof (buy_one_rule
    (fun r s' => match r with
                 | Ret (Continue st') => I st' s'
                 | _ => F (end_of r) s'
                 end) fuel' a c qty false st s0) as Hrule.
  cbn zeta in Hrule.
  destruct (buy_one fuel' a c qty false st s0) as [r s'] eqn:Hturn.
  cbn [fst snd] in Hrule.
  assert (Hgoal : match r with
                  | Ret (Continue st') => I st' s'
                  | _ => F (end_of r) s'
                  end); [|by destruct r as [[?|?]| | | |]].
  clear Hturn. apply Hrule; clear Hrule.
  - intros msg Hm. split; [done|]. intros ? [= <-]. exists s0. split; [reflexivity|].
    by left.
  - intros raw r0 Hraw Hsel Hnone.
    pose proof (data_outcome_select_next raw (attempted st)) as Hd. rewrite Hsel in Hd.
    destruct r0 as [[x|]|msg| | |]; cbn [no_offer end_of]; try done.
    split; [done|]. intros ? [= <-]. exists s0. split; [reflexivity|].
    right. eauto.
  - intros raw offer t _ _. cbn zeta. split.
    + intros msg s1 r0 s2 _ Hoe.
      destruct (on_error_no_wait fuel' (with_attempted st ({[t]} ∪ attempted st))
                                 t msg s1 Hl) as (st' & Hst' & Hl' & _).
      rewrite Hst' in Hoe. injection Hoe as <- <-. by left.
    + intros rr s1 result _ _. cbn zeta. split.
      * intros r0 s2 Hap Hnr.
        destruct r0 as [st'|msg|msg| |]; cbn [continue_of end_of]; try done.
        -- apply after_purchase_ret in Hap
             as [(_ & -> & _)|(t' & _ & [(_ & _ & -> & _)|([Hq|Hd] & -> & _)])];
             try (by left); try discriminate.
           right. cbn [with_last_txid with_purchase with_attempted bought] in *. lia.
        -- by destruct (Hnr msg).
        -- exfalso. revert Hap. unfold after_purchase, bind, lift, ret.
           pose proof (data_outcome_as_id (result_tx_id result)) as Hd.
           destruct (as_id (result_tx_id result)) as [[t'|]| | | |]; try done.
           destruct (_ && _); [|done].
           pose proof (wait_for_tx_confirmed_no_exit fuel' t' 1 s1 msg) as Hw.
           destruct (wait_for_tx_confirmed fuel' t' 1 s1) as [[?| | | |] ?]; try done.
           intros [= -> _]. by apply Hw.
      * intros msg s2 r0 s3 _ Hoe.
        destruct (on_error_no_wait fuel'
                    (with_purchase (with_attempted st ({[t]} ∪ attempted st)) rr)
                    t msg s2 Hl) as (st' & Hst' & Hl' & _).
        rewrite Hst' in Hoe. injection Hoe as <- <-. by left.
Qed.

(** On a console that takes every text, the loop with its [print] calls
    is the loop without them. *)
Section ConsoleFacts.

Variable console : Z -> list json -> World -> option string.

Lemma print_at_quiet line values s :
  console_quiet console -> print_at console line values s = (Ret tt, s).
Proof. intros Hq. unfold print_at. by rewrite Hq. Qed.

Lemma bind_print_quiet {A} line values (k : unit -> M A) s :
  console_quiet console -> bind (print_at console line values) k s = k tt s.
Proof. intros Hq. unfold bind. by rewrite print_at_quiet. Qed.

Lemma bind_cong {A B} (m1 m2 : M A) (k1 k2 : A -> M B) s :
  m1 s = m2 s -> (forall a s', k1 a s' = k2 a s') -> bind m1 k1 s = bind m2 k2 s.
Proof.
  intros Hm Hk. unfold bind. rewrite Hm. destruct (m2 s) as [[a| | | |] s']; auto.
Qed.

Lemma bind_ext {A B} (m : M A) (k1 k2 : A -> M B) s :
  (forall a s', k1 a s' = k2 a s') -> bind m k1 s = bind m k2 s.
Proof. by apply bind_cong. Qed.

Lemma wait_for_tx_confirmed_printing_quiet fuel txid m s :
  console_quiet console ->
  wait_for_tx_confirmed_printing console fuel txid m s = wait_for_tx_confirmed fuel txid m s.
Proof.
  intros Hq. unfold wait_for_tx_confirmed_printing. rewrite bind_print_quiet by done.
  revert s. induction fuel as [|fuel IH]; intros s; [reflexivity|].
  cbn [wait_for_tx_polls_printing wait_for_tx_confirmed].
  apply bind_ext. intros confs s1. apply bind_ext. intros ge s2.
  destruct ge; [by rewrite bind_print_quiet|].
  destruct (py_eq_int confs (-1)); [reflexivity|].
  rewrite bind_print_quiet by done. apply bind_ext. intros _ s3. apply IH.
Qed.

Lemma on_error_printing_quiet fuel st offer_txid err_msg s :
  console_quiet console ->
  on_error_printing console fuel st offer_txid err_msg s
  = on_error fuel st offer_txid err_msg s.
Proof.
  intros Hq. unfold on_error_printing, on_error.
  destruct (is_rejected err_msg); [|by rewrite bind_print_quiet].
  apply bind_cong; [|reflexivity].
  destruct (last_txid st) as [t|]; rewrite bind_print_quiet by done; [|reflexivity].
  apply bind_cong; [by apply wait_for_tx_confirmed_printing_quiet|reflexivity].
Qed.

Lemma after_purchase_printing_quiet fuel qty dry_run st txid name v tx_id s :
  console_quiet console ->
  after_purchase_printing
    console fuel qty dry_run st
    (JDict [("offer_txid", txid); ("ticket", name); ("result", v)]) tx_id s
  = after_purchase fuel qty dry_run st tx_id s.
Proof.
  intros Hq. unfold after_purchase_printing, after_purchase.
  change (py_get (JDict [("offer_txid", txid); ("ticket", name); ("result", v)]) "ticket")
    with (Ret name).
  unfold bind at 1, lift at 1. rewrite bind_print_quiet by done.
  apply bind_ext. intros [t|] s1; [|reflexivity].
  destruct (_ && _); [|reflexivity].
  apply bind_cong; [by apply wait_for_tx_confirmed_printing_quiet|reflexivity].
Qed.

Lemma attempt_cong {A} (m1 m2 : M A) s : m1 s = m2 s -> attempt m1 s = attempt m2 s.
Proof. intros Hm. unfold attempt, try_except, bind. by rewrite Hm. Qed.

Lemma bind_cong_at {A B} (m : M A) (k1 k2 : A -> M B) s :
  (forall a s', m s = (Ret a, s') -> k1 a s' = k2 a s') -> bind m k1 s = bind m k2 s.
Proof. intros Hk. unfold bind. destruct (m s) as [[a| | | |] s']; auto. Qed.

Lemma take_ticket_offer_result a c offer rt s r s' :
  take_ticket_offer a c offer rt s = (Ret r, s') ->
  exists txid name v, r = JDict [("offer_txid", txid); ("ticket", name); ("result", v)].
Proof.
  unfold take_ticket_offer, bind, lift, raise.
  destruct (py_get_cases offer "offer") as [[o ->]|[msg ->]]; [|discriminate].
  destruct (py_get_cases (py_or o (JDict [])) "txid") as [[txid ->]|[msg ->]];
    [|discriminate].
  destruct (py_get_cases (py_or o (JDict [])) "offer") as [[oo ->]|[msg ->]];
    [|discriminate].
  destruct (py_get_cases (py_or oo (JDict [])) "name") as [[name ->]|[msg ->]];
    [|discriminate].
  destruct (py_get_cases offer "identityid") as [[idid ->]|[msg ->]]; [|discriminate].
  destruct (negb (truthy txid) || negb (truthy name)); [discriminate|].
  destruct (negb (truthy idid)); [discriminate|].
  rewrite call_eq. destruct (reply_of "takeoffer" _ s) as [msg|v]; [discriminate|].
  unfold ret. intros [= <- _]. eauto.
Qed.

Lemma attempt_offer_printing_quiet fuel a c qty dry_run st offer t s :
  console_quiet console ->
  attempt_offer_printing console fuel a c qty dry_run st offer t s
  = attempt_offer fuel a c qty dry_run st offer t s.
Proof.
  intros Hq. unfold attempt_offer_printing, attempt_offer. cbn zeta.
  apply bind_cong_at. intros taken s1 Htaken. rewrite attempt_eq in Htaken.
  destruct taken as [msg|r].
  { apply bind_cong; [by apply on_error_printing_quiet|reflexivity]. }
  destruct (take_ticket_offer a c offer dry_run s) as [[r'| | | |] s0] eqn:Ht;
    try discriminate.
  injection Htaken as <- <-.
  destruct (take_ticket_offer_result _ _ _ _ _ _ _ Ht) as (txid & name & v & ->).
  apply bind_ext. intros result s2. apply bind_cong.
  - apply attempt_cong. by apply after_purchase_printing_quiet.
  - intros [msg|st3] s3; [|reflexivity].
    apply bind_cong; [by apply on_error_printing_quiet|reflexivity].
Qed.

Lemma buy_one_printing_quiet fuel a c qty dry_run st s :
  console_quiet console ->
  buy_one_printing console fuel a c qty dry_run st s = buy_one fuel a c qty dry_run st s.
Proof.
  intros Hq. unfold buy_one_printing, buy_one.
  apply bind_ext. intros raw s0.
  apply bind_ext. intros [[offer t]|] s1; [by apply attempt_offer_printing_quiet|].
  by rewrite bind_print_quiet.
Qed.

Lemma main_buy_loop_printing_quiet fuel a c qty dry_run st s :
  console_quiet console ->
  main_buy_loop_printing console fuel a c qty dry_run st s
  = main_buy_loop fuel a c qty dry_run st s.
Proof.
  intros Hq. revert st s. induction fuel as [|fuel IH]; intros st s;
    cbn [main_buy_loop_printing main_buy_loop]; [reflexivity|].
  destruct (bought st <? qty); [|reflexivity].
  unfold bind. rewrite buy_one_printing_quiet by done.
  destruct (buy_one fuel a c qty dry_run st s) as [[[st'|st']| | | |] s'];
    try reflexivity. apply IH.
Qed.

(** X7: on a console that takes every text, the purchase loop of a run
    that is not a dry run, with its [print] calls, never leaves the
    program, and it ends with an error only at a refresh of the offers:
    when the [getoffers] call fails, or when the offers of its reply
    cannot be read. No failure of [takeoffer] and no failure of a
    confirmation wait ends the loop. *)
Theorem main_buy_loop_errors fuel a c qty s :
  console_quiet console ->
  let r := main_buy_loop_printing console fuel a c qty false initial_loop_state s in
  (forall msg, fst r <> Exit msg) /\
  (forall msg,
     fst r = Raise msg ->
     exists s0,
       snd r = after_call "getoffers" [JStr "vlotto"; JBool true] s0 /\
       (reply_of "getoffers" [JStr "vlotto"; JBool true] s0 = inl msg \/
        exists raw tried,
          reply_of "getoffers" [JStr "vlotto"; JBool true] s0 = inr raw /\
          select_next raw tried = Raise msg)).
Proof.
  intros Hq. cbn zeta. rewrite main_buy_loop_printing_quiet by exact Hq.
  apply main_buy_loop_raises.
Qed.

End ConsoleFacts.

(** ** Every attempt follows a refresh *)

Lemma take_ticket_offer_outcome a c offer t rt s r s1 :
  offer_txid_of offer = Ret (Some t) ->
  take_ticket_offer a c offer rt s = (r, s1) ->
  (s1 = s /\ exists msg, r = Raise msg) \/
  (exists name idid,
     let params := takeoffer_params a c (JStr t) name idid rt in
     s1 = after_call "takeoffer" params s /\
     r = match reply_of "takeoffer" params s with
         | inl msg => Raise msg
         | inr v => Ret (JDict [("offer_txid", JStr t); ("ticket", name); ("result", v)])
         end).
Proof.
  intros Ho Ht.
  destruct (take_ticket_offer_params a c offer t rt s Ho)
    as [[msg Hm]|(name & idid & Hp)]; cbn zeta in *.
  - rewrite Hm in Ht. injection Ht as <- <-. left. eauto.
  - rewrite Hp in Ht. injection Ht as <- <-. right. eauto.
Qed.

Lemma quiet_not_takeoffer params reply : ~ quiet (ECall "takeoffer" params reply).
Proof. cbn. auto. Qed.

Lemma refreshed_app_quiet a c dry_run l rest :
  refreshed a c dry_run l -> Forall quiet rest -> refreshed a c dry_run (l ++ rest).
Proof.
  intros Hl Hq l1 params reply l2 Heq.
  apply List.app_eq_app in Heq as [m [[-> Hm]|[-> Hm]]].
  - destruct m as [|e m]; cbn in Hm.
    + subst rest. apply Forall_cons in Hq as [Hq _].
      by destruct (quiet_not_takeoffer params reply).
    + injection Hm as <- ->. by apply (Hl l1 params reply m).
  - subst rest. apply Forall_app in Hq as [_ Hq]. apply Forall_cons in Hq as [Hq _].
    by destruct (quiet_not_takeoffer params reply).
Qed.

Lemma refreshed_extends a c dry_run s s' :
  refreshed a c dry_run (log s) -> extends_by quiet s s' ->
  refreshed a c dry_run (log s').
Proof. intros Hl (rest & -> & Hq). by apply refreshed_app_quiet. Qed.

Lemma refreshed_getoffers a c dry_run s :
  refreshed a c dry_run (log s) ->
  refreshed a c dry_run (log (after_call "getoffers" [JStr "vlotto"; JBool true] s)).
Proof.
  intros Hl. unfold after_call. cbn [log]. apply refreshed_app_quiet; [exact Hl|].
  repeat constructor. cbn. discriminate.
Qed.

Lemma refreshed_takeoffer a c dry_run s raw offer t name idid :
  refreshed a c dry_run (log s) ->
  reply_of "getoffers" [JStr "vlotto"; JBool true] s = inr raw ->
  offer ∈ extract_offers_list raw ->
  offer_txid_of offer = Ret (Some t) ->
  refreshed a c dry_run
    (log (after_call "takeoffer" (takeoffer_params a c (JStr t) name idid dry_run)
                     (after_call "getoffers" [JStr "vlotto"; JBool true] s))).
Proof.
  intros Hl Hraw Hin Ho.
  pose proof (refreshed_getoffers a c dry_run s Hl) as Hg.
  set (s0 := after_call "getoffers" [JStr "vlotto"; JBool true] s) in *.
  unfold after_call at 1. cbn [log].
  intros l1 params reply l2 Heq.
  apply List.app_eq_app in Heq as [m [[Hs0 Hm]|[-> Hm]]].
  - destruct m as [|e m]; cbn [app] in Hm.
    + rewrite app_nil_r in Hs0. injection Hm as -> _ _.
      exists (log s), raw, offer, t, name, idid.
      split; [|by repeat split]. rewrite <- Hs0. unfold s0, after_call. cbn [log].
      by rewrite Hraw.
    + injection Hm as <- Hm. by apply (Hg l1 params reply m).
  - destruct m as [|e m]; cbn [app] in Hm.
    + injection Hm as Hp _ _. rewrite app_nil_r.
      exists (log s), raw, offer, t, name, idid.
      split; [|by repeat split]. unfold s0, after_call. cbn [log]. by rewrite Hraw.
    + injection Hm as _ Hm. by destruct m.
Qed.

(** X8: every [takeoffer] call of the purchase loop comes right after a
    [getoffers] call that returned, and asks for an offer of that reply
    (named by its txid) with the addresses of the run: the loop never acts
    on offers of an earlier refresh. *)
Theorem main_buy_loop_refreshed fuel a c qty dry_run st s :
  refreshed a c dry_run (log s) ->
  refreshed a c dry_run (log (snd (main_buy_loop fuel a c qty dry_run st s))).
Proof.
  set (I := fun (st : loop_state) (s : state) => refreshed a c dry_run (log s)).
  set (F := fun (r : result loop_state) (s : state) => refreshed a c dry_run (log s)).
  apply (main_buy_loop_rule I F); [done..|].
  clear fuel st s. intros fuel st s Hl _.
  assert (Hgoal : refreshed a c dry_run (log (snd (buy_one fuel a c qty dry_run st s))));
    [|by destruct (buy_one fuel a c qty dry_run st s) as [[[?|?]| | | |] ?]].
  apply (buy_one_rule (fun _ s' => refreshed a c dry_run (log s'))).
  - intros msg _. by apply refreshed_getoffers.
  - intros raw r _ _ _. by apply refreshed_getoffers.
  - intros raw offer t Hraw Hsel. cbn zeta.
    destruct (select_next_some _ _ _ _ Hsel) as (Hin & Ho & _).
    assert (Hs1 : forall r s1,
               take_ticket_offer a c offer dry_run
                 (after_call "getoffers" [JStr "vlotto"; JBool true] s) = (r, s1) ->
               refreshed a c dry_run (log s1)).
    { intros r s1 Ht.
      destruct (take_ticket_offer_outcome _ _ _ _ _ _ _ _ Ho Ht)
        as [[-> _]|(name & idid & -> & _)].
      - by apply refreshed_getoffers.
      - by apply (refreshed_takeoffer a c dry_run s raw offer). }
    split.
    + intros msg s1 r s2 Ht Hoe.
      eapply refreshed_extends; [exact (Hs1 _ _ Ht)|exact (on_error_quiet _ _ _ _ _ _ _ Hoe)].
    + intros rr s1 result Ht _. split.
      * intros r s2 Hap _.
        eapply refreshed_extends;
          [exact (Hs1 _ _ Ht)|exact (after_purchase_quiet _ _ _ _ _ _ _ _ Hap)].
      * intros msg s2 r s3 Hap Hoe.
        eapply refreshed_extends; [|exact (on_error_quiet _ _ _ _ _ _ _ Hoe)].
        eapply refreshed_extends;
          [exact (Hs1 _ _ Ht)|exact (after_purchase_quiet _ _ _ _ _ _ _ _ Hap)].
Qed.

(** ** No offer is asked for twice *)

Lemma taken_offer_quiet e : quiet e -> taken_offer e = None.
Proof.
  destruct e as [method params reply|ms]; [|done]. cbn [quiet]. intros Hm.
  apply String.eqb_neq in Hm. unfold taken_offer.
  repeat case_match; try reflexivity; congruence.
Qed.

Lemma taken_offer_getoffers params reply :
  taken_offer (ECall "getoffers" params reply) = None.
Proof. apply taken_offer_quiet. cbn. discriminate. Qed.

Lemma taken_offer_takeoffer a c t name idid dry_run reply :
  taken_offer (ECall "takeoffer" (takeoffer_params a c (JStr t) name idid dry_run) reply)
  = Some t.
Proof. reflexivity. Qed.

Lemma never_resubmitted_snoc l e :
  never_resubmitted l ->
  (forall t e1, taken_offer e = Some t -> e1 ∈ l -> taken_offer e1 = Some t ->
                rejected_reply e1 = true) ->
  never_resubmitted (l ++ [e]).
Proof.
  intros Hl He l1 e1 l2 e2 l3 t Heq H1 H2.
  destruct l3 as [|x l3] using rev_ind.
  - change (l1 ++ e1 :: l2 ++ [e2]) with (l1 ++ (e1 :: l2) ++ [e2]) in Heq.
    rewrite app_assoc in Heq. apply app_inj_tail in Heq as [-> ->].
    apply (He t e1 H2); [|exact H1]. apply elem_of_app. right. by left.
  - clear IHl3.
    replace (l1 ++ e1 :: l2 ++ e2 :: l3 ++ [x])
      with ((l1 ++ e1 :: l2 ++ e2 :: l3) ++ [x]) in Heq
      by (rewrite <- !app_assoc; cbn; by rewrite <- !app_assoc).
    apply app_inj_tail in Heq as [-> _]. by apply (Hl l1 e1 l2 e2 l3 t).
Qed.

Lemma never_resubmitted_app l rest :
  never_resubmitted l -> Forall (fun e => taken_offer e = None) rest ->
  never_resubmitted (l ++ rest).
Proof.
  intros Hl Hr. revert l Hl. induction Hr as [|e rest He _ IH]; intros l Hl.
  - by rewrite app_nil_r.
  - change (l ++ e :: rest) with (l ++ [e] ++ rest). rewrite app_assoc. apply IH.
    apply never_resubmitted_snoc; [exact Hl|]. intros t e1 Ht. congruence.
Qed.

Lemma tracked_app tried l rest :
  tracked tried l -> Forall (fun e => taken_offer e = None) rest ->
  tracked tried (l ++ rest).
Proof.
  intros Hl Hr e t [Hin|Hin]%elem_of_app Ht Hrej; [by apply (Hl e)|].
  rewrite Forall_forall in Hr. rewrite (Hr e Hin) in Ht. discriminate.
Qed.

Lemma tracked_mono tried tried' l :
  tried ⊆ tried' -> tracked tried l -> tracked tried' l.
Proof. intros Hs Hl e t Hin Ht Hrej. apply Hs. by apply (Hl e). Qed.

Lemma quiet_untaken rest : Forall quiet rest -> Forall (fun e => taken_offer e = None) rest.
Proof. intros H. eapply Forall_impl; [exact H|exact taken_offer_quiet]. Qed.

Lemma never_resubmitted_extends s s' :
  never_resubmitted (log s) -> extends_by quiet s s' -> never_resubmitted (log s').
Proof.
  intros Hl (rest & -> & Hq). apply never_resubmitted_app; [exact Hl|].
  by apply quiet_untaken.
Qed.

Lemma tracked_extends tried s s' :
  tracked tried (log s) -> extends_by quiet s s' -> tracked tried (log s').
Proof.
  intros Hl (rest & -> & Hq). apply tracked_app; [exact Hl|]. by apply quiet_untaken.
Qed.

Lemma extends_getoffers s :
  extends_by quiet s (after_call "getoffers" [JStr "vlotto"; JBool true] s).
Proof.
  eexists. split; [reflexivity|]. repeat constructor. cbn. discriminate.
Qed.

(** What the log and the attempted set look like once [take_ticket_offer]
    is through. *)
Lemma take_tracked a c dry_run tried s offer t r s1 :
  tracked tried (log s) -> never_resubmitted (log s) -> t ∉ tried ->
  offer_txid_of offer = Ret (Some t) ->
  take_ticket_offer a c offer dry_run
                    (after_call "getoffers" [JStr "vlotto"; JBool true] s) = (r, s1) ->
  never_resubmitted (log s1) /\
  tracked ({[t]} ∪ tried) (log s1) /\
  (forall msg, r = Raise msg -> is_rejected msg = true -> tracked tried (log s1)) /\
  (forall rr result, r = Ret rr -> py_get rr "result" = Ret result ->
     exists params w, fst (rpc "takeoffer" params w) = inr result).
Proof.
  intros Htr Hnr Hnew Ho Ht.
  pose proof (extends_getoffers s) as Hg.
  set (s0 := after_call "getoffers" [JStr "vlotto"; JBool true] s) in *.
  pose proof (never_resubmitted_extends _ _ Hnr Hg) as Hnr0.
  pose proof (tracked_extends _ _ _ Htr Hg) as Htr0.
  destruct (take_ticket_offer_outcome _ _ _ _ _ _ _ _ Ho Ht)
    as [[-> [msg ->]]|(name & idid & -> & ->)]; cbn zeta.
  - split; [exact Hnr0|]. split.
    + eapply tracked_mono; [|exact Htr0]. clear. set_solver.
    + split; [by intros|]. intros ? ? [=].
  - set (params := takeoffer_params a c (JStr t) name idid dry_run).
    change (log (after_call "takeoffer" params s0))
      with (log s0 ++ [ECall "takeoffer" params (reply_of "takeoffer" params s0)]).
    split; [|split; [|split]].
    + apply never_resubmitted_snoc; [exact Hnr0|].
      intros t' e1 [= <-] Hin H1.
      destruct (rejected_reply e1) eqn:Hrej; [reflexivity|].
      by destruct (Hnew (Htr0 e1 t Hin H1 Hrej)).
    + intros e t' [Hin|Hin]%elem_of_app Ht' Hrej.
      * apply elem_of_union_r. by apply (Htr0 e).
      * apply list_elem_of_singleton in Hin. subst e. injection Ht' as <-.
        apply elem_of_union_l. by apply elem_of_singleton.
    + intros msg Hm Hrej.
      intros e t' [Hin|Hin]%elem_of_app Ht' Hrej'; [by apply (Htr0 e)|].
      apply list_elem_of_singleton in Hin. subst e. cbn [rejected_reply] in Hrej'.
      destruct (reply_of "takeoffer" params s0) as [msg'|v]; [|discriminate].
      injection Hm as ->. congruence.
    + intros rr result Hrr Hres.
      destruct (reply_of "takeoffer" params s0) as [msg'|v] eqn:Hv; [discriminate|].
      injection Hrr as <-. rewrite purchase_result in Hres. injection Hres as <-.
      exists params, (world s0). exact Hv.
Qed.

(** X9: with hexadecimal transaction ids, the purchase loop asks for no
    offer twice, unless the earlier call failed with a "rejected" error: an
    offer that was bought, or that failed for another reason, is not
    submitted again in the run. *)
Theorem main_buy_loop_never_resubmits fuel a c qty dry_run s :
  hex_tx_ids ->
  log s = [] ->
  never_resubmitted (log (snd (main_buy_loop fuel a c qty dry_run initial_loop_state s))).
Proof.
  intros Hhex Hlog.
  set (I := fun (st : loop_state) (s : state) =>
              tracked (attempted st) (log s) /\ never_resubmitted (log s)).
  set (F := fun (r : result loop_state) (s : state) => never_resubmitted (log s)).
  apply (main_buy_loop_rule I F); [by intros ? ? [_ ?]..| |].
  - clear fuel s Hlog. intros fuel st s [Htr Hnr] _.
    pose proof (buy_one_rule
      (fun r s' => match r with
                   | Ret (Continue st') => I st' s'
                   | _ => F (end_of r) s'
                   end) fuel a c qty dry_run st s) as Hrule.
    cbn zeta in Hrule.
    destruct (buy_one fuel a c qty dry_run st s) as [r s'] eqn:Hturn.
    cbn [fst snd] in Hrule.
    assert (Hgoal : match r with
                    | Ret (Continue st') => I st' s'
                    | _ => F (end_of r) s'
                    end); [|by destruct r as [[?|?]| | | |]].
    clear Hturn. apply Hrule; clear Hrule.
    + intros msg _. eapply never_resubmitted_extends; [exact Hnr|apply extends_getoffers].
    + intros raw r0 _ _ Hnone.
      assert (Hn0 : never_resubmitted
                      (log (after_call "getoffers" [JStr "vlotto"; JBool true] s)))
        by (eapply never_resubmitted_extends; [exact Hnr|apply extends_getoffers]).
      by destruct r0 as [[x|]| | | |].
    + intros raw offer t _ Hsel. cbn zeta.
      destruct (select_next_some _ _ _ _ Hsel) as (_ & Ho & Hnew).
      assert (Hsub : attempted st ⊆ ({[t]} ∪ attempted st) ∖ {[t]})
        by (clear -Hnew; set_solver).
      split.
      * intros msg s1 r0 s2 Ht Hoe.
        destruct (take_tracked _ _ _ _ _ _ _ _ _ Htr Hnr Hnew Ho Ht)
          as (Hnr1 & Htr1 & Hrej1 & _).
        pose proof (on_error_quiet _ _ _ _ _ _ _ Hoe) as Hq.
        pose proof (never_resubmitted_extends _ _ Hnr1 Hq) as Hnr2.
        destruct r0 as [st'| | | |]; cbn [continue_of end_of]; try exact Hnr2.
        split; [|exact Hnr2].
        apply on_error_ret in Hoe as [(_ & -> & _)|(Hrej & -> & _)];
          cbn [with_error with_attempted attempted].
        -- by eapply tracked_extends.
        -- eapply tracked_mono; [exact Hsub|].
           eapply tracked_extends; [|exact Hq]. by apply (Hrej1 msg).
      * intros rr s1 result Ht Hres.
        destruct (take_tracked _ _ _ _ _ _ _ _ _ Htr Hnr Hnew Ho Ht)
          as (Hnr1 & Htr1 & _ & Hparams).
        destruct (Hparams rr result eq_refl Hres) as (params & w & Hw).
        split.
        -- intros r0 s2 Hap _.
           pose proof (after_purchase_quiet _ _ _ _ _ _ _ _ Hap) as Hq.
           pose proof (never_resubmitted_extends _ _ Hnr1 Hq) as Hnr2.
           destruct r0 as [st'| | | |]; cbn [continue_of end_of]; try exact Hnr2.
           split; [|exact Hnr2].
           destruct (after_purchase_keeps _ _ _ _ _ _ _ _ Hap) as (_ & _ & -> & _).
           cbn [with_purchase with_attempted attempted]. by eapply tracked_extends.
        -- intros msg s2 r0 s3 Hap Hoe.
           pose proof (after_purchase_quiet _ _ _ _ _ _ _ _ Hap) as Hq.
           pose proof (on_error_quiet _ _ _ _ _ _ _ Hoe) as Hq'.
           pose proof (never_resubmitted_extends _ _
                         (never_resubmitted_extends _ _ Hnr1 Hq) Hq') as Hnr3.
           destruct r0 as [st'| | | |]; cbn [continue_of end_of]; try exact Hnr3.
           split; [|exact Hnr3].
           pose proof (after_purchase_error_not_rejected _ _ _ _ _ _ _ _ _ _
                         Hhex Hw Hap) as Hnrej.
           apply on_error_ret in Hoe as [(_ & -> & _)|(Hrej & _)]; [|congruence].
           cbn [with_error with_purchase with_attempted attempted].
           eapply tracked_extends; [|exact Hq']. by eapply tracked_extends.
  - split.
    + rewrite Hlog. intros e t Hin. by apply elem_of_nil in Hin.
    + rewrite Hlog. intros l1 e1 l2 e2 l3 t Heq. by destruct l1.
Qed.

(** ** Every purchase is confirmed when the purchases return *)

Lemma monitor_settled l : monitor None l = Some None -> all_confirmed l.
Proof.
  intros Hm l1 params r t l2 -> Ht.
  rewrite monitor_app in Hm.
  destruct (monitor None l1) as [a1|]; [|discriminate].
  cbn [monitor] in Hm. rewrite monitor_step_takeoffer in Hm.
  destruct a1; [discriminate|]. rewrite Ht in Hm. by apply monitor_cleared.
Qed.

Lemma buy_one_break fuel a c qty dry_run st s st' s' :
  buy_one fuel a c qty dry_run st s = (Ret (Break st'), s') ->
  st' = st /\ s' = after_call "getoffers" [JStr "vlotto"; JBool true] s.
Proof.
  intros Hturn.
  pose proof (buy_one_rule
    (fun r s' => forall st', r = Ret (Break st') ->
                 st' = st /\ s' = after_call "getoffers" [JStr "vlotto"; JBool true] s)
    fuel a c qty dry_run st s) as Hrule.
  rewrite Hturn in Hrule. cbn [fst snd] in Hrule. apply Hrule; [| | |reflexivity].
  - intros msg _ ? [=].
  - intros raw r _ _ _ st0. destruct r as [x| | | |]; cbn [no_offer]; try discriminate.
    by intros [= <-].
  - intros raw offer t _ _. cbn zeta.
    split; [by intros ? ? [?| | | |] ? _ _ ? [=]|].
    intros rr s1 result _ _.
    split; [by intros [?| | | |] ? _ _ ? [=]|by intros ? ? [?| | | |] ? _ _ ? [=]].
Qed.

Lemma main_buy_loop_monitor_ret fuel a c qty st s st' s' :
  monitor None (log s) = Some (last_txid st) ->
  (last_txid st = None \/ qty <= bought st) ->
  main_buy_loop fuel a c qty false st s = (Ret st', s') ->
  plain_polls (log s') ->
  monitor None (log s') = Some (last_txid st').
Proof.
  intros Hm Hl Hrun Hplain.
  set (I := fun (st : loop_state) (s : state) =>
              plain_polls (log s) ->
              monitor None (log s) = Some (last_txid st) /\
              (last_txid st = None \/ qty <= bought st)).
  set (F := fun (r : result loop_state) (s : state) =>
              plain_polls (log s) ->
              forall st', r = Ret st' -> monitor None (log s) = Some (last_txid st')).
  pose proof (main_buy_loop_rule I F a c qty false) as Hrule.
  specialize (Hrule ltac:(by intros st0 s0 HI _ Hp ? [= <-]; apply HI)).
  specialize (Hrule ltac:(by intros st0 s0 _ _ _ ? [=])).
  assert (Hturn : forall fuel st s,
             I st s -> bought st < qty ->
             match buy_one fuel a c qty false st s with
             | (Ret (Continue st'), s') => I st' s'
             | (r, s') => F (end_of r) s'
             end).
  { clear. intros fuel st s HI Hlt.
    destruct (buy_one fuel a c qty false st s) as [r s'] eqn:Hturn.
    assert (Hext : extends_by any_event s s').
    { pose proof (grows_buy_one fuel a c qty false st s) as Hg. by rewrite Hturn in Hg. }
    destruct r as [[st'|st']| | | |]; try (by intros _ ? [=]).
    - intros Hp. destruct (HI (plain_polls_extends _ _ _ Hext Hp)) as [Hm [Hl|]]; [|lia].
      rewrite Hl in Hm.
      exact (buy_one_monitor_continue _ _ _ _ _ _ _ _ Hm Hl Hturn Hp).
    - intros Hp ? [= <-].
      destruct (HI (plain_polls_extends _ _ _ Hext Hp)) as [Hm [Hl|]]; [|lia].
      destruct (buy_one_break _ _ _ _ _ _ _ _ _ Hturn) as [-> ->].
      rewrite (monitor_after_call _ _ _ _ Hm), Hl. reflexivity. }
  specialize (Hrule Hturn fuel st s ltac:(by intros _)).
  rewrite Hrun in Hrule. by apply Hrule.
Qed.

(** X10: in a run that is not a dry run and in which every poll reads an
    integer count other than -1, when the purchases return (the loop and
    the final wait after it), every purchase known by a transaction id has
    been shown confirmed by a later poll: none is left pending. *)
Theorem main_buy_tickets_confirmed fuel a c qty s st s' :
  log s = [] ->
  main_buy_tickets fuel a c qty false s = (Ret st, s') ->
  plain_polls (log s') ->
  all_confirmed (log s').
Proof.
  intros Hlog Hrun Hplain. apply monitor_settled.
  revert Hrun. unfold main_buy_tickets, bind.
  destruct (main_buy_loop fuel a c qty false initial_loop_state s) as [r1 s1] eqn:Hloop.
  destruct r1 as [st1| | | |]; try discriminate.
  assert (Hm1 : plain_polls (log s1) -> monitor None (log s1) = Some (last_txid st1)).
  { apply (main_buy_loop_monitor_ret fuel a c qty initial_loop_state s);
      [by rewrite Hlog|by left|exact Hloop]. }
  destruct (last_txid st1) as [t|] eqn:Hl; cbn [negb].
  - destruct (wait_for_tx_confirmed fuel t 1 s1) as [[cnt| | | |] s2] eqn:Hw;
      try discriminate.
    unfold ret. intros [= <- <-].
    destruct (wait_ret_monitor _ _ _ _ _ Hw) as (rest & Hrest & Hmr).
    rewrite Hrest, monitor_app, Hm1; [exact Hmr|].
    eapply (plain_polls_extends any_event); [|exact Hplain].
    exists rest. split; [exact Hrest|]. by apply Forall_forall.
  - unfold ret. intros [= <- <-]. by apply Hm1.
Qed.

(** ** The liquidity step and the order *)

Lemma bind_ret_inv {A B} (m : M A) (k : A -> M B) s b s' :
  bind m k s = (Ret b, s') ->
  exists a s1, m s = (Ret a, s1) /\ k a s1 = (Ret b, s').
Proof.
  unfold bind. destruct (m s) as [[a| | | |] s1]; try discriminate. eauto.
Qed.

Lemma wait_for_balance_ret fuel address currency min_balance s bal s' :
  wait_for_balance fuel address currency min_balance s = (Ret bal, s') ->
  (min_balance <=? bal)%float = true /\
  exists s0, get_currency_balance address currency s0 = (Ret bal, s').
Proof.
  revert s. induction fuel as [|fuel IH]; intros s; [discriminate|].
  destruct (wait_for_balance_step fuel address currency min_balance s)
    as (b & Hb & ->).
  destruct (min_balance <=? b)%float eqn:Hle; [|apply IH].
  intros [= <- <-]. split; [exact Hle|]. eauto.
Qed.

(** X11: the liquidity step returns only when the user confirmed with "y"
    (in either case) and, after a swap, only with a balance that a lookup
    has shown to cover the order: at least [qty] times the price of 1.0.
    Without a swap it returns the balance of its single lookup, and has
    made no other call. *)
Theorem main_liquidity_covered fuel address qty buffer_percent confirm s bal swap s' :
  main_liquidity fuel address qty buffer_percent confirm s = (Ret (bal, swap), s') ->
  lower confirm = "y" /\
  exists q,
    py_float (JInt qty) = Ret q /\
    match swap with
    | Some _ =>
        (q * 1 <=? bal)%float = true /\
        exists s0, get_currency_balance address "vlotto" s0 = (Ret bal, s')
    | None =>
        get_currency_balance address "vlotto" s = (Ret bal, s') /\
        s' = after_call "getcurrencybalance" [JStr address] s
    end.
Proof.
  unfold main_liquidity. cbn zeta.
  intros (q & s0 & Hq & H)%bind_ret_inv.
  unfold lift in Hq. injection Hq as Hq <-.
  apply bind_ret_inv in H as (vb & s1 & Hb & H).
  apply bind_ret_inv in H as ([required via] & s2 & Hquote & H).
  destruct (String.eqb_spec (lower confirm) "y") as [Hy|]; [|discriminate].
  cbn [negb] in H. split; [exact Hy|]. exists q. split; [exact Hq|].
  destruct (0 <? _)%float eqn:Hd.
  - apply bind_ret_inv in H as (opid & s3 & _ & H).
    apply bind_ret_inv in H as ([] & s4 & _ & H).
    apply bind_ret_inv in H as (b & s5 & Hw & H).
    unfold ret in H. injection H as <- <- <-.
    by apply wait_for_balance_ret in Hw.
  - unfold ret in Hquote, H. injection Hquote as _ _ <-. injection H as <- <- <-.
    split; [exact Hb|].
    destruct (get_currency_balance_returns address "vlotto" s) as [b' Hb'].
    rewrite Hb' in Hb. by injection Hb as _ <-.
Qed.

Lemma never_returns_bind {A B} (m : M A) (k : A -> M B) :
  (forall a, never_returns (k a)) -> never_returns (bind m k).
Proof.
  intros Hk s b. unfold bind. destruct (m s) as [[a| | | |] s1]; try done. apply Hk.
Qed.

Ltac grows_funds :=
  repeat first
    [ apply grows_ret | apply grows_lift | apply grows_raise
    | apply grows_call; intros ?; split; discriminate
    | apply grows_sleep_ms; exact I
    | apply grows_bind; [|intros ?] | apply grows_try_except; [|intros ?]
    | match goal with
      | |- grows_by _ (match ?x with _ => _ end) => destruct x
      | |- grows_by _ (if ?x then _ else _) => destruct x
      end ].

(** Before the user confirms, the liquidity step only looks up the balance
    and asks for a quote. *)
Lemma main_liquidity_declined fuel address qty buffer_percent confirm :
  lower confirm <> "y" ->
  never_returns (main_liquidity fuel address qty buffer_percent confirm) /\
  grows_by keeps_funds (main_liquidity fuel address qty buffer_percent confirm).
Proof.
  intros Hn. apply String.eqb_neq in Hn. unfold main_liquidity. cbn zeta. split.
  - apply never_returns_bind. intros q. apply never_returns_bind. intros vb.
    apply never_returns_bind. intros [required via]. rewrite Hn. by intros s0 x.
  - apply grows_bind; [apply grows_lift|]. intros q.
    apply grows_bind; [unfold get_currency_balance; grows_funds|]. intros vb.
    apply grows_bind.
    + destruct (0 <? _)%float; [|apply grows_ret].
      unfold get_best_exact_out_converter. grows_funds.
    + intros [required via]. rewrite Hn. apply grows_lift.
Qed.

(** X12: an order moves no funds unless the quantity typed is a positive
    integer and the user confirmed with "y": otherwise the run makes no
    [sendcurrency] and no [takeoffer] call. *)
Theorem main_order_guarded py_int_of_string fuel address qty_raw confirm s
    method params reply :
  log s = [] ->
  ECall method params reply
    ∈ log (snd (main_order py_int_of_string fuel address qty_raw confirm s)) ->
  method = "sendcurrency" \/ method = "takeoffer" ->
  lower confirm = "y" /\
  exists qty, py_int_of_string qty_raw = Some qty /\ 0 < qty.
Proof.
  intros Hlog Hin Hm. revert Hin. unfold main_order, bind at 1, lift, main_quantity.
  destruct (py_int_of_string qty_raw) as [qty|];
    [|cbn [snd]; rewrite Hlog; by intros ?%elem_of_nil].
  destruct (qty <=? 0) eqn:Hq; [cbn [snd]; rewrite Hlog; by intros ?%elem_of_nil|].
  apply Z.leb_gt in Hq. intros Hin.
  destruct (String.eqb_spec (lower confirm) "y") as [Hy|Hn]; [by eauto|].
  exfalso.
  destruct (main_liquidity_declined fuel address qty 0.01 confirm Hn) as [Hnr Hg].
  specialize (Hnr s). destruct (Hg s) as (rest & Hrest & Hk).
  unfold bind in Hin.
  destruct (main_liquidity fuel address qty 0.01 confirm s) as [[x| | | |] s1];
    [by destruct (Hnr x)|..]; cbn [fst snd] in *;
    rewrite Hrest, Hlog in Hin; cbn [app] in Hin;
    rewrite Forall_forall in Hk; specialize (Hk _ Hin);
    destruct Hk as [H1 H2]; by destruct Hm.
Qed.

(** ** The swap of an order *)

Ltac grows_no_swap :=
  repeat first
    [ apply grows_ret | apply grows_lift | apply grows_raise
    | apply grows_call; intros ?; discriminate
    | apply grows_sleep_ms; exact I
    | apply grows_attempt
    | apply grows_bind; [|intros ?] | apply grows_try_except; [|intros ?]
    | match goal with
      | |- grows_by _ (match ?x with _ => _ end) => destruct x
      | |- grows_by _ (if ?x then _ else _) => destruct x
      end
    | assumption ].

Lemma wait_for_tx_confirmed_no_swap fuel txid m :
  grows_by not_swap (wait_for_tx_confirmed fuel txid m).
Proof.
  induction fuel as [|fuel IH]; cbn [wait_for_tx_confirmed]; [grows_no_swap|].
  apply grows_bind; [apply grows_get_tx_confirmations; intros ?; discriminate|].
  intros confs. grows_no_swap.
Qed.

Lemma wait_for_opid_success_no_swap fuel opid :
  grows_by not_swap (wait_for_opid_success fuel opid).
Proof.
  induction fuel as [|fuel IH]; cbn [wait_for_opid_success]; grows_no_swap.
Qed.

Lemma get_currency_balance_no_swap address currency :
  grows_by not_swap (get_currency_balance address currency).
Proof. unfold get_currency_balance. grows_no_swap. Qed.

Lemma wait_for_balance_no_swap fuel address currency min_balance :
  grows_by not_swap (wait_for_balance fuel address currency min_balance).
Proof.
  induction fuel as [|fuel IH]; cbn [wait_for_balance]; [grows_no_swap|].
  apply grows_bind; [apply get_currency_balance_no_swap|]. intros bal. grows_no_swap.
Qed.

Lemma get_best_exact_out_converter_no_swap from_currency to_currency to_amount :
  grows_by not_swap (get_best_exact_out_converter from_currency to_currency to_amount).
Proof. unfold get_best_exact_out_converter. grows_no_swap. Qed.

Lemma on_error_no_swap fuel st offer_txid err_msg :
  grows_by not_swap (on_error fuel st offer_txid err_msg).
Proof.
  unfold on_error. destruct (is_rejected err_msg); [|apply grows_ret].
  apply grows_bind; [|intros ?; apply grows_ret].
  destruct (last_txid st).
  - apply grows_bind; [apply wait_for_tx_confirmed_no_swap|]. intros ?. apply grows_ret.
  - by apply grows_sleep_ms.
Qed.

Lemma after_purchase_no_swap fuel qty dry_run st tx_id :
  grows_by not_swap (after_purchase fuel qty dry_run st tx_id).
Proof.
  unfold after_purchase. apply grows_bind; [apply grows_lift|]. intros [t|].
  - destruct (_ && _); [|apply grows_ret].
    apply grows_bind; [apply wait_for_tx_confirmed_no_swap|]. intros ?. apply grows_ret.
  - apply grows_ret.
Qed.

Lemma main_buy_loop_no_swap fuel a c qty dry_run st :
  grows_by not_swap (main_buy_loop fuel a c qty dry_run st).
Proof.
  revert st. induction fuel as [|fuel IH]; intros st; cbn [main_buy_loop];
    destruct (bought st <? qty); try apply grows_ret; try apply grows_lift.
  apply grows_bind; [|intros [st'|st']; [apply IH|apply grows_ret]].
  unfold buy_one. apply grows_bind; [apply grows_call; intros ?; discriminate|].
  intros raw. apply grows_bind; [apply grows_lift|].
  intros [[offer t]|]; [|apply grows_ret].
  unfold attempt_offer. apply grows_bind.
  { apply grows_attempt. unfold take_ticket_offer. grows_no_swap. }
  intros [msg|r].
  - apply grows_bind; [apply on_error_no_swap|intros ?; apply grows_ret].
  - apply grows_bind; [apply grows_lift|]. intros result.
    apply grows_bind; [apply grows_attempt, after_purchase_no_swap|].
    intros [msg|st3]; [|apply grows_ret].
    apply grows_bind; [apply on_error_no_swap|intros ?; apply grows_ret].
Qed.

Lemma main_buy_tickets_no_swap fuel a c qty dry_run :
  grows_by not_swap (main_buy_tickets fuel a c qty dry_run).
Proof.
  unfold main_buy_tickets. apply grows_bind; [apply main_buy_loop_no_swap|].
  intros st. destruct (last_txid st); [|apply grows_ret].
  destruct (negb dry_run); [|apply grows_ret].
  apply grows_bind; [apply wait_for_tx_confirmed_no_swap|intros ?; apply grows_ret].
Qed.

Lemma swaps_in_app l1 l2 : swaps_in (l1 ++ l2) = (swaps_in l1 + swaps_in l2)%nat.
Proof.
  induction l1 as [|[method params reply|ms] l1 IH]; cbn [app swaps_in];
    [reflexivity|rewrite IH; lia|exact IH].
Qed.

Lemma swaps_in_no_swap l : Forall not_swap l -> swaps_in l = 0%nat.
Proof.
  induction 1 as [|[method params reply|ms] l He _ IH]; cbn [swaps_in];
    [reflexivity| |exact IH].
  apply String.eqb_neq in He. by rewrite He, IH.
Qed.

Lemma bind_ret_eq {A B} (m : M A) (k : A -> M B) s a s1 :
  m s = (Ret a, s1) -> bind m k s = k a s1.
Proof. intros H. unfold bind. by rewrite H. Qed.

Lemma one_swap_at_extends s params s1 s' s'' :
  one_swap_at s params s1 s' -> extends_by not_swap s' s'' ->
  one_swap_at s params s1 s''.
Proof. intros [H1 H2] H3. split; [exact H1|]. eapply extends_by_trans; eauto. Qed.

(** The liquidity step makes no swap, or one: for the amount and the route
    that the converter query for the deficit with its buffer returned. *)
Lemma main_liquidity_swap fuel address qty buffer_percent confirm s :
  let s' := snd (main_liquidity fuel address qty buffer_percent confirm s) in
  extends_by not_swap s s' \/
  exists q bal s0 required via s1 extra,
    py_float (JInt qty) = Ret q /\
    get_currency_balance address "vlotto" s = (Ret bal, s0) /\
    get_best_exact_out_converter
      "VRSC" "vlotto"
      (max0 (q * 1 - bal)
       * (1 + (if (buffer_percent <? 0)%float then 0 else buffer_percent)))%float s0
    = (Ret (required, via), s1) /\
    via_field via "vlotto" = Ret extra /\
    lower confirm = "y" /\
    one_swap_at s (swap_request address required extra) s1 s'.
Proof.
  cbn zeta. unfold main_liquidity. cbn zeta.
  destruct (py_float (JInt qty)) as [q| | | |] eqn:Hq;
    try (left; unfold bind at 1, lift at 1; cbn beta iota; apply extends_by_refl).
  rewrite (bind_ret_eq _ _ s q s eq_refl).
  destruct (get_currency_balance_returns address "vlotto" s) as [bal Hbal].
  pose proof (get_currency_balance_no_swap address "vlotto" s) as Hg0.
  rewrite Hbal in Hg0. cbn [snd] in Hg0.
  rewrite (bind_ret_eq _ _ _ _ _ Hbal).
  set (s0 := after_call "getcurrencybalance" [JStr address] s) in *.
  set (buf := if (buffer_percent <? 0)%float then 0%float else buffer_percent).
  destruct (0 <? max0 (q * 1 - bal))%float eqn:Hd.
  2:{ change (0 <? 0)%float with false. cbn iota.
      rewrite (bind_ret_eq _ _ s0 (0%float, JNull) s0 eq_refl).
      left. by destruct (negb _). }
  destruct (0 <? max0 (q * 1 - bal) * (1 + buf))%float eqn:Hdb.
  2:{ rewrite (bind_ret_eq _ _ s0 (0%float, JNull) s0 eq_refl).
      left. by destruct (negb _). }
  pose proof (get_best_exact_out_converter_no_swap
                "VRSC" "vlotto" (max0 (q * 1 - bal) * (1 + buf))%float s0) as Hg1.
  destruct (get_best_exact_out_converter
              "VRSC" "vlotto" (max0 (q * 1 - bal) * (1 + buf))%float s0)
    as [[[required via]| | | |] s1] eqn:Hbest; cbn [snd] in Hg1;
    try (left; unfold bind at 1; rewrite Hbest; cbn beta iota;
         eapply extends_by_trans; [exact Hg0|exact Hg1]).
  rewrite (bind_ret_eq _ _ _ _ _ Hbest).
  assert (H01 : extends_by not_swap s s1) by (eapply extends_by_trans; eauto).
  destruct (String.eqb_spec (lower confirm) "y") as [Hy|Hn]; cbn [negb];
    [|left; exact H01].
  unfold sendcurrency_convert.
  destruct (via_field via "vlotto") as [extra| | | |] eqn:Hvia;
    try (left; unfold bind at 1 2, lift at 1; cbn beta iota; exact H01).
  right. exists q, bal, s0, required, via, s1, extra.
  do 5 (split; [done|]). split; [exact H01|].
  fold (swap_request address required extra).
  set (k1 := fun result : json => _). set (k2 := fun swap_opid : string => _).
  eapply extends_by_trans; [|apply bind_extends].
  - rewrite (bind_ret_eq (lift (Ret extra)) _ s1 extra s1 eq_refl).
    fold (swap_request address required extra).
    pose proof (bind_extends not_swap (call "sendcurrency" (swap_request address required extra))
                             k1 s1) as Hb.
    rewrite call_eq in Hb at 1. cbn [snd] in Hb. apply Hb.
    intros result. unfold k1. grows_no_swap.
  - intros swap_opid. unfold k2.
    apply grows_bind.
    + destruct (String.prefix "opid-" swap_opid); [|apply grows_ret].
      apply grows_bind; [apply wait_for_opid_success_no_swap|]. intros swap_txid.
      apply grows_bind; [apply grows_lift|]. intros t.
      apply grows_bind; [apply wait_for_tx_confirmed_no_swap|intros ?; apply grows_ret].
    + intros _. apply grows_bind; [apply wait_for_balance_no_swap|].
      intros b. apply grows_ret.
Qed.

Lemma main_order_swap py_int_of_string fuel address qty_raw confirm s :
  let s' := snd (main_order py_int_of_string fuel address qty_raw confirm s) in
  extends_by not_swap s s' \/
  exists qty q bal s0 required via s1 extra,
    py_int_of_string qty_raw = Some qty /\
    py_float (JInt qty) = Ret q /\
    get_currency_balance address "vlotto" s = (Ret bal, s0) /\
    get_best_exact_out_converter
      "VRSC" "vlotto" (max0 (q * 1 - bal) * (1 + 0.01))%float s0
    = (Ret (required, via), s1) /\
    via_field via "vlotto" = Ret extra /\
    lower confirm = "y" /\
    one_swap_at s (swap_request address required extra) s1 s'.
Proof.
  cbn zeta. unfold main_order, main_quantity.
  destruct (py_int_of_string qty_raw) as [qty|] eqn:Hint;
    [|left; apply extends_by_refl].
  destruct (qty <=? 0); [left; apply extends_by_refl|].
  rewrite (bind_ret_eq _ _ s qty s eq_refl).
  pose proof (bind_extends not_swap (main_liquidity fuel address qty 0.01 confirm)
                (fun _ => main_buy_tickets fuel address address qty false) s
                (fun _ => main_buy_tickets_no_swap fuel address address qty false))
    as Hbuy.
  destruct (main_liquidity_swap fuel address qty 0.01 confirm s)
    as [Hl|(q & bal & s0 & required & via & s1 & extra & Hq & Hbal & Hbest & Hvia
            & Hy & Hone)].
  - left. eapply extends_by_trans; [exact Hl|exact Hbuy].
  - right. exists qty, q, bal, s0, required, via, s1, extra.
    do 6 (split; [done|]). eapply one_swap_at_extends; [exact Hone|exact Hbuy].
Qed.

(** X18: an order makes at most one swap, and only after the user has
    confirmed: a [sendcurrency] call from the buying address that converts
    VRSC to vlotto, for the amount (rounded to 8 places) and by the route
    that the converter query returned for the deficit plus the buffer of
    1%. *)
Theorem main_order_single_swap py_int_of_string fuel address qty_raw confirm s :
  log s = [] ->
  let l := log (snd (main_order py_int_of_string fuel address qty_raw confirm s)) in
  (swaps_in l <= 1)%nat /\
  forall params reply,
    ECall "sendcurrency" params reply ∈ l ->
    lower confirm = "y" /\
    exists qty q bal s0 required via s1 extra,
      py_int_of_string qty_raw = Some qty /\
      py_float (JInt qty) = Ret q /\
      get_currency_balance address "vlotto" s = (Ret bal, s0) /\
      get_best_exact_out_converter
        "VRSC" "vlotto" (max0 (q * 1 - bal) * (1 + 0.01))%float s0
      = (Ret (required, via), s1) /\
      via_field via "vlotto" = Ret extra /\
      params = swap_request address required extra.
Proof.
  intros Hlog. cbn zeta.
  pose proof (main_order_swap py_int_of_string fuel address qty_raw confirm s) as H.
  cbn zeta in H.
  set (s' := snd (main_order py_int_of_string fuel address qty_raw confirm s)) in *.
  clearbody s'.
  destruct H as [(rest & Hrest & HF)
                |(qty & q & bal & s0 & required & via & s1 & extra & Hint & Hq & Hbal
                  & Hbest & Hvia & Hy & (rest1 & Hrest1 & HF1) & (rest2 & Hrest2 & HF2))].
  - rewrite Hrest, Hlog. cbn [app]. split.
    + rewrite (swaps_in_no_swap _ HF). lia.
    + intros params reply Hin. rewrite Forall_forall in HF. by destruct (HF _ Hin).
  - unfold after_call in Hrest2. cbn [log] in Hrest2.
    rewrite Hrest1, Hlog in Hrest2. cbn [app] in Hrest2. rewrite Hrest2. split.
    + rewrite !swaps_in_app, (swaps_in_no_swap _ HF1), (swaps_in_no_swap _ HF2).
      cbn. lia.
    + intros params reply Hin. split; [exact Hy|].
      exists qty, q, bal, s0, required, via, s1, extra.
      do 5 (split; [done|]).
      rewrite Forall_forall in HF1, HF2.
      apply elem_of_app in Hin as [Hin|Hin];
        [apply elem_of_app in Hin as [Hin|Hin]|].
      * by destruct (HF1 _ Hin).
      * apply list_elem_of_singleton in Hin. by injection Hin as -> _.
      * by destruct (HF2 _ Hin).
Qed.

(** ** Sorting *)

Lemma insert_sorted_perm {A} (lt : A -> A -> bool) x l :
  Permutation (insert_sorted lt x l) (x :: l).
Proof.
  induction l as [|y l IH]; cbn [insert_sorted]; [reflexivity|].
  destruct (lt y x); [|reflexivity]. rewrite IH. apply perm_swap.
Qed.

Lemma py_sorted_perm {A} (lt : A -> A -> bool) l : Permutation (py_sorted lt l) l.
Proof.
  induction l as [|x l IH]; cbn; [reflexivity|].
  rewrite insert_sorted_perm. by constructor.
Qed.

Section SortFacts.

Context {A : Type} (lt : A -> A -> bool) (P : A -> Prop).
Hypothesis lt_asym : forall x y, P x -> P y -> lt x y = true -> lt y x = false.
Hypothesis le_trans :
  forall x y z, P x -> P y -> P z ->
                not_after lt x y -> not_after lt y z -> not_after lt x z.

Lemma insert_sorted_sorted x l :
  P x -> Forall P l ->
  StronglySorted (not_after lt) l ->
  StronglySorted (not_after lt) (insert_sorted lt x l).
Proof using lt_asym le_trans.
  intros Hx HP Hs. induction Hs as [|y l Hs IH Hy]; cbn [insert_sorted].
  - by repeat constructor.
  - apply Forall_cons in HP as [HPy HP].
    destruct (lt y x) eqn:Hyx.
    + constructor; [by apply IH|].
      rewrite insert_sorted_perm. constructor; [|exact Hy].
      by apply lt_asym.
    + constructor; [by constructor|]. constructor; [exact Hyx|].
      rewrite Forall_forall in Hy, HP. apply Forall_forall. intros z Hz.
      apply (le_trans x y z); auto.
Qed.

Lemma py_sorted_sorted l :
  Forall P l -> StronglySorted (not_after lt) (py_sorted lt l).
Proof using lt_asym le_trans.
  induction 1 as [|x l Hx HP IH]; [constructor|].
  change (py_sorted lt (x :: l)) with (insert_sorted lt x (py_sorted lt l)).
  apply insert_sorted_sorted; [exact Hx| |exact IH].
  by rewrite py_sorted_perm.
Qed.

End SortFacts.

(** ** Addresses with a balance *)









(** ** Tickets of the wallet *)

Lemma ticket_entry_some address id_entry name :
  ticket_entry address id_entry = Some (Some name) -> is_ticket_of address id_entry name.
Proof.
  unfold ticket_entry. destruct id_entry as [| | | | | |d]; try discriminate.
  cbn zeta.
  destruct (get_or (default (JDict []) (dict_get d "identity")) "name" (JStr ""))
    as [name'|] eqn:Hname; [|discriminate].
  destruct (get_or (default (JDict []) (dict_get d "identity")) "parent" (JStr ""))
    as [parent|] eqn:Hparent; [|discriminate].
  destruct (is_str parent VLOTTO_CURRENCY_ID) eqn:Hpar; [|discriminate].
  destruct parent as [| | | |p| |]; try discriminate. cbn [is_str] in Hpar.
  apply String.eqb_eq in Hpar. subst p.
  destruct (dict_get d "identity") as [id_info|] eqn:Hid; cbn [default from_option id] in *;
    [|cbv in Hparent; discriminate].
  destruct id_info as [| | | | | |info]; try discriminate. cbn [get_or default from_option id] in *.
  injection Hname as <-.
  destruct (dict_get info "parent") as [parent|] eqn:Hp; cbn [get_or default from_option id] in Hparent;
    [|cbv in Hparent; discriminate].
  injection Hparent as ->.
  intros H. exists d, info. repeat split; try done.
  - destruct address as [a|]; [|congruence].
    destruct (String.eqb a ""); [congruence|].
    destruct (py_in a _) as [[|]|]; congruence.
  - intros a -> Hne. apply String.eqb_neq in Hne. rewrite Hne in H.
    destruct (dict_get info "primaryaddresses") as [primary|] eqn:Hprim; cbn [get_or default from_option id] in H.
    + exists primary. split; [reflexivity|].
      destruct (py_in a primary) as [[|]|]; congruence.
    + cbn in H. discriminate.
Qed.

Lemma scan_identities_spec address ids tickets :
  exists more,
    scan_identities address ids tickets = tickets ++ more /\
    Forall (fun name => exists id_entry, id_entry ∈ ids /\
                                         is_ticket_of address id_entry name) more.
Proof.
  revert tickets. induction ids as [|id_entry ids IH]; intros tickets;
    cbn [scan_identities].
  - exists []. split; [by rewrite app_nil_r|constructor].
  - assert (Hweak : forall more : list json,
               Forall (fun name => exists e, e ∈ ids /\ is_ticket_of address e name) more ->
               Forall (fun name => exists e, e ∈ id_entry :: ids /\
                                             is_ticket_of address e name) more).
    { intros more Hm. eapply Forall_impl; [exact Hm|].
      intros name (e & Hin & He). exists e. split; [by right|exact He]. }
    destruct (ticket_entry address id_entry) as [[name|]|] eqn:Ht.
    + destruct (IH (tickets ++ [name])) as (more & -> & HF).
      exists (name :: more). split; [by rewrite <- app_assoc|].
      constructor; [|by apply Hweak].
      exists id_entry. split; [by left|by apply ticket_entry_some].
    + destruct (IH tickets) as (more & -> & HF). exists more. split; [reflexivity|].
      by apply Hweak.
    + exists []. split; [by rewrite app_nil_r|constructor].
Qed.

Lemma strings_of_spec vs ss : strings_of vs = Ret ss -> vs = map JStr ss.
Proof.
  revert ss. induction vs as [|v vs IH]; intros ss; cbn [strings_of].
  - by intros [= <-].
  - destruct v as [| | | |str| |]; try discriminate. cbn [as_str rbind].
    destruct (strings_of vs) as [ss'| | | |]; cbn [rbind]; try discriminate.
    intros [= <-]. cbn. by rewrite (IH ss' eq_refl).
Qed.

Lemma strings_of_cases vs : (exists ss, strings_of vs = Ret ss) \/ strings_of vs = Stuck.
Proof.
  induction vs as [|v vs IH]; cbn [strings_of]; [by eauto|].
  destruct v as [| | | |str| |]; cbn [as_str rbind]; auto.
  destruct IH as [[ss ->]| ->]; cbn [rbind]; eauto.
Qed.

Lemma get_my_tickets_eq address s :
  get_my_tickets address s =
  (let tickets := match reply_of "listidentities" [] s with
                  | inr (JList l) => scan_identities address l []
                  | _ => []
                  end in
   let+ names := strings_of tickets in Ret (py_sorted String.ltb names),
   after_call "listidentities" [] s).
Proof.
  unfold get_my_tickets, bind, try_except, lift, ret. rewrite call_eq. cbn zeta.
  destruct (reply_of "listidentities" [] s) as [msg|v]; [reflexivity|].
  destruct v as [| | | | |ids|]; try reflexivity.
  by destruct (strings_of (scan_identities address ids [])).
Qed.

(** X14: [get_my_tickets] makes one call, and when the call fails, or its
    result is not a list, it returns the empty list: the failure is not
    reported. The names it returns are in ascending order, and each is the
    name of an identity of the reply whose parent is the vlotto currency
    and, when an address is given, whose primary addresses hold it. Stated
    for names that are strings. *)
Theorem get_my_tickets_owned address s :
  snd (get_my_tickets address s) = after_call "listidentities" [] s /\
  ((forall l, reply_of "listidentities" [] s <> inr (JList l)) ->
   fst (get_my_tickets address s) = Ret []) /\
  forall names,
    fst (get_my_tickets address s) = Ret names ->
    StronglySorted String.le names /\
    (forall name, name ∈ names ->
       exists ids id_entry,
         reply_of "listidentities" [] s = inr (JList ids) /\
         id_entry ∈ ids /\ is_ticket_of address id_entry (JStr name)).
Proof.
  rewrite get_my_tickets_eq. cbn [fst snd]. split; [reflexivity|].
  set (tickets := match reply_of "listidentities" [] s with
                  | inr (JList l) => scan_identities address l []
                  | _ => []
                  end).
  cbn zeta. fold tickets. split.
  { intros Hn. unfold tickets.
    destruct (reply_of "listidentities" [] s) as [msg|v]; [reflexivity|].
    destruct v as [| | | | |ids|]; try reflexivity. by destruct (Hn ids). }
  destruct (strings_of_cases tickets) as [[ss Hss]|Hss]; rewrite Hss; [|done].
  cbn [rbind]. intros names [= <-].
  apply strings_of_spec in Hss. split.
  - assert (Hs : StronglySorted (not_after String.ltb) (py_sorted String.ltb ss)).
    { apply (py_sorted_sorted String.ltb (fun _ => True)).
      - intros x y _ _ Hxy. apply le_ltb_false. unfold String.ltb in Hxy.
        unfold String.le, String.leb. by destruct (String.compare x y).
      - intros x y z _ _ _. unfold not_after.
        intros H1%ltb_false_le H2%ltb_false_le. apply le_ltb_false. by etrans.
      - by apply Forall_forall. }
    clear -Hs. induction Hs as [|x l' _ IH Hx]; constructor; [exact IH|].
    eapply Forall_impl; [exact Hx|]. intros y. apply ltb_false_le.
  - intros name Hin. rewrite py_sorted_perm in Hin.
    assert (Hin' : JStr name ∈ tickets).
    { rewrite Hss. apply list_elem_of_fmap. by exists name. }
    unfold tickets in Hin'.
    destruct (reply_of "listidentities" [] s) as [msg|v];
      [by apply elem_of_nil in Hin'|].
    destruct v as [| | | | |ids|]; try by apply elem_of_nil in Hin'.
    destruct (scan_identities_spec address ids []) as (more & Hmore & HF).
    cbn [app] in Hmore. rewrite Hmore in Hin'. rewrite Forall_forall in HF.
    destruct (HF _ Hin') as (id_entry & Hid & Ht).
    exists ids, id_entry. auto.
Qed.

(** ** Splitting strings *)


Lemma prefix_app p s : String.prefix p (p +:+ s) = true.
Proof.
  induction p as [|c p IH]; [by destruct s|].
  change (String c p +:+ s) with (String c (p +:+ s)). cbn [String.prefix].
  by destruct (ascii_dec c c).
Qed.

Lemma drop_app p s : drop_str (String.length p) (p +:+ s) = s.
Proof.
  induction p as [|c p IH]; [by destruct s|].
  change (String c p +:+ s) with (String c (p +:+ s)). exact IH.
Qed.

Lemma str_partition_eq sep s :
  str_partition sep s =
  if String.prefix sep s then Some (EmptyString, drop_str (String.length sep) s)
  else match s with
       | EmptyString => None
       | String c s' => match str_partition sep s' with
                        | Some (a, b) => Some (String c a, b)
                        | None => None
                        end
       end.
Proof. by destruct s. Qed.


Lemma str_partition_first c sep a b :
  mentions c a = false ->
  str_partition (String c sep) (a +:+ String c sep +:+ b) = Some (a, b).
Proof.
  intros Ha. induction a as [|x a IH]; rewrite str_partition_eq.
  - change ("" +:+ String c sep +:+ b) with (String c sep +:+ b).
    by rewrite prefix_app, drop_app.
  - cbn [mentions] in Ha. apply orb_false_iff in Ha as [Hx Ha].
    change (String x a +:+ String c sep +:+ b) with (String x (a +:+ String c sep +:+ b)).
    cbn [String.prefix]. destruct (ascii_dec c x) as [->|_].
    + by rewrite Ascii.eqb_refl in Hx.
    + by rewrite (IH Ha).
Qed.

Lemma str_partition_none c sep s :
  mentions c s = false -> str_partition (String c sep) s = None.
Proof.
  induction s as [|x s IH]; rewrite str_partition_eq; [reflexivity|].
  cbn [mentions]. intros [Hx Hs]%orb_false_iff. cbn [String.prefix].
  destruct (ascii_dec c x) as [->|_]; [by rewrite Ascii.eqb_refl in Hx|].
  by rewrite (IH Hs).
Qed.

Lemma contains_eq needle hay :
  contains needle hay =
  String.prefix needle hay || match hay with
                              | EmptyString => false
                              | String _ hay' => contains needle hay'
                              end.
Proof. by destruct hay. Qed.

Lemma contains_app needle a b : contains needle (a +:+ needle +:+ b) = true.
Proof.
  induction a as [|x a IH].
  - change ("" +:+ needle +:+ b) with (needle +:+ b).
    by rewrite contains_eq, prefix_app.
  - change (String x a +:+ needle +:+ b) with (String x (a +:+ needle +:+ b)).
    rewrite contains_eq, IH. apply orb_true_r.
Qed.


Lemma split_upto_none n c sep s :
  mentions c s = false -> split_upto n (String c sep) s = [s].
Proof.
  intros Hs. destruct n as [|n]; [reflexivity|]. cbn [split_upto].
  by rewrite (str_partition_none c sep s Hs).
Qed.

Lemma py_split_two c sep a b :
  mentions c a = false -> mentions c b = false ->
  py_split (String c sep) (a +:+ String c sep +:+ b) = [a; b].
Proof.
  intros Ha Hb. unfold py_split.
  destruct (String.length (a +:+ String c sep +:+ b)) as [|n] eqn:Hlen.
  - destruct a; discriminate.
  - cbn [split_upto]. rewrite (str_partition_first c sep a b Ha).
    by rewrite (split_upto_none n c sep b Hb).
Qed.



(** ** Ticket names *)

Section TicketNames.

Variable py_int_of_string : string -> option Z.

(** X15: a name of the form [b_nofm], where the text [b] has no
    underscore and the texts [n] and [m] have no letter o, is read as draw
    block [int(b)], ticket number [int(n)] and total [int(m)]; each is
    [None] when its text is not an integer, and the total is also [None]
    when the ticket number is. *)
Theorem parse_ticket_name_format b n m :
  mentions "_" b = false -> mentions "o" n = false -> mentions "o" m = false ->
  parse_ticket_name py_int_of_string (b +:+ "_" +:+ n +:+ "of" +:+ m)
  = TicketName (b +:+ "_" +:+ n +:+ "of" +:+ m)
               (py_int_of_string b)
               (py_int_of_string n)
               (match py_int_of_string n with
                | Some _ => py_int_of_string m
                | None => None
                end).
Proof.
  intros Hb Hn Hm. unfold parse_ticket_name.
  rewrite (contains_app "_" b (n +:+ "of" +:+ m)). cbn [negb].
  unfold split_once. rewrite (str_partition_first "_" "" b _ Hb). cbn [nth].
  rewrite (contains_app "of" n m), (py_split_two "o" "f" n m Hn Hm).
  by destruct (py_int_of_string n).
Qed.


(** ** The summary of the offers *)

Lemma existsb_key {B} (k : string) (l : list (string * B)) :
  existsb (fun kv => String.eqb (fst kv) k) l = true <-> k ∈ map fst l.
Proof.
  induction l as [|[k' v] l IH]; cbn [existsb map fst].
  - split; [discriminate|by intros ?%elem_of_nil].
  - rewrite orb_true_iff, IH, elem_of_cons, String.eqb_eq.
    split; (intros [H|H]; [left; by symmetry|by right]).
Qed.

Lemma setdefault_append_keys k n l :
  map fst (setdefault_append k n l)
  = map fst l ++ (if existsb (fun kv => String.eqb (fst kv) k) l then [] else [k]).
Proof.
  induction l as [|[k' ns] l IH]; cbn [setdefault_append existsb map fst app];
    [reflexivity|].
  destruct (String.eqb k' k); cbn [orb map fst].
  - by rewrite app_nil_r.
  - by rewrite IH.
Qed.

Lemma setdefault_append_names k n l :
  Permutation (flat_map snd (setdefault_append k n l)) (n :: flat_map snd l).
Proof.
  induction l as [|[k' ns] l IH]; cbn [setdefault_append flat_map snd app];
    [reflexivity|].
  destruct (String.eqb k' k); cbn [flat_map snd].
  - rewrite <- app_assoc. cbn [app].
    by rewrite <- Permutation_middle.
  - rewrite IH. by rewrite <- Permutation_middle.
Qed.

Lemma setdefault_append_ok k n l :
  draw_key_of py_int_of_string n = Some k ->
  Forall (draw_ok py_int_of_string) l ->
  Forall (draw_ok py_int_of_string) (setdefault_append k n l).
Proof.
  intros Hn. induction 1 as [|[k' ns] l [Hne Hd] HF IH]; cbn [setdefault_append].
  - repeat constructor; [done|exact Hn].
  - destruct (String.eqb_spec k' k) as [->|_].
    + constructor; [|exact HF]. split; [by destruct ns|].
      cbn [fst snd] in *. apply Forall_app. split; [exact Hd|by repeat constructor].
    + constructor; [by split|exact IH].
Qed.

Lemma add_draw_info_keys k info l :
  map fst (add_draw_info k info l)
  = map fst l ++ (if existsb (fun kv => String.eqb (fst kv) k) l then [] else [k]).
Proof.
  unfold add_draw_info. destruct (existsb _ l); [by rewrite app_nil_r|].
  by rewrite map_app.
Qed.

Lemma existsb_same_keys {B C} k (l : list (string * B)) (l' : list (string * C)) :
  map fst l = map fst l' ->
  existsb (fun kv => String.eqb (fst kv) k) l
  = existsb (fun kv => String.eqb (fst kv) k) l'.
Proof.
  intros H. apply eq_true_iff_eq. by rewrite !existsb_key, H.
Qed.

(** The invariant of the loop of [summarize_offers]. *)
Lemma summarize_step_keeps names by_draw draw_info o names' by_draw' draw_info' :
  summarize_step py_int_of_string (names, by_draw, draw_info) o
  = Ret (names', by_draw', draw_info') ->
  map fst draw_info = map fst by_draw ->
  NoDup (map fst by_draw) ->
  Forall (draw_ok py_int_of_string) by_draw ->
  Permutation (flat_map snd by_draw) (List.filter (has_draw py_int_of_string) names) ->
  (map fst draw_info' = map fst by_draw' /\
   NoDup (map fst by_draw') /\
   Forall (draw_ok py_int_of_string) by_draw' /\
   Permutation (flat_map snd by_draw') (List.filter (has_draw py_int_of_string) names')) /\
  (names' = names \/ exists n, names' = names ++ [n] /\ offer_name o = Ret (JStr n)).
Proof.
  unfold summarize_step.
  destruct (offer_name o) as [name| | | |] eqn:Hname; cbn [rbind]; try discriminate.
  destruct (truthy name); cbn [negb]; [|by intros [= <- <- <-]; auto].
  destruct name as [| | | |n| |]; try discriminate. cbn [as_str rbind].
  intros Hstep Hkeys Hnd Hok Hperm.
  assert (Hskip : draw_key_of py_int_of_string n = None ->
                  Permutation (flat_map snd by_draw)
                              (List.filter (has_draw py_int_of_string) (names ++ [n]))).
  { intros Hk. rewrite List.filter_app. cbn [List.filter]. unfold has_draw at 2.
    rewrite Hk. by rewrite app_nil_r. }
  unfold draw_key_of in Hskip.
  destruct (tn_draw_block (parse_ticket_name py_int_of_string n)) as [b|] eqn:Hb.
  - destruct (b =? 0) eqn:Hz.
    + injection Hstep as <- <- <-. split; [by auto|]. right. eauto.
    + injection Hstep as <- <- <-. split; [|right; eauto].
      assert (Hk : draw_key_of py_int_of_string n = Some (py_str_int b))
        by (unfold draw_key_of; by rewrite Hb, Hz).
      rewrite add_draw_info_keys, setdefault_append_keys.
      rewrite (existsb_same_keys _ draw_info by_draw Hkeys). rewrite Hkeys.
      split; [reflexivity|]. split; [|split].
      * destruct (existsb _ by_draw) eqn:He; [by rewrite app_nil_r|].
        apply NoDup_app. split; [exact Hnd|]. split; [|by apply NoDup_singleton].
        intros k Hin ->%list_elem_of_singleton.
        apply existsb_key in Hin. congruence.
      * by apply setdefault_append_ok.
      * rewrite setdefault_append_names, List.filter_app. cbn [List.filter].
        unfold has_draw at 2. rewrite Hk. rewrite Hperm.
        by rewrite <- Permutation_cons_append.
  - injection Hstep as <- <- <-. split; [by auto|]. right. eauto.
Qed.

Lemma summarize_loop_keeps offers :
  forall names by_draw draw_info names' by_draw' draw_info',
    summarize_loop py_int_of_string offers (names, by_draw, draw_info)
    = Ret (names', by_draw', draw_info') ->
    map fst draw_info = map fst by_draw ->
    NoDup (map fst by_draw) ->
    Forall (draw_ok py_int_of_string) by_draw ->
    Permutation (flat_map snd by_draw) (List.filter (has_draw py_int_of_string) names) ->
    (map fst draw_info' = map fst by_draw' /\
     NoDup (map fst by_draw') /\
     Forall (draw_ok py_int_of_string) by_draw' /\
     Permutation (flat_map snd by_draw')
                 (List.filter (has_draw py_int_of_string) names')) /\
    exists more,
      names' = names ++ more /\ (length more <= length offers)%nat /\
      Forall (fun n => exists o, o ∈ offers /\ offer_name o = Ret (JStr n)) more.
Proof.
  induction offers as [|o offers IH];
    intros names by_draw draw_info names' by_draw' draw_info'; cbn [summarize_loop].
  - intros [= <- <- <-] ? ? ? ?. split; [by auto|].
    exists []. split; [by rewrite app_nil_r|]. split; [done|constructor].
  - destruct (summarize_step py_int_of_string (names, by_draw, draw_info) o)
      as [[[names1 by_draw1] draw_info1]| | | |] eqn:Hstep; cbn [rbind]; try discriminate.
    intros Hloop Hk Hnd Hok Hp.
    destruct (summarize_step_keeps _ _ _ _ _ _ _ Hstep Hk Hnd Hok Hp)
      as [(Hk1 & Hnd1 & Hok1 & Hp1) Hnames].
    destruct (IH _ _ _ _ _ _ Hloop Hk1 Hnd1 Hok1 Hp1)
      as [Hinv (more & -> & Hlen & Hfrom)].
    split; [exact Hinv|].
    assert (Hweak : Forall (fun n => exists o', o' ∈ o :: offers /\
                                                offer_name o' = Ret (JStr n)) more).
    { eapply Forall_impl; [exact Hfrom|]. intros n (o' & Hin & Ho').
      exists o'. split; [by right|exact Ho']. }
    destruct Hnames as [->|(n & -> & Hn)].
    + exists more. split; [reflexivity|]. split; [cbn [length]; lia|exact Hweak].
    + exists (n :: more). split; [by rewrite <- app_assoc|].
      split; [cbn [length]; lia|]. constructor; [|exact Hweak].
      exists o. split; [by left|exact Hn].
Qed.

Lemma by_count_desc_asym x y : by_count_desc x y = true -> by_count_desc y x = false.
Proof.
  unfold by_count_desc. cbn [fst snd].
  intros [H|[H1 H2]%andb_true_iff]%orb_true_iff; apply orb_false_iff.
  - apply Z.ltb_lt in H. split; [apply Z.ltb_ge; lia|].
    apply andb_false_iff. left. apply Z.eqb_neq. lia.
  - apply Z.eqb_eq in H1. split; [apply Z.ltb_ge; lia|].
    apply andb_false_iff. right. apply le_ltb_false.
    unfold String.ltb in H2. unfold String.le, String.leb.
    by destruct (String.compare (fst x) (fst y)).
Qed.

Lemma by_count_desc_false x y :
  by_count_desc y x = false <-> draw_before x y.
Proof.
  unfold by_count_desc, draw_before. cbn [fst snd].
  rewrite orb_false_iff, andb_false_iff, Z.ltb_ge, Z.eqb_neq. split.
  - intros [Hle [Hne|Hlt]]; [left; lia|].
    destruct (decide (length (snd x) = length (snd y))) as [Heq|]; [|left; lia].
    right. split; [exact Heq|by apply ltb_false_le].
  - intros [Hlt|[Heq Hle]]; [split; [lia|left; lia]|].
    split; [lia|]. right. by apply le_ltb_false.
Qed.

Lemma draw_before_trans x y z : draw_before x y -> draw_before y z -> draw_before x z.
Proof.
  unfold draw_before. intros [H1|[H1 L1]] [H2|[H2 L2]]; try (left; lia).
  right. split; [lia|by etrans].
Qed.

(** X17: in the summary of the offers, [total] counts every offer, the
    ticket names are names of offers, and the draws partition the names
    that have a draw block other than 0: each name is filed once, under
    the decimal text of its draw block; no draw is empty and no key occurs
    twice. The draws are listed with the most tickets first (the smaller
    key first among equals), and [draw_info] has the same keys. *)
Theorem summarize_offers_draws offers sm :
  summarize_offers py_int_of_string offers = Ret sm ->
  sm_total sm = Z.of_nat (length offers) /\
  (length (sm_ticket_names sm) <= length offers)%nat /\
  Forall (fun n => exists o, o ∈ offers /\ offer_name o = Ret (JStr n))
         (sm_ticket_names sm) /\
  StronglySorted draw_before (sm_draws sm) /\
  NoDup (map fst (sm_draws sm)) /\
  Forall (draw_ok py_int_of_string) (sm_draws sm) /\
  Permutation (flat_map snd (sm_draws sm))
              (List.filter (has_draw py_int_of_string) (sm_ticket_names sm)) /\
  Permutation (map fst (sm_draw_info sm)) (map fst (sm_draws sm)).
Proof.
  unfold summarize_offers.
  destruct (summarize_loop py_int_of_string offers ([], [], []))
    as [[[names by_draw] draw_info]| | | |] eqn:Hloop; cbn [rbind]; try discriminate.
  intros [= <-]. cbn [sm_total sm_ticket_names sm_draws sm_draw_info].
  destruct (summarize_loop_keeps _ _ _ _ _ _ _ Hloop eq_refl)
    as [(Hk & Hnd & Hok & Hp) (more & Hnames & Hlen & Hfrom)];
    [constructor|constructor|reflexivity|].
  cbn [app] in Hnames. subst more.
  pose proof (py_sorted_perm by_count_desc by_draw) as Hperm.
  split; [reflexivity|]. split; [exact Hlen|]. split; [exact Hfrom|].
  split; [|split; [|split; [|split]]].
  - assert (Hs : StronglySorted (not_after by_count_desc)
                                (py_sorted by_count_desc by_draw)).
    { apply (py_sorted_sorted by_count_desc (fun _ => True)).
      - intros x y _ _. apply by_count_desc_asym.
      - intros x y z _ _ _. unfold not_after. rewrite !by_count_desc_false.
        apply draw_before_trans.
      - by apply Forall_forall. }
    clear -Hs. induction Hs as [|x l _ IH Hx]; constructor; [exact IH|].
    eapply Forall_impl; [exact Hx|]. intros y. apply by_count_desc_false.
  - by rewrite Hperm.
  - by rewrite Hperm.
  - rewrite <- Hp. by apply Permutation_flat_map.
  - rewrite Hk. by rewrite Hperm.
Qed.

End TicketNames.

(** ** The ledger *)

Lemma first_found_some {A B} (f : A -> option B) l b :
  first_found f l = Some b -> exists x, x ∈ l /\ f x = Some b.
Proof.
  induction l as [|x l IH]; cbn [first_found]; [discriminate|].
  destruct (f x) as [b'|] eqn:Hx.
  - intros [= <-]. exists x. split; [apply list_elem_of_here|exact Hx].
  - intros (y & Hy & Hfy)%IH. exists y. split; [by apply list_elem_of_further|exact Hfy].
Qed.

Section LedgerFacts.

Variable json_loads : string -> loaded.

Lemma scan_message_some inner_val info :
  scan_message json_loads inner_val = Some info ->
  info = no_ledger_info \/
  exists inner m data,
    inner_val = JDict inner /\
    get_or (default (JDict []) (dict_get inner "objectdata")) "message" (JStr "")
    = Some (JStr m) /\
    String.prefix "{" m = true /\
    json_loads m = Loaded data /\
    info = read_report data.
Proof.
  unfold scan_message. destruct inner_val as [| | | | | |inner]; try discriminate.
  destruct (get_or _ "message" (JStr "")) as [message|] eqn:Hmsg;
    [|intros [= <-]; by left].
  destruct (truthy message); [|discriminate].
  destruct message as [| | | |m| |]; try (intros [= <-]; by left).
  destruct (String.prefix "{" m) eqn:Hp; [|discriminate].
  destruct (json_loads m) as [data| |] eqn:Hl; [|discriminate|intros [= <-]; by left].
  intros [= <-]. right. exists inner, m, data. done.
Qed.

(** X19: [get_ledger_info] makes one call and never raises, whatever the
    node replies and whatever [json.loads] does; when the call fails, or
    its result is not a dict, every field is [None]. A field is set only
    from a message of the ledger identity that starts with a brace and that
    [json.loads] decoded: the fields are those read from this report. *)
Theorem get_ledger_info_reads s :
  exists info,
    get_ledger_info json_loads s
    = (Ret info, after_call "getidentity" [JStr "ledger.vlotto@"] s) /\
    ((forall d, reply_of "getidentity" [JStr "ledger.vlotto@"] s <> inr (JDict d)) ->
     info = no_ledger_info) /\
    (info <> no_ledger_info ->
     exists m data,
       ledger_message (reply_of "getidentity" [JStr "ledger.vlotto@"] s) m /\
       String.prefix "{" m = true /\
       json_loads m = Loaded data /\
       info = read_report data).
Proof.
  unfold get_ledger_info, try_except, bind. rewrite call_eq.
  destruct (reply_of "getidentity" [JStr "ledger.vlotto@"] s) as [msg|v] eqn:Hr.
  { exists no_ledger_info. done. }
  destruct v as [| | | | | |d]; try (exists no_ledger_info; done).
  destruct (get_or (default (JDict []) (dict_get d "identity")) "contentmultimap"
                   (JDict [])) as [cmm|] eqn:Hc;
    [|exists no_ledger_info; split; [reflexivity|done]].
  destruct cmm as [| | | | | |cmm]; try (exists no_ledger_info; split; [reflexivity|done]).
  destruct (first_found (scan_entries json_loads) (dict_values cmm)) as [info|] eqn:Hf;
    [|exists no_ledger_info; split; [reflexivity|done]].
  exists info. split; [reflexivity|]. split; [intros Hn; by destruct (Hn d)|].
  intros Hinfo.
  apply first_found_some in Hf as (entries & Hentries & Hf).
  destruct entries as [| | | | |entries|]; try discriminate.
  apply first_found_some in Hf as (entry & Hentry & Hf).
  destruct entry as [| | | | | |entry]; try discriminate.
  apply first_found_some in Hf as (inner_val & Hinner & Hf).
  apply scan_message_some in Hf as [->|(inner & m & data & -> & Hmsg & Hp & Hl & ->)];
    [done|].
  exists m, data. split; [|done].
  exists d, cmm, entries, entry, inner. done.
Qed.

End LedgerFacts.

End Program.

(** * Examples on a scripted node *)

(** A node that answers the calls with the replies of a script, in order,
    whatever the method; sleeping does not change it. *)
Definition script : Type := list (string + json).

Definition scripted_rpc (method : string) (params : list json) (w : script)
  : (string + json) * script :=
  match w with
  | reply :: w' => (reply, w')
  | [] => (inl "RPC connection error", [])
  end.

Definition no_sleep (ms : Z) (w : script) : script := w.

(** Stand-ins for the built-ins the examples do not exercise. *)
Definition no_dumps (v : json) : string := "".
Definition no_parse (s : string) : option float := None.
Definition keep_float (f : float) (ndigits : Z) : float := f.
Definition no_str (v : json) : string := "".

Definition fresh (w : script) : state script := State script w [].

Definition offer (txid name : string) : json :=
  JDict [("identityid", JStr ("i" +:+ name));
         ("offer", JDict [("txid", JStr txid); ("offer", JDict [("name", JStr name)])])].

Definition pool : json := JList [offer "0b" "3906000_2of32"; offer "0a" "3906000_1of32"].

Definition tx1 : string :=
  "1111111111111111111111111111111111111111111111111111111111111111".
Definition tx2 : string :=
  "2222222222222222222222222222222222222222222222222222222222222222".

Definition bought_as (txid : string) : string + json := inr (JDict [("txid", JStr txid)]).
Definition confirmations (n : Z) : string + json := inr (JDict [("confirmations", JInt n)]).

(** The method of a call, ["sleep"] for a sleep. *)
Definition method_of (e : event) : string :=
  match e with
  | ECall method _ _ => method
  | ESleep _ => "sleep"
  end.

Definition run (qty : Z) (w : script) : result loop_state * state script :=
  main_buy_loop script scripted_rpc no_sleep no_str 9 "RAddr" "RAddr" qty false
                initial_loop_state (fresh w).

Definition untracked_script : script :=
  [inr pool; inr (JDict [("hex", JStr "0400008085202f89")]);
   inr pool; inr (JDict [("hex", JStr "0400008085202f89")])].

Definition untracked_log : list event :=
  Eval vm_compute in log script (snd (run 2 untracked_script)).

Definition confirmed_script : script :=
  [inr pool; bought_as tx1; confirmations 0; confirmations 1; inr pool; bought_as tx2].

Definition confirmed_log : list event :=
  Eval vm_compute in log script (snd (run 2 confirmed_script)).

Definition single_pool : json := JList [offer "0a" "3906000_1of32"].

Definition single_script : script := [inr single_pool; bought_as tx1].

Definition single_turn : result flow * state script :=
  buy_one script scripted_rpc no_sleep no_str 9 "RAddr" "RAddr" 1 false
          initial_loop_state (fresh single_script).

Definition after_single_turn : loop_state :=
  match fst single_turn with
  | Ret (Continue st) => st
  | _ => initial_loop_state
  end.

Definition rejection : string := "mempool: transaction rejected, inputs already spent".

Definition rejected_script : script :=
  [inr pool; bought_as tx1; confirmations 1;
   inr pool; inl rejection;
   inr pool; bought_as tx2].

Definition rejected_log : list event :=
  Eval vm_compute in log script (snd (run 2 rejected_script)).

Definition rejected_first : state script := fresh [inr pool; inl rejection].

Definition rejected_first_state : state script :=
  snd (take_ticket_offer script scripted_rpc no_str "RAddr" "RAddr"
         (offer "0a" "3906000_1of32") false
         (after_call script scripted_rpc "getoffers" [JStr "vlotto"; JBool true]
                     rejected_first)).

Definition steady_rpc (method : string) (params : list json) (w : nat)
  : (string + json) * nat :=
  (if String.eqb method "getoffers" then inr pool
   else if String.eqb method "takeoffer" then bought_as tx1
   else if String.eqb method "gettransaction" then confirmations 1
   else inl "Method not found", S w).

Definition steady_sleep (ms : Z) (w : nat) : nat := w.

Definition steady_turn : result flow * state nat :=
  buy_one nat steady_rpc steady_sleep no_str 9 "RAddr" "RAddr" 2 false
          initial_loop_state (State nat O []).

Definition after_steady_turn : loop_state :=
  match fst steady_turn with
  | Ret (Continue st) => st
  | _ => initial_loop_state
  end.

Definition pending_twice : state script :=
  fresh [confirmations 0; confirmations 0; confirmations 3].

Definition after_two_rounds (s : state script) : state script :=
  slept script no_sleep 5000
    (polled script scripted_rpc tx1
       (slept script no_sleep 5000 (polled script scripted_rpc tx1 s))).

Definition failing_twice : state script :=
  fresh [inl "RPC connection error: timed out"; inr (JStr "busy")].

Definition keyed_pool : list (string * json) :=
  [("3906000_2of32", offer "0b" "3906000_2of32");
   ("3906000_1of32", offer "0a" "3906000_1of32")].

Definition route (name : string) (amount : float) : json :=
  JDict [("fullyqualifiedname", JStr name);
         ("sourceamounts", JDict [("VRSC", JFloat amount)])].

Definition routes : list json :=
  [route "vlotto" 1.5; route "Bridge.vETH" 1.25; route "Pure" 1.25].

Definition with_routes : state script := fresh [inr (JList routes)].

(** A route whose amount is a text that [float] does not read, listed
    after a route that quotes 1.5. *)
Definition unreadable_route : json :=
  JDict [("fullyqualifiedname", JStr "Pure");
         ("sourceamounts", JDict [("VRSC", JStr "n/a")])].

Definition with_unreadable : state script :=
  fresh [inr (JList [route "vlotto" 1.5; unreadable_route])].

(** [str.lower] on ASCII and Latin-1 text in UTF-8: the letters A-Z, and
    the two-byte letters U+00C0 to U+00DE other than the multiplication
    sign; [after_c3] tells that the byte before was the lead byte 195. *)
Fixpoint latin1_lower_from (after_c3 : bool) (s : string) : string :=
  match s with
  | EmptyString => EmptyString
  | String c s' =>
      let n := nat_of_ascii c in
      if after_c3 then
        String (if (128 <=? n)%nat && (n <=? 158)%nat && negb (n =? 151)%nat
                then ascii_of_nat (n + 32) else c)
               (latin1_lower_from false s')
      else String (lower_ascii c) (latin1_lower_from (n =? 195)%nat s')
  end.

Definition latin1_lower (s : string) : string := latin1_lower_from false s.

(** A balance held under a key that differs from the currency asked for
    by the case of an accented letter. *)
Definition accented : state script :=
  fresh [inr (JDict [("VRSC", JFloat 10); ("ÉCU", JFloat 7)])].

Definition funded : state script := fresh [inr (JDict [("vlotto", JFloat 5)])].

Definition unfunded : state script :=
  fresh [inr (JDict [("VRSC", JFloat 10)]); inr (JList routes)].

(** *** Examples for the waits, the order and the ticket names *)

(** An entry of [z_getoperationstatus]. *)
Definition op_status (status : string) (fields : list (string * json)) : string + json :=
  inr (JList [JDict (("status", JStr status) :: fields)]).

Definition executing_twice : state script :=
  fresh [op_status "queued" []; op_status "executing" [];
         op_status "success" [("result", JDict [("txid", JStr tx1)])]].

Definition after_two_status_polls (s : state script) : state script :=
  slept script no_sleep 3000
    (opid_polled script scripted_rpc "opid-1"
       (slept script no_sleep 3000 (opid_polled script scripted_rpc "opid-1" s))).

(** A node that cannot be reached: every call fails. *)
Definition down_rpc (method : string) (params : list json) (w : nat)
  : (string + json) * nat :=
  (inl "RPC connection error: connection refused", S w).

(** Two purchases and the final wait. *)
Definition settled_script : script := confirmed_script ++ [confirmations 1].

Definition settled_run : result loop_state * state script :=
  main_buy_tickets script scripted_rpc no_sleep no_str 9 "RAddr" "RAddr" 2 false
                   (fresh settled_script).

Definition settled_state : loop_state :=
  match fst settled_run with
  | Ret st => st
  | _ => initial_loop_state
  end.

Definition settled_log : list event :=
  Eval vm_compute in log script (snd settled_run).

(** A swap: no vlotto at first, the swap operation succeeds, its
    transaction is confirmed and the balance then reads 2.5. *)
Definition swap_script : script :=
  [inr (JDict [("VRSC", JFloat 10)]); inr (JList routes); inr (JStr "opid-1234");
   op_status "success" [("result", JDict [("txid", JStr tx1)])];
   confirmations 1; inr (JDict [("vlotto", JFloat 2.5)])].

Definition swap_run : result (float * option string) * state script :=
  main_liquidity script scripted_rpc no_sleep no_dumps no_parse keep_float no_str lower
                 9 "RAddr" 2 0.01 "Y" (fresh swap_script).

(** [int] on plain decimal text, the only texts the examples read. *)
Definition decimal_int (s : string) : option Z :=
  option_map Z.of_int (DecimalString.NilZero.int_of_string s).

(** An order of one ticket from a funded address. *)
Definition order_script : script :=
  [inr (JDict [("vlotto", JFloat 5)]); inr pool; bought_as tx1; confirmations 1].

Definition order_run : result loop_state * state script :=
  main_order script scripted_rpc no_sleep no_dumps no_parse keep_float no_str lower
             decimal_int 9 "RAddr" "1" "y" (fresh order_script).

Definition order_log : list event :=
  Eval vm_compute in log script (snd order_run).

(** Offers of two draws. *)
Definition listed_offers : list json :=
  [offer "0c" "3907000_1of8"; offer "0b" "3906000_2of32"; offer "0a" "3906000_1of32"].

Definition listed_summary : summary :=
  Summary 3 ["3907000_1of8"; "3906000_2of32"; "3906000_1of32"]
          [("3906000", ["3906000_2of32"; "3906000_1of32"]); ("3907000", ["3907000_1of8"])]
          [("3907000", (3907000, Some 8)); ("3906000", (3906000, Some 32))].


(** An order of two tickets from an address without vlotto: the swap, then
    the two purchases and the final wait. *)
Definition swap_order_script : script :=
  swap_script ++ [inr pool; bought_as tx1; confirmations 1;
                  inr pool; bought_as tx2; confirmations 1].

Definition swap_order_run : result loop_state * state script :=
  main_order script scripted_rpc no_sleep no_dumps no_parse keep_float no_str lower
             decimal_int 9 "RAddr" "2" "y" (fresh swap_order_script).

(** A console that takes every text. *)
Definition silent (line : Z) (values : list json) (w : script) : option string := None.

(** A purchase, its confirmation, and a refresh that fails. *)
Definition refresh_fails_script : script :=
  [inr pool; bought_as tx1; confirmations 1; inl "RPC connection error: timed out"].

Definition refresh_fails_run : result loop_state * state script :=
  main_buy_loop_printing script scripted_rpc no_sleep no_str silent 9 "RAddr" "RAddr" 2
                         false initial_loop_state (fresh refresh_fails_script).

(** ** A purchase without a transaction id is not waited for *)

Lemma untracked_log_eq : log script (snd (run 2 untracked_script)) = untracked_log.
Proof. vm_compute. reflexivity. Qed.

(** Counterexample to C1 as stated: the node answers the first [takeoffer]
    with a result that has no "txid"; the second [takeoffer] follows the
    next [getoffers] with no poll in between. *)
Lemma purchase_without_txid_not_awaited :
  map method_of (log script (snd (run 2 untracked_script)))
  = ["getoffers"; "takeoffer"; "getoffers"; "takeoffer"] /\
  ~ sequenced_every_purchase (log script (snd (run 2 untracked_script))).
Proof.
  rewrite untracked_log_eq. split; [reflexivity|].
  intros H. unfold untracked_log in H.
  destruct (H [_] _ _ [_] _ _ [] eq_refl) as (params & reply & Hin & _).
  apply list_elem_of_singleton in Hin. discriminate.
Qed.

(** ** Two purchases, the first confirmed at the second poll *)

Lemma confirmed_log_eq : log script (snd (run 2 confirmed_script)) = confirmed_log.
Proof. vm_compute. reflexivity. Qed.

Lemma confirmed_log_plain : plain_polls confirmed_log.
Proof.
  intros params reply Hin. unfold confirmed_log in Hin.
  repeat (apply elem_of_cons in Hin as [Hin|Hin];
          [first [discriminate
                 |injection Hin as _ ->; eexists; split; [reflexivity|lia]]|]).
  by apply elem_of_nil in Hin.
Qed.

(** C1 on this run: the second [takeoffer] comes after the poll that shows
    the first purchase confirmed. *)
Lemma two_purchases_sequenced :
  map method_of (log script (snd (run 2 confirmed_script)))
  = ["getoffers"; "takeoffer"; "gettransaction"; "sleep"; "gettransaction";
     "getoffers"; "takeoffer"] /\
  sequenced (log script (snd (run 2 confirmed_script))).
Proof.
  split; [by rewrite confirmed_log_eq|].
  apply (purchases_wait_for_confirmation script scripted_rpc no_sleep no_str).
  - reflexivity.
  - fold (run 2 confirmed_script). rewrite confirmed_log_eq. apply confirmed_log_plain.
Defined.

(** ** The only offer of the pool, bought *)

Lemma single_turn_eq : single_turn = (Ret (Continue after_single_turn), snd single_turn).
Proof. vm_compute. reflexivity. Qed.

(** Counterexample to C2 as stated: once the only offer of the pool has
    been bought, the attempted ids are all the observed ids, not a strict
    subset of them. *)
Lemma attempted_not_strictly_within :
  elements (attempted after_single_turn) = ["0a"] /\
  elements (observed (log script (snd single_turn))) = ["0a"] /\
  ~ (forall st s,
       reachable script scripted_rpc no_sleep no_str "RAddr" "RAddr" 1 false st s ->
       attempted_strictly_within script st s).
Proof.
  split; [by vm_compute|]. split; [by vm_compute|].
  intros H.
  assert (Hreach : reachable script scripted_rpc no_sleep no_str "RAddr" "RAddr" 1 false
                             after_single_turn (snd single_turn)).
  { apply (reach_turn script scripted_rpc no_sleep no_str "RAddr" "RAddr" 1 false
                      9%nat initial_loop_state (fresh single_script)).
    - apply reach_start.
    - reflexivity.
    - apply single_turn_eq. }
  destruct (H _ _ Hreach) as [_ Hstrict]. apply Hstrict.
  assert (Heq : observed (log script (snd single_turn)) = attempted after_single_turn)
    by (vm_compute; reflexivity).
  by rewrite Heq.
Qed.

(** ** A rejected second attempt *)

Lemma rejected_log_eq : log script (snd (run 2 rejected_script)) = rejected_log.
Proof. vm_compute. reflexivity. Qed.

(** Counterexample to C4 as stated: the first purchase is confirmed right
    away; when the second [takeoffer] is rejected the loop sleeps, it does
    not poll the first purchase's transaction again. *)
Lemma rejection_after_purchase_sleeps :
  map method_of (log script (snd (run 2 rejected_script)))
  = ["getoffers"; "takeoffer"; "gettransaction"; "getoffers"; "takeoffer"; "sleep";
     "getoffers"; "takeoffer"] /\
  ~ rejection_awaits_purchase (log script (snd (run 2 rejected_script))).
Proof.
  rewrite rejected_log_eq. split; [reflexivity|].
  intros H. unfold rejected_log in H.
  destruct (H [_] _ _ tx1 [_; _] _ rejection _ [_; _] eq_refl) as [reply Hr];
    [reflexivity|reflexivity|discriminate].
Qed.

(** C4 on a rejected first attempt: no purchase has been made, the turn
    sleeps 5 seconds and leaves the loop state as it was. *)
Lemma rejected_first_backoff :
  is_rejected rejection = true /\
  buy_one script scripted_rpc no_sleep no_str 9 "RAddr" "RAddr" 2 false
          initial_loop_state rejected_first
  = (Ret (Continue initial_loop_state), slept script no_sleep 5000 rejected_first_state).
Proof.
  split; [reflexivity|].
  destruct (rejected_attempt_backoff script scripted_rpc no_sleep no_str
              9 "RAddr" "RAddr" 2 false initial_loop_state rejected_first
              pool (offer "0a" "3906000_1of32") "0a" rejection rejected_first_state)
    as (Hsleep & _ & _).
  - reflexivity.
  - vm_compute. reflexivity.
  - vm_compute. reflexivity.
  - reflexivity.
  - exact (Hsleep eq_refl).
Defined.

(** ** A node with hexadecimal transaction ids *)

Lemma steady_turn_eq : steady_turn = (Ret (Continue after_steady_turn), snd steady_turn).
Proof. vm_compute. reflexivity. Qed.

Lemma steady_hex : hex_tx_ids nat steady_rpc.
Proof.
  intros params w r t Hr Ht. cbn in Hr. injection Hr as <-.
  vm_compute in Ht. injection Ht as <-. reflexivity.
Qed.

(** C2 after one turn on this node: the bought offer is in [purchased]
    once, is in [attempted], and [attempted] is within the observed ids. *)
Lemma steady_turn_ids :
  hex_tx_ids nat steady_rpc /\
  purchased_ids after_steady_turn = ["0a"] /\
  ids_invariant nat after_steady_turn (snd steady_turn).
Proof.
  split; [exact steady_hex|]. split; [reflexivity|].
  apply (proj1 (attempted_within_observed nat steady_rpc steady_sleep no_str
                  "RAddr" "RAddr" 2 false steady_hex)).
  apply (reach_turn nat steady_rpc steady_sleep no_str "RAddr" "RAddr" 2 false
                    9%nat initial_loop_state (State nat O [])).
  - apply reach_start.
  - reflexivity.
  - apply steady_turn_eq.
Defined.

(** ** Polling *)

(** C6 on two pending polls followed by a poll with 3 confirmations. *)
Lemma confirmed_at_third_poll :
  pending_rounds script scripted_rpc no_sleep tx1 1 2 pending_twice
                 (after_two_rounds pending_twice) /\
  wait_for_tx_confirmed script scripted_rpc no_sleep 3 tx1 1 pending_twice
  = (Ret (JInt 3), polled script scripted_rpc tx1 (after_two_rounds pending_twice)).
Proof.
  assert (Hp : pending_rounds script scripted_rpc no_sleep tx1 1 2 pending_twice
                              (after_two_rounds pending_twice)).
  { apply (PR_round _ _ _ _ _ _ _ 0); [reflexivity|lia|lia|].
    apply (PR_round _ _ _ _ _ _ _ 0); [reflexivity|lia|lia|]. apply PR_done. }
  split; [exact Hp|].
  destruct (wait_for_tx_confirmed_gate script scripted_rpc no_sleep tx1 2 _ _ Hp)
    as (_ & _ & Hret & _).
  apply (Hret 3 O); [reflexivity|lia].
Defined.

(** C9 on a poll that raises followed by a poll whose reply is not a dict:
    after both the wait is still polling. *)
Lemma still_polling_after_failures :
  failing_rounds script scripted_rpc no_sleep tx1 2 failing_twice
                 (after_two_rounds failing_twice) /\
  wait_for_tx_confirmed script scripted_rpc no_sleep 2 tx1 1 failing_twice
  = (OutOfFuel, after_two_rounds failing_twice).
Proof.
  assert (Hf : failing_rounds script scripted_rpc no_sleep tx1 2 failing_twice
                              (after_two_rounds failing_twice)).
  { apply FR_round; [exact I|]. apply FR_round; [exact I|]. apply FR_done. }
  split; [exact Hf|].
  destruct (polling_survives_rpc_failures script scripted_rpc no_sleep no_dumps
              no_parse keep_float tx1) as (_ & _ & Hrounds & _).
  destruct (Hrounds 2%nat _ _ Hf) as (_ & Hout & _). exact Hout.
Defined.

(** ** Selection *)

(** C7 on the pool of two offers, the first by name already attempted. *)
Lemma second_offer_after_first :
  keyed (extract_offers_list pool) = Ret keyed_pool /\
  select_next pool {["0a"]} = Ret (Some (offer "0b" "3906000_2of32", "0b")) /\
  scan_result {["0a"]} (map snd (sort_by_key keyed_pool)) (select_next pool {["0a"]}).
Proof.
  split; [reflexivity|]. split; [by vm_compute|].
  apply (select_next_first_unattempted pool {["0a"]} keyed_pool). reflexivity.
Defined.

(** ** Routes *)

Lemma route_readable name amount : readable no_parse (route name amount).
Proof.
  right. eexists. split; [reflexivity|]. intros sa _ [= <-].
  repeat constructor. intros _. eexists. reflexivity.
Qed.

(** C3 on three routes, the last two quoting the same lowest amount: the
    first of the two is returned. *)
Lemma cheapest_of_three :
  Forall (readable no_parse) routes /\
  exists qs,
    candidates_of no_parse routes qs /\
    cheapest qs (JStr "Bridge.vETH") 1.25 /\
    get_best_exact_out_converter script scripted_rpc no_dumps no_parse keep_float
                                 "VRSC" "vlotto" 2.02 with_routes
    = (Ret (1.25%float, JStr "Bridge.vETH"),
       after_call script scripted_rpc "getcurrencyconverters"
                  [JStr (no_dumps (converter_query keep_float "VRSC" "vlotto" 2.02))]
                  with_routes).
Proof.
  assert (Hread : Forall (readable no_parse) routes)
    by (do 3 (constructor; [apply route_readable|]); constructor).
  split; [exact Hread|].
  destruct (get_best_exact_out_converter_cheapest script scripted_rpc no_dumps no_parse
              keep_float "VRSC" "vlotto" 2.02 with_routes) as [Hlist _].
  destruct (Hlist routes eq_refl Hread) as (qs & Hcand & Hbest).
  exists qs. split; [exact Hcand|].
  assert (Hrun : get_best_exact_out_converter script scripted_rpc no_dumps no_parse
                   keep_float "VRSC" "vlotto" 2.02 with_routes
                 = (Ret (1.25%float, JStr "Bridge.vETH"),
                    after_call script scripted_rpc "getcurrencyconverters"
                      [JStr (no_dumps (converter_query keep_float "VRSC" "vlotto" 2.02))]
                      with_routes))
    by (vm_compute; reflexivity).
  split; [|exact Hrun].
  unfold routes in Hbest. cbn iota in Hbest. destruct qs as [|q qs].
  - rewrite Hrun in Hbest. discriminate.
  - destruct Hbest as (via & m & Hcheap & Hret). rewrite Hrun in Hret.
    injection Hret as Hm Hvia. unfold keep_float in Hm.
    rewrite Hm, Hvia. exact Hcheap.
Defined.

(** The entry after the route that quotes 1.5 cannot be read: the error of
    [float] is raised, although a candidate quotes a positive amount. *)
Lemma unreadable_amount_raises :
  candidate no_parse (route "vlotto" 1.5) (JStr "vlotto") 1.5 /\
  get_best_exact_out_converter script scripted_rpc no_dumps no_parse keep_float
                               "VRSC" "vlotto" 2.02 with_unreadable
  = (Raise "could not convert string to float: 'n/a'",
     after_call script scripted_rpc "getcurrencyconverters"
                [JStr (no_dumps (converter_query keep_float "VRSC" "vlotto" 2.02))]
                with_unreadable).
Proof.
  split; [|vm_compute; reflexivity].
  exists [("fullyqualifiedname", JStr "vlotto");
          ("sourceamounts", JDict [("VRSC", JFloat 1.5)])],
         [("VRSC", JFloat 1.5)], [], "VRSC", (JFloat 1.5), [].
  do 5 (split; [reflexivity|]). split; [exact I|]. split; [reflexivity|].
  split; [split; reflexivity|constructor].
Qed.

(** ** Balances *)

(** C10 on a key that matches only ignoring case: the balance is found,
    past a key of another currency. *)
Lemma accented_key_found :
  dict_get [("VRSC", JFloat 10); ("ÉCU", JFloat 7)] "écu" = None /\
  latin1_lower "ÉCU" = latin1_lower "écu" /\
  get_currency_balance script scripted_rpc no_parse latin1_lower "RAddr" "écu" accented
  = (Ret 7%float, after_call script scripted_rpc "getcurrencybalance" [JStr "RAddr"]
                             accented) /\
  balance_lookup no_parse latin1_lower "écu"
                 (reply_of script scripted_rpc "getcurrencybalance" [JStr "RAddr"] accented)
                 7.
Proof.
  split; [reflexivity|]. split; [reflexivity|].
  destruct (get_currency_balance_lookup script scripted_rpc no_parse latin1_lower
              "RAddr" "écu" accented) as (bal & Hrun & Hlookup).
  assert (Hbal : bal = 7%float).
  { vm_compute in Hrun. by injection Hrun as <-. }
  rewrite Hbal in Hrun, Hlookup. split; [exact Hrun|exact Hlookup].
Defined.

(** ** Liquidity *)

(** C5 on a balance of 5 for 2 tickets. *)
Lemma funded_needs_no_swap :
  (2 * 1 <=? 5)%float = true /\
  main_liquidity script scripted_rpc no_sleep no_dumps no_parse keep_float no_str lower
                 9 "RAddr" 2 0.01 "y" funded
  = (Ret (5%float, None),
     after_call script scripted_rpc "getcurrencybalance" [JStr "RAddr"] funded).
Proof.
  split; [reflexivity|].
  destruct (main_liquidity_sufficient script scripted_rpc no_sleep no_dumps no_parse
              keep_float no_str lower 9 "RAddr" 2 0.01 "y" funded 2 5) as (_ & Hrun & _).
  - vm_compute. reflexivity.
  - vm_compute. reflexivity.
  - reflexivity.
  - exact Hrun.
Defined.

(** C8 on an address without vlotto: the converter query asks for 2.02. *)
Lemma unfunded_asks_for_buffered_deficit :
  fst (get_currency_balance script scripted_rpc no_parse lower "RAddr" "vlotto" unfunded)
  = Ret 0%float /\
  exists rest,
    log script (snd (main_liquidity script scripted_rpc no_sleep no_dumps no_parse
                                    keep_float no_str lower 9 "RAddr" 2 0.01 "y" unfunded))
    = [ECall "getcurrencybalance" [JStr "RAddr"] (inr (JDict [("VRSC", JFloat 10)]));
       ECall "getcurrencyconverters"
             [JStr (no_dumps (converter_query keep_float "VRSC" "vlotto" 2.02))]
             (inr (JList routes))]
      ++ rest.
Proof.
  assert (Hb : fst (get_currency_balance script scripted_rpc no_parse lower "RAddr" "vlotto"
                                         unfunded) = Ret 0%float)
    by (vm_compute; reflexivity).
  split; [exact Hb|].
  destruct (main_liquidity_scenario script scripted_rpc no_sleep no_dumps no_parse
              keep_float no_str lower 9 "RAddr" "y" unfunded Hb) as (_ & _ & rest & Hlog).
  exists rest. exact Hlog.
Defined.

(** ** Taking an offer *)

(** X1 on a complete entry: one [takeoffer] call, for this entry. *)
Lemma complete_entry_is_taken :
  offer_fields (offer "0a" "3906000_1of32")
  = Ret (JStr "0a", JStr "3906000_1of32", JStr "i3906000_1of32") /\
  take_ticket_offer script scripted_rpc no_str "RAddr" "RAddr"
                    (offer "0a" "3906000_1of32") false (fresh [bought_as tx1])
  = (Ret (JDict [("offer_txid", JStr "0a"); ("ticket", JStr "3906000_1of32");
                 ("result", JDict [("txid", JStr tx1)])]),
     after_call script scripted_rpc "takeoffer"
                (takeoffer_params no_str "RAddr" "RAddr" (JStr "0a")
                                  (JStr "3906000_1of32") (JStr "i3906000_1of32") false)
                (fresh [bought_as tx1])).
Proof.
  split; [reflexivity|].
  destruct (take_ticket_offer_request script scripted_rpc no_str "RAddr" "RAddr"
              (offer "0a" "3906000_1of32") false (fresh [bought_as tx1])) as [_ Hread].
  destruct (Hread _ _ _ eq_refl) as (_ & _ & Hcall).
  exact (Hcall eq_refl eq_refl eq_refl).
Defined.

(** ** Waiting for the swap *)

(** X2 on two pending polls followed by a poll that shows success. *)
Lemma operation_done_at_third_poll :
  opid_rounds script scripted_rpc no_sleep "opid-1" 2 executing_twice
              (after_two_status_polls executing_twice) /\
  wait_for_opid_success script scripted_rpc no_sleep no_str 3 "opid-1" executing_twice
  = (Ret (JStr tx1),
     opid_polled script scripted_rpc "opid-1" (after_two_status_polls executing_twice)).
Proof.
  assert (Hp : opid_rounds script scripted_rpc no_sleep "opid-1" 2 executing_twice
                           (after_two_status_polls executing_twice)).
  { apply OR_round; [split; reflexivity|].
    apply OR_round; [split; reflexivity|]. apply OR_done. }
  split; [exact Hp|].
  destruct (wait_for_opid_success_outcomes script scripted_rpc no_sleep no_str
              "opid-1" 2 _ _ Hp) as (_ & _ & _ & Hret & _).
  apply (Hret O [("status", JStr "success"); ("result", JDict [("txid", JStr tx1)])]
              [] (JStr tx1)); reflexivity.
Defined.

(** X4 on a node that cannot be reached, waiting for a balance of 2. *)
Lemma unreachable_node_keeps_waiting :
  balance_unavailable nat down_rpc "RAddr" /\
  fst (wait_for_balance nat down_rpc steady_sleep no_parse lower 3 "RAddr" "vlotto" 2
                        (State nat O []))
  = OutOfFuel /\
  length (log nat (snd (wait_for_balance nat down_rpc steady_sleep no_parse lower 3
                                         "RAddr" "vlotto" 2 (State nat O []))))
  = 6%nat.
Proof.
  assert (Hu : balance_unavailable nat down_rpc "RAddr").
  { intros w. eexists. reflexivity. }
  split; [exact Hu|].
  exact (wait_for_balance_unreachable_node nat down_rpc steady_sleep no_parse lower
           "RAddr" "vlotto" 2 Hu eq_refl 3%nat (State nat O [])).
Defined.

(** X5 on the three routes: the route returned is quoted in the reply. *)
Lemma returned_route_is_quoted :
  get_best_exact_out_converter script scripted_rpc no_dumps no_parse keep_float
                               "VRSC" "vlotto" 2.02 with_routes
  = (Ret (1.25%float, JStr "Bridge.vETH"),
     after_call script scripted_rpc "getcurrencyconverters"
                [JStr (no_dumps (converter_query keep_float "VRSC" "vlotto" 2.02))]
                with_routes) /\
  exists c required,
    c ∈ routes /\
    quote_of no_parse c = Ret (Some (JStr "Bridge.vETH", required)) /\
    1.25%float = keep_float required 8.
Proof.
  assert (Hrun : get_best_exact_out_converter script scripted_rpc no_dumps no_parse
                   keep_float "VRSC" "vlotto" 2.02 with_routes
                 = (Ret (1.25%float, JStr "Bridge.vETH"),
                    after_call script scripted_rpc "getcurrencyconverters"
                      [JStr (no_dumps (converter_query keep_float "VRSC" "vlotto" 2.02))]
                      with_routes))
    by (vm_compute; reflexivity).
  split; [exact Hrun|].
  destruct (get_best_exact_out_converter_quoted script scripted_rpc no_dumps no_parse
              keep_float "VRSC" "vlotto" 2.02 with_routes _ _ _ Hrun)
    as (l & c & required & Hreply & Hin & Hq & _ & _ & _ & Hamount).
  injection Hreply as <-. exists c, required. auto.
Defined.

(** ** Purchases *)

(** X6 on the run of two purchases: two tickets asked for, two bought. *)
Lemma two_asked_two_bought :
  purchases_in (log script (fresh confirmed_script)) = 0 /\
  (purchases_in (log script (snd (run 2 confirmed_script))) <= Z.max 0 2)%Z.
Proof.
  split; [reflexivity|].
  exact (proj1 (main_buy_loop_never_overbuys script scripted_rpc no_sleep no_str 9
                  "RAddr" "RAddr" 2 false (fresh confirmed_script) eq_refl)).
Defined.

(** X7 on a run whose second refresh fails: the loop ends with the error
    of the [getoffers] call. *)
Lemma refresh_failure_ends_loop :
  console_quiet script silent /\
  fst refresh_fails_run = Raise "RPC connection error: timed out" /\
  exists s0,
    snd refresh_fails_run
    = after_call script scripted_rpc "getoffers" [JStr "vlotto"; JBool true] s0 /\
    (reply_of script scripted_rpc "getoffers" [JStr "vlotto"; JBool true] s0
     = inl "RPC connection error: timed out" \/
     exists raw tried,
       reply_of script scripted_rpc "getoffers" [JStr "vlotto"; JBool true] s0 = inr raw /\
       select_next raw tried = Raise "RPC connection error: timed out").
Proof.
  assert (Hq : console_quiet script silent) by (intros line values w; reflexivity).
  assert (Hrun : fst refresh_fails_run = Raise "RPC connection error: timed out")
    by (vm_compute; reflexivity).
  split; [exact Hq|]. split; [exact Hrun|].
  destruct (main_buy_loop_errors script scripted_rpc no_sleep no_str silent 9 "RAddr"
              "RAddr" 2 (fresh refresh_fails_script) Hq) as [_ Hraise].
  exact (Hraise _ Hrun).
Defined.

Lemma refreshed_nil a c dry_run : refreshed no_str a c dry_run [].
Proof. intros l1 params reply l2 Heq. by destruct l1. Qed.

(** X8 on the run of two purchases. *)
Lemma purchases_follow_refresh :
  refreshed no_str "RAddr" "RAddr" false (log script (fresh confirmed_script)) /\
  refreshed no_str "RAddr" "RAddr" false (log script (snd (run 2 confirmed_script))).
Proof.
  split; [apply refreshed_nil|].
  exact (main_buy_loop_refreshed script scripted_rpc no_sleep no_str 9 "RAddr" "RAddr"
           2 false initial_loop_state (fresh confirmed_script)
           (refreshed_nil "RAddr" "RAddr" false)).
Defined.

(** X9 on the node that always offers the same pool. *)
Lemma steady_node_no_resubmission :
  hex_tx_ids nat steady_rpc /\
  never_resubmitted
    (log nat (snd (main_buy_loop nat steady_rpc steady_sleep no_str 9 "RAddr" "RAddr" 2
                                 false initial_loop_state (State nat O [])))).
Proof.
  split; [exact steady_hex|].
  exact (main_buy_loop_never_resubmits nat steady_rpc steady_sleep no_str 9 "RAddr"
           "RAddr" 2 false (State nat O []) steady_hex eq_refl).
Defined.

Lemma settled_run_eq : settled_run = (Ret settled_state, snd settled_run).
Proof. vm_compute. reflexivity. Qed.

Lemma settled_log_eq : log script (snd settled_run) = settled_log.
Proof. vm_compute. reflexivity. Qed.

Lemma settled_log_plain : plain_polls settled_log.
Proof.
  intros params reply Hin. unfold settled_log in Hin.
  repeat (apply elem_of_cons in Hin as [Hin|Hin];
          [first [discriminate
                 |injection Hin as _ ->; eexists; split; [reflexivity|lia]]|]).
  by apply elem_of_nil in Hin.
Qed.

(** X10 on two purchases followed by the final wait. *)
Lemma both_purchases_confirmed :
  settled_run = (Ret settled_state, snd settled_run) /\
  plain_polls (log script (snd settled_run)) /\
  all_confirmed (log script (snd settled_run)).
Proof.
  assert (Hp : plain_polls (log script (snd settled_run)))
    by (rewrite settled_log_eq; apply settled_log_plain).
  split; [apply settled_run_eq|]. split; [exact Hp|].
  exact (main_buy_tickets_confirmed script scripted_rpc no_sleep no_str 9 "RAddr"
           "RAddr" 2 (fresh settled_script) settled_state (snd settled_run)
           eq_refl settled_run_eq Hp).
Defined.

(** ** The order *)

(** X11 on a swap for two tickets, confirmed with "Y". *)
Lemma swap_covers_order :
  swap_run = (Ret (2.5%float, Some "opid-1234"), snd swap_run) /\
  lower "Y" = "y" /\
  (2 * 1 <=? 2.5)%float = true.
Proof.
  assert (Hrun : swap_run = (Ret (2.5%float, Some "opid-1234"), snd swap_run))
    by (vm_compute; reflexivity).
  split; [exact Hrun|].
  destruct (main_liquidity_covered script scripted_rpc no_sleep no_dumps no_parse
              keep_float no_str lower 9 "RAddr" 2 0.01 "Y" (fresh swap_script) _ _ _ Hrun)
    as (Hc & q & Hq & Hle & _).
  split; [exact Hc|]. vm_compute in Hq. injection Hq as <-. exact Hle.
Defined.

Lemma order_log_eq : log script (snd order_run) = order_log.
Proof. vm_compute. reflexivity. Qed.

(** X12 on an order of one ticket: its log holds a [takeoffer] call. *)
Lemma confirmed_order_buys :
  Exists (fun e => method_of e = "takeoffer") (log script (snd order_run)) /\
  lower "y" = "y" /\
  exists qty, decimal_int "1" = Some qty /\ 0 < qty.
Proof.
  split.
  { rewrite order_log_eq. unfold order_log.
    do 2 apply Exists_cons_tl. apply Exists_cons_hd. reflexivity. }
  eapply (main_order_guarded script scripted_rpc no_sleep no_dumps no_parse keep_float
            no_str lower decimal_int 9 "RAddr" "1" "y" (fresh order_script) "takeoffer").
  - reflexivity.
  - fold order_run. rewrite order_log_eq. unfold order_log.
    do 2 apply list_elem_of_further. apply list_elem_of_here.
  - by right.
Defined.

(** X18 on an order of two tickets that needs a swap: one swap is made. *)
Lemma swap_order_swaps_once :
  log script (fresh swap_order_script) = [] /\
  swaps_in (log script (snd swap_order_run)) = 1%nat /\
  (swaps_in (log script (snd swap_order_run)) <= 1)%nat.
Proof.
  split; [reflexivity|]. split; [vm_compute; reflexivity|].
  exact (proj1 (main_order_single_swap script scripted_rpc no_sleep no_dumps no_parse
                  keep_float no_str lower decimal_int 9 "RAddr" "2" "y"
                  (fresh swap_order_script) eq_refl)).
Defined.

(** ** Ticket names *)

(** X15 on the name of the source's docstring. *)
Lemma ticket_32_of_32 :
  parse_ticket_name decimal_int "3906000_32of32"
  = TicketName "3906000_32of32" (Some 3906000) (Some 32) (Some 32).
Proof.
  exact (parse_ticket_name_format decimal_int "3906000" "32" "32"
           eq_refl eq_refl eq_refl).
Defined.

(** X17 on offers of two draws. *)
Lemma listed_summary_draws :
  summarize_offers decimal_int listed_offers = Ret listed_summary /\
  StronglySorted draw_before (sm_draws listed_summary) /\
  NoDup (map fst (sm_draws listed_summary)) /\
  flat_map snd (sm_draws listed_summary)
  ≡ₚ List.filter (has_draw decimal_int) (sm_ticket_names listed_summary).
Proof.
  assert (Hs : summarize_offers decimal_int listed_offers = Ret listed_summary)
    by (vm_compute; reflexivity).
  split; [exact Hs|].
  destruct (summarize_offers_draws decimal_int listed_offers listed_summary Hs)
    as (_ & _ & _ & Hsorted & Hnodup & _ & Hperm & _).
  auto.
Defined.
